(** * CertStreamMonitor: the per-event callback and the start-up sequence

    A shallow embedding of [src/CertStreamMonitor.py].  Python values decoded
    from the feed are a small inductive type, the exceptions the script can
    meet are an enumeration, and the effectful code runs in a state-and-
    exception monad over an explicit world (the SQLite handle, what was
    written to [sys.stdout], what was handed to [logging]).

    The Python standard library ([re], [datetime]) and the helpers of the
    repository that live outside this file ([utils.sqlite], [utils.confparser],
    [utils.utils]) are interfaces: records of operations the embedding is
    parameterised by. *)

From Stdlib Require Import List String Ascii ZArith Bool Lia.
Import ListNotations.

Set Warnings "-register-all".

Local Open Scope string_scope.
Local Open Scope Z_scope.

(** ** Python values and exceptions *)

(** What [json.loads] hands to the callback.  Numbers are the integers; a
    dictionary is the list of its items, looked up from the front. *)
Inductive pyobj : Type :=
| PyNone
| PyBool (b : bool)
| PyInt (z : Z)
| PyStr (s : string)
| PyList (l : list pyobj)
| PyDict (d : list (string * pyobj)).

Inductive exn : Type :=
| KeyError (key : string)
| TypeError
| UnboundLocalError (name : string)
| NameError (name : string)
| AttributeError (name : string)
| SystemExit (code : Z)
| re_error
| ExternalError (what : string)
| Unmodelled.

(** Pure computations that may raise. *)
Definition result (A : Type) : Type := (exn + A)%type.

Definition rbind {A B} (r : result A) (k : A -> result B) : result B :=
  match r with
  | inl e => inl e
  | inr a => k a
  end.

Fixpoint assoc (k : string) (d : list (string * pyobj)) : option pyobj :=
  match d with
  | [] => None
  | (k', v) :: d' => if String.eqb k k' then Some v else assoc k d'
  end.

(** [o[k]] for a string key [k]. *)
Definition subscript (o : pyobj) (k : string) : result pyobj :=
  match o with
  | PyDict d =>
      match assoc k d with
      | Some v => inr v
      | None => inl (KeyError k)
      end
  | _ => inl TypeError
  end.

(** [o[k1][k2]...[kn]]. *)
Fixpoint subscripts (o : pyobj) (ks : list string) : result pyobj :=
  match ks with
  | [] => inr o
  | k :: ks' => rbind (subscript o k) (fun v => subscripts v ks')
  end.

(** [o == "s"] for a string literal. *)
Definition eq_str (o : pyobj) (s : string) : bool :=
  match o with
  | PyStr s' => String.eqb s' s
  | _ => false
  end.

(** The sequence a [for] statement walks through. *)
Definition iterate (o : pyobj) : result (list pyobj) :=
  match o with
  | PyList l => inr l
  | PyStr s => inr (map (fun c => PyStr (String c EmptyString)) (list_ascii_of_string s))
  | PyDict d => inr (map (fun kv => PyStr (fst kv)) d)
  | _ => inl TypeError
  end.

(** [len(set(results))]. *)
Definition len_set (results : list string) : Z :=
  Z.of_nat (List.length (nodup string_dec results)).

(** Truth value of a list. *)
Definition truthy {A} (l : list A) : bool :=
  match l with
  | [] => false
  | _ :: _ => true
  end.

(** ** A state-and-exception monad

    [W] is the world a piece of code acts on.  A run ends normally with a
    value or with a raised exception; either way the effects performed so far
    stay in the world. *)

Section Monad.

Variable W : Type.

Inductive outcome (A : Type) : Type :=
| Normal (a : A) (w : W)
| Raised (e : exn) (w : W).

Definition world_of {A} (o : outcome A) : W :=
  match o with
  | Normal _ _ w => w
  | Raised _ _ w => w
  end.

Definition M (A : Type) : Type := W -> outcome A.

Definition ret {A} (a : A) : M A := fun w => Normal A a w.
Definition raise {A} (e : exn) : M A := fun w => Raised A e w.
Definition bind {A B} (m : M A) (k : A -> M B) : M B :=
  fun w =>
    match m w with
    | Normal _ a w' => k a w'
    | Raised _ e w' => Raised B e w'
    end.
Definition lift {A} (r : result A) : M A :=
  match r with
  | inl e => raise e
  | inr a => ret a
  end.

(** [try: m except: handler] with a bare [except], which catches everything. *)
Definition try_except {A} (m : M A) (handler : exn -> M A) : M A :=
  fun w =>
    match m w with
    | Normal _ a w' => Normal A a w'
    | Raised _ e w' => handler e w'
    end.

(** The body of a [for] loop run on each element; an exception ends the loop. *)
Fixpoint for_each {A} (body : A -> M unit) (l : list A) : M unit :=
  match l with
  | [] => ret tt
  | x :: l' => bind (body x) (fun _ => for_each body l')
  end.

End Monad.

Arguments Normal {W A} a w.
Arguments Raised {W A} e w.
Arguments world_of {W A} o.
Arguments ret {W A} a _.
Arguments raise {W A} e _.
Arguments bind {W A B} m k _.
Arguments lift {W A} r _.
Arguments try_except {W A} m handler _.
Arguments for_each {W A} body l _.

Declare Scope monad_scope.
Notation "x <- m ;; k" := (bind m (fun x => k))
  (at level 61, m at next level, right associativity) : monad_scope.
Notation "m ;;; k" := (bind m (fun _ => k))
  (at level 61, right associativity) : monad_scope.
Local Open Scope monad_scope.

(** ** Interfaces of the collaborators *)

(** The part of the [re] module the script uses.  [re.findall(p, s)] compiles
    [p], which may raise [re.error], and scans [s] with the compiled pattern. *)
Record ReModule : Type := {
  Pattern : Type;
  re_compile : string -> result Pattern;
  Pattern_findall : Pattern -> string -> list string
}.

(** [utils.sqlite.SqliteCmd]: the two methods the callback calls.  Either may
    raise (the storage can be unavailable). *)
Record SqliteCmd : Type := {
  DB : Type;
  SQLiteVerifyEntry : DB -> string -> string -> result Z;
  SQLiteInsert :
    DB -> string -> string -> string -> pyobj -> pyobj -> string -> string -> result DB
}.

(** [datetime] and [str.format] on values other than strings.  The wall clock
    is an oracle: the [n]-th reading. *)
Record Builtins : Type := {
  utcfromtimestamp_isoformat : pyobj -> result string;
  utcnow_isoformat : nat -> string;
  now_isoformat : nat -> string;
  repr : pyobj -> string
}.

(** The globals [ConfAnalysis] loads and the callback reads. *)
Record Config : Type := {
  TABLEname : string;
  SearchKeywords : string;
  BlacklistKeywords : string;
  DetectionThreshold : Z
}.

Inductive stdout_op : Type :=
| write (s : string)
| flush.

Inductive loglevel : Type := DEBUG | INFO | ERROR.

(** The calls made on the [SQL] object, in order (a ghost log). *)
Inductive sql_call : Type :=
| VerifyEntry (table domain : string)
| Insert (table domain san : string) (issuer fingerprint : pyobj)
         (startime firstseen : string).

(** ** The callback *)

Section Callback.

Variable re : ReModule.
Variable sqlite : SqliteCmd.
Variable py : Builtins.
Variable cfg : Config.

Record world : Type := {
  SQL : DB sqlite;
  stdout : list stdout_op;
  logging : list (loglevel * string);
  sql_calls : list sql_call;
  clock : nat
}.

Definition CB (A : Type) : Type := M world A.

(** *** Effects *)

Definition read_utcnow : CB string :=
  fun w => Normal (utcnow_isoformat py (clock w))
    {| SQL := SQL w; stdout := stdout w; logging := logging w;
       sql_calls := sql_calls w; clock := S (clock w) |}.

Definition read_now : CB string :=
  fun w => Normal (now_isoformat py (clock w))
    {| SQL := SQL w; stdout := stdout w; logging := logging w;
       sql_calls := sql_calls w; clock := S (clock w) |}.

Definition sys_stdout (op : stdout_op) : CB unit :=
  fun w => Normal tt
    {| SQL := SQL w; stdout := (stdout w ++ [op])%list; logging := logging w;
       sql_calls := sql_calls w; clock := clock w |}.

Definition logging_debug (msg : string) : CB unit :=
  fun w => Normal tt
    {| SQL := SQL w; stdout := stdout w;
       logging := (logging w ++ [(DEBUG, msg)])%list;
       sql_calls := sql_calls w; clock := clock w |}.

Definition log_call (c : sql_call) (w : world) : world :=
  {| SQL := SQL w; stdout := stdout w; logging := logging w;
     sql_calls := (sql_calls w ++ [c])%list; clock := clock w |}.

Definition SQL_SQLiteVerifyEntry (table domain : string) : CB Z :=
  fun w =>
    let w' := log_call (VerifyEntry table domain) w in
    match SQLiteVerifyEntry sqlite (SQL w) table domain with
    | inl e => Raised e w'
    | inr n => Normal n w'
    end.

Definition SQL_SQLiteInsert (table domain san : string) (issuer fingerprint : pyobj)
    (startime firstseen : string) : CB unit :=
  fun w =>
    let w' := log_call (Insert table domain san issuer fingerprint startime firstseen) w in
    match SQLiteInsert sqlite (SQL w) table domain san issuer fingerprint startime firstseen with
    | inl e => Raised e w'
    | inr db =>
        Normal tt {| SQL := db; stdout := stdout w'; logging := logging w';
                     sql_calls := sql_calls w'; clock := clock w' |}
    end.

(** *** Pure pieces *)

(** [re.findall(pattern, host)] on a [str] subject. *)
Definition re_findall (pattern host : string) : result (list string) :=
  rbind (re_compile re pattern) (fun p => inr (Pattern_findall re p host)).

(** ["{}".format(v)]. *)
Definition format_field (v : pyobj) : string :=
  match v with
  | PyStr s => s
  | _ => repr py v
  end.

Definition leaf_cert (message : pyobj) (ks : list string) : result pyobj :=
  subscripts message ("data" :: "leaf_cert" :: ks).

Definition not_before_isoformat (message : pyobj) : result string :=
  rbind (leaf_cert message ["not_before"]) (utcfromtimestamp_isoformat py).

(** The line written to [sys.stdout] for a stored host. *)
Definition stdout_line (now host : string) (issuer fingerprint : pyobj)
    (starttime : string) : string :=
  "[" ++ now ++ "] " ++ host ++ " (SAN: " ++ "" ++ ") (Issuer: " ++ format_field issuer
  ++ ") (Fingerprint: " ++ format_field fingerprint
  ++ ") (StartTime: " ++ starttime ++ ")" ++ String (ascii_of_nat 10) "".

(** The message handed to [logging.debug] below the threshold. *)
Definition debug_line (host : string) (issuer fingerprint : pyobj)
    (starttime : string) : string :=
  "DETECTION THRESHOLD VALUE NOT REACHED - " ++ host ++ " (SAN: " ++ ""
  ++ ") (Issuer: " ++ format_field issuer
  ++ ") (Fingerprint: " ++ format_field fingerprint
  ++ ") (StartTime: " ++ starttime ++ ")".

(** *** The loop body, lines 127-157 *)

(** Lines 127-131: the blacklist match (skipped when no blacklist is
    configured, [False] then) and the number of distinct search matches. *)
Definition match_host (host : string) : result (list string * Z) :=
  rbind (if String.eqb (BlacklistKeywords cfg) ""
         then inr []
         else re_findall (BlacklistKeywords cfg) host)
    (fun is_blacklisted =>
       rbind (re_findall (SearchKeywords cfg) host)
         (fun results => inr (is_blacklisted, len_set results))).

(** Lines 139-153: the host reached the threshold. *)
Definition store_host (message : pyobj) (host : string) : CB unit :=
  let Domain := host in
  let SAN := "" in
  Issuer <- lift (leaf_cert message ["subject"; "aggregated"]) ;;
  Fingerprint <- lift (leaf_cert message ["fingerprint"]) ;;
  Startime <- lift (not_before_isoformat message) ;;
  FirstSeen <- read_utcnow ;;
  n <- SQL_SQLiteVerifyEntry (TABLEname cfg) Domain ;;
  if n =? 0 then
    SQL_SQLiteInsert (TABLEname cfg) Domain SAN Issuer Fingerprint Startime FirstSeen ;;;
    now <- read_now ;;
    issuer <- lift (leaf_cert message ["issuer"; "aggregated"]) ;;
    fingerprint <- lift (leaf_cert message ["fingerprint"]) ;;
    starttime <- lift (not_before_isoformat message) ;;
    sys_stdout (write (stdout_line now host issuer fingerprint starttime)) ;;;
    sys_stdout flush
  else ret tt.

(** Line 157: at least one match, below the threshold. *)
Definition debug_host (message : pyobj) (host : string) : CB unit :=
  issuer <- lift (leaf_cert message ["issuer"; "aggregated"]) ;;
  fingerprint <- lift (leaf_cert message ["fingerprint"]) ;;
  starttime <- lift (not_before_isoformat message) ;;
  logging_debug (debug_line host issuer fingerprint starttime).

(** Lines 134-157. *)
Definition act_on_host (message : pyobj) (host : string)
    (is_blacklisted : list string) (FindNb : Z) : CB unit :=
  if truthy is_blacklisted && (DetectionThreshold cfg <=? FindNb) then ret tt
  else if DetectionThreshold cfg <=? FindNb then store_host message host
  else if (0 <? FindNb) && (FindNb <? DetectionThreshold cfg) then debug_host message host
  else ret tt.

(** What [re.findall] does first on a subject that is not a [str]: the
    pattern is compiled, then the subject is refused. *)
Definition first_pattern : string :=
  if String.eqb (BlacklistKeywords cfg) "" then SearchKeywords cfg
  else BlacklistKeywords cfg.

Definition loop_body (message : pyobj) (host : pyobj) : CB unit :=
  match host with
  | PyStr h =>
      r <- lift (match_host h) ;;
      act_on_host message h (fst r) (snd r)
  | _ =>
      lift (re_compile re first_pattern) ;;; raise TypeError
  end.

(** *** [print_callback], lines 115-157

    The local [all_domains] is bound only by the [certificate_update] branch;
    [None] stands for the unbound name. *)
Definition print_callback (message : pyobj) : CB unit :=
  mt <- lift (subscript message "message_type") ;;
  if eq_str mt "heartbeat" then ret tt
  else
    mt' <- lift (subscript message "message_type") ;;
    all_domains <-
      (if eq_str mt' "certificate_update"
       then v <- lift (leaf_cert message ["all_domains"]) ;; ret (Some v)
       else ret None) ;;
    match all_domains with
    | None => raise (UnboundLocalError "all_domains")
    | Some v =>
        hosts <- lift (iterate v) ;;
        for_each (loop_body message) hosts
    end.

End Callback.

(** ** A fragment of Python's [re]: alternations of literal keywords

    The patterns of this fragment are the ones the configuration is meant to
    hold, [keyword|keyword|...], each keyword a run of ordinary characters
    (possibly empty).  [re.compile] reads the pattern from the left: a
    quantifier that opens an alternative has nothing to repeat and is an
    [re.error]; any other special character leaves the fragment, which
    [Unmodelled] reports.  [findall] follows CPython's scan: the leftmost
    match at or after the current position, alternatives tried in order, and
    after an empty match the next one at the same position must be
    non-empty. *)

Module PyRe.

Definition special (c : ascii) : bool :=
  existsb (Ascii.eqb c) (list_ascii_of_string ".^$*+?{}[]\()").

Definition quantifier (c : ascii) : bool :=
  existsb (Ascii.eqb c) (list_ascii_of_string "*+?").

Definition cons_char (c : ascii) (alts : list string) : list string :=
  match alts with
  | a :: rest => String c a :: rest
  | [] => [String c ""]
  end.

Fixpoint parse (at_start : bool) (s : string) : result (list string) :=
  match s with
  | "" => inr [""]
  | String c s' =>
      if Ascii.eqb c "|" then rbind (parse true s') (fun alts => inr ("" :: alts))
      else if at_start && quantifier c then inl re_error
      else if special c then inl Unmodelled
      else rbind (parse false s') (fun alts => inr (cons_char c alts))
  end.

(** The first alternative that matches at the head of [s]. *)
Definition match_here (alts : list string) (s : string) (must_advance : bool)
    : option string :=
  find (fun a => String.prefix a s && (negb must_advance || negb (String.eqb a ""))) alts.

(** [skip] characters of [s] belong to the previous match. *)
Fixpoint scan (alts : list string) (s : string) (skip : nat) : list string :=
  match skip with
  | S k =>
      match s with
      | "" => []
      | String _ s' => scan alts s' k
      end
  | O =>
      let resume (n : nat) :=
        match s with
        | "" => []
        | String _ s' => scan alts s' (Nat.pred n)
        end in
      match match_here alts s false with
      | None => resume 1%nat
      | Some m =>
          if String.eqb m "" then
            m :: match match_here alts s true with
                 | None => resume 1%nat
                 | Some m' => m' :: resume (String.length m')
                 end
          else m :: resume (String.length m)
      end
  end.

Definition findall (alts : list string) (s : string) : list string :=
  scan alts s 0.

Definition re : ReModule :=
  {| Pattern := list string;
     re_compile := parse true;
     Pattern_findall := findall |}.

End PyRe.

(** ** The dedup store *)

Module DedupStore.

Record DetectionRecord : Type := {
  domain : string;
  san : string;
  issuer : pyobj;
  fingerprint : pyobj;
  startTime : string;
  firstSeen : string
}.

(** Modelled from the spec: [utils/sqlite.py] ([SqliteCmd]) is not among the
    sources.  Section 4.3 gives its contract: one table keyed by domain,
    [exists(domain)] true iff a record for the domain is there, [insert]
    adding a record.  The rows are kept in insertion order and [insert] does
    not look at the key, so that uniqueness is the caller's doing. *)
Definition table : Type := list DetectionRecord.

(** Modelled from the spec: the [exists(domain)] of section 4.3. *)
Definition exists_domain (d : string) (t : table) : bool :=
  existsb (fun r => String.eqb (domain r) d) t.

(** Modelled from the spec: the [insert(record)] of section 4.3. *)
Definition insert (r : DetectionRecord) (t : table) : table :=
  (t ++ [r])%list.

(** Modelled from the spec: [SqliteCmd] over the table above; the lookup
    answers 1 or 0 and neither method fails. *)
Definition sqlite : SqliteCmd :=
  {| DB := table;
     SQLiteVerifyEntry := fun t _ d => inr (if exists_domain d t then 1 else 0);
     SQLiteInsert := fun t _ d s i f st fs =>
       inr (insert {| domain := d; san := s; issuer := i; fingerprint := f;
                      startTime := st; firstSeen := fs |} t) |}.

(** Modelled from the spec: the same store while the storage is unavailable
    (section 4.3, failure handling): both methods raise. *)
Definition unavailable : SqliteCmd :=
  {| DB := table;
     SQLiteVerifyEntry := fun _ _ _ => inl (ExternalError "storage unavailable");
     SQLiteInsert := fun _ _ _ _ _ _ _ _ => inl (ExternalError "storage unavailable") |}.

Definition domains (t : table) : list string := map domain t.

End DedupStore.


(** ** Start-up: [ConfAnalysis] and [main]

    The module globals are a dictionary; reading a name that was never
    assigned raises [NameError].  The object [ConfParser] returns is the
    dictionary of its attributes.  Calls to collaborators are recorded in
    order; whether a call raises is up to the environment, an oracle that
    sees the calls made so far. *)

Inductive ext_call : Type :=
| logging_error (msg : string)
| logging_info (msg : string)
| VerifyPath_new
| VerifyOrCreate (path : pyobj)
| SqliteCmd_new (dbfile : pyobj)
| SQLiteCreateTable (table : pyobj)
| getLogger
| setLevel (level : pyobj)
| RotatingFileHandler (logfile : pyobj)
| StreamHandler
| addHandler
| listen_for_events (server proxy_host proxy_port proxy_username proxy_password : pyobj)
| SQLiteClose.

Record process : Type := {
  globals : list (string * pyobj);
  calls : list ext_call
}.

Section Startup.

Variable py : Builtins.
(** [utils.confparser.ConfParser]: from the value of [ConfFile] to the
    attributes of the object, or an exception. *)
Variable ConfParser : pyobj -> result (list (string * pyobj)).
(** Whether a call to a collaborator raises, given the calls made before. *)
Variable environment : list ext_call -> ext_call -> option exn.
(** [str(sys.exc_info())]. *)
Variable str_exc_info : exn -> string.

Definition ST (A : Type) : Type := M process A.

Definition global (name : string) : ST pyobj :=
  fun p =>
    match assoc name (globals p) with
    | Some v => Normal v p
    | None => Raised (NameError name) p
    end.

Definition set_global (name : string) (v : pyobj) : ST unit :=
  fun p => Normal tt {| globals := (name, v) :: globals p; calls := calls p |}.

Definition call (c : ext_call) : ST unit :=
  fun p =>
    let p' := {| globals := globals p; calls := (calls p ++ [c])%list |} in
    match environment (calls p) c with
    | Some e => Raised e p'
    | None => Normal tt p'
    end.

(** [CONF.name]. *)
Definition getattr (attrs : list (string * pyobj)) (name : string) : result pyobj :=
  match assoc name attrs with
  | Some v => inr v
  | None => inl (AttributeError name)
  end.

(** A [str] operand of [+] next to a string literal. *)
Definition str_operand (v : pyobj) : result string :=
  match v with
  | PyStr s => inr s
  | _ => inl TypeError
  end.

(** The globals [ConfAnalysis] assigns after [CONF], in the order of lines
    66-78. *)
Definition conf_names : list string :=
  ["DBFile"; "TABLEname"; "LogFile"; "LogLevel"; "LogType"; "SearchKeywords";
   "BlacklistKeywords"; "DetectionThreshold"; "ACTServer"; "Proxy_Host";
   "Proxy_Port"; "Proxy_Username"; "Proxy_Password"].

(** Lines 41-82. *)
Definition ConfAnalysis (ConfFile : pyobj) : ST unit :=
  try_except
    (CONF <- lift (ConfParser ConfFile) ;;
     set_global "CONF" (PyDict CONF) ;;;
     for_each (fun name => v <- lift (getattr CONF name) ;; set_global name v)
       conf_names)
    (fun err => call (logging_error (" ConfParser Error: " ++ str_exc_info err))).

(** Lines 161-204. *)
Definition main : ST unit :=
  try_except
    (ConfFile <- global "ConfFile" ;;
     ConfAnalysis ConfFile ;;;
     call VerifyPath_new ;;;
     DBFile <- global "DBFile" ;;
     call (VerifyOrCreate DBFile) ;;;
     LogFile <- global "LogFile" ;;
     call (VerifyOrCreate LogFile) ;;;
     DBFile <- global "DBFile" ;;
     call (SqliteCmd_new DBFile) ;;;
     set_global "SQL" PyNone ;;;
     TABLEname <- global "TABLEname" ;;
     call (SQLiteCreateTable TABLEname) ;;;
     call getLogger ;;;
     LogLevel <- global "LogLevel" ;;
     call (setLevel LogLevel) ;;;
     LogType <- global "LogType" ;;
     (if eq_str LogType "file" then
        LogFile <- global "LogFile" ;;
        call (RotatingFileHandler LogFile) ;;;
        call addHandler
      else
        LogType <- global "LogType" ;;
        if eq_str LogType "syslog" then
          call StreamHandler ;;;
          call addHandler
        else
          LogType <- global "LogType" ;;
          t <- lift (str_operand LogType) ;;
          call (logging_error ("Unsupported log type " ++ t ++ ". Exiting...")) ;;;
          raise (SystemExit 1)) ;;;
     SearchKeywords <- global "SearchKeywords" ;;
     k <- lift (str_operand SearchKeywords) ;;
     DetectionThreshold <- global "DetectionThreshold" ;;
     call (logging_info ("Looking for these strings: " ++ k
                         ++ ", detection threshold: "
                         ++ format_field py DetectionThreshold)) ;;;
     ACTServer <- global "ACTServer" ;;
     Proxy_Host <- global "Proxy_Host" ;;
     Proxy_Port <- global "Proxy_Port" ;;
     Proxy_Username <- global "Proxy_Username" ;;
     Proxy_Password <- global "Proxy_Password" ;;
     call (listen_for_events ACTServer Proxy_Host Proxy_Port Proxy_Username
             Proxy_Password) ;;;
     (* print_callback() is called without its two arguments *)
     (raise TypeError : ST unit) ;;;
     call SQLiteClose)
    (fun err => call (logging_error (" Main error " ++ str_exc_info err))).

(** The process as [args_parse] leaves it: [ConfFile] bound when [-c] named
    an existing file, nothing else assigned, no call made. *)
Definition fresh_process (ConfFile : option pyobj) : process :=
  {| globals := match ConfFile with
                | Some f => [("ConfFile", f)]
                | None => []
                end;
     calls := [] |}.

Definition run_main (ConfFile : option pyobj) : outcome process unit :=
  main (fresh_process ConfFile).

End Startup.

Definition is_listen (c : ext_call) : bool :=
  match c with
  | listen_for_events _ _ _ _ _ => true
  | _ => false
  end.

(** The feed is consumed once [listen_for_events] has been called. *)
Definition consumes_feed (p : process) : bool := existsb is_listen (calls p).

(** Modelled from the spec: [utils/confparser.py] ([ConfParser]) is not among
    the sources.  Sections 4.2 and 7: a missing or invalid configuration, a
    missing, non-integer or non-positive detection threshold and an
    unreadable search pattern are configuration errors, rejected when the
    configuration is loaded.  [read] is the content of the file a path names,
    as option names and values, when there is such a file. *)
Definition SpecConfParser (re : ReModule)
    (read : pyobj -> option (list (string * pyobj))) (ConfFile : pyobj)
    : result (list (string * pyobj)) :=
  match read ConfFile with
  | None => inl (ExternalError "configuration file")
  | Some settings =>
      match assoc "DetectionThreshold" settings with
      | Some (PyInt n) =>
          if 0 <? n then
            match assoc "SearchKeywords" settings with
            | Some (PyStr k) =>
                match re_compile re k with
                | inr _ => inr settings
                | inl e => inl e
                end
            | _ => inl (ExternalError "search pattern")
            end
          else inl (ExternalError "detection threshold")
      | _ => inl (ExternalError "detection threshold")
      end
  end.

(** ** The detection policy, as the specification words it

    Section 4.2: [classify(hostname, findCount, isBlacklisted, threshold)],
    rules in order.  This definition follows the specification; the code is
    [act_on_host] above. *)

Inductive verdict : Type := FullDetection | PartialDetection | NoMatch.

Definition classify (findCount : Z) (isBlacklisted : bool) (threshold : Z) : verdict :=
  if isBlacklisted && (threshold <=? findCount) then NoMatch
  else if threshold <=? findCount then FullDetection
  else if (0 <? findCount) && (findCount <? threshold) then PartialDetection
  else NoMatch.

(** ** Fixtures: concrete events, configurations and collaborators *)

Module Scenario.

(** A clock stopped at one instant; certificates that start at the epoch. *)
Definition py : Builtins :=
  {| utcfromtimestamp_isoformat := fun v =>
       match v with
       | PyInt 0 => inr "1970-01-01T00:00:00"
       | PyInt _ => inl (ExternalError "timestamp outside the fixture")
       | _ => inl TypeError
       end;
     utcnow_isoformat := fun _ => "2021-06-01T12:00:00";
     now_isoformat := fun _ => "2021-06-01T14:00:00";
     repr := fun _ => "<object>" |}.

Definition cfg : Config :=
  {| TABLEname := "detections";
     SearchKeywords := "paypal";
     BlacklistKeywords := "";
     DetectionThreshold := 2 |}.

Definition cfg_two_keywords : Config :=
  {| TABLEname := "detections";
     SearchKeywords := "paypal|login";
     BlacklistKeywords := "";
     DetectionThreshold := 2 |}.

Definition cfg_blacklist : Config :=
  {| TABLEname := "detections";
     SearchKeywords := "paypal|login";
     BlacklistKeywords := "paypal";
     DetectionThreshold := 3 |}.

Definition cfg_empty_pattern : Config :=
  {| TABLEname := "detections";
     SearchKeywords := "";
     BlacklistKeywords := "";
     DetectionThreshold := 2 |}.

Definition cfg_invalid_pattern : Config :=
  {| TABLEname := "detections";
     SearchKeywords := "*paypal";
     BlacklistKeywords := "";
     DetectionThreshold := 2 |}.

Definition leaf (all_domains : list string) : pyobj :=
  PyDict [("all_domains", PyList (map PyStr all_domains));
          ("subject", PyDict [("aggregated", PyStr "/CN=paypal-login.com")]);
          ("issuer", PyDict [("aggregated", PyStr "/C=US/O=Let's Encrypt/CN=R3")]);
          ("fingerprint", PyStr "AB:CD:EF");
          ("not_before", PyInt 0)].

Definition certificate_update (all_domains : list string) : pyobj :=
  PyDict [("message_type", PyStr "certificate_update");
          ("data", PyDict [("leaf_cert", leaf all_domains)])].

Definition heartbeat : pyobj :=
  PyDict [("message_type", PyStr "heartbeat"); ("timestamp", PyInt 0)].

(** A message of a type the callback does not know. *)
Definition other_message : pyobj :=
  PyDict [("message_type", PyStr "dns_entries");
          ("data", PyDict [("leaf_cert", leaf ["example.com"])])].

(** A certificate update without its list of domains. *)
Definition no_domains : pyobj :=
  PyDict [("message_type", PyStr "certificate_update");
          ("data", PyDict [("leaf_cert", PyDict [("fingerprint", PyStr "AB:CD:EF")])])].

Definition start (sqlite : SqliteCmd) (db : DB sqlite) : world sqlite :=
  Build_world sqlite db [] [] [] 0.

Definition w0 : world DedupStore.sqlite := start DedupStore.sqlite [].

Definition down : world DedupStore.unavailable := start DedupStore.unavailable [].

End Scenario.

(** ** Vocabulary of the statements *)

(** A field the callback reads is not there: the message type, or the list
    of domains of a certificate update.  [e] is the exception the subscript
    raises. *)
Inductive missing_field (message : pyobj) : exn -> Prop :=
| missing_message_type e :
    subscript message "message_type" = inl e ->
    missing_field message e
| missing_domain_list e :
    subscript message "message_type" = inr (PyStr "certificate_update") ->
    leaf_cert message ["all_domains"] = inl e ->
    missing_field message e.

(** An event of unexpected shape: the message type or the list of domains is
    missing, or the message type is neither [heartbeat] nor
    [certificate_update]. *)
Inductive unexpected_shape (message : pyobj) : Prop :=
| field_missing e :
    missing_field message e ->
    unexpected_shape message
| other_message_type mt :
    subscript message "message_type" = inr mt ->
    eq_str mt "heartbeat" = false ->
    eq_str mt "certificate_update" = false ->
    unexpected_shape message.

(** The hostnames the callback walks through: those of a certificate update
    whose list is there and iterable, none otherwise. *)
Definition hosts_of (message : pyobj) : list pyobj :=
  match subscript message "message_type" with
  | inr mt =>
      if eq_str mt "certificate_update" then
        match rbind (leaf_cert message ["all_domains"]) iterate with
        | inr hosts => hosts
        | inl _ => []
        end
      else []
  | inl _ => []
  end.

(** The host is one the loop body takes to the store branch. *)
Definition reaches_store (re : ReModule) (cfg : Config) (host : string) : bool :=
  match match_host re cfg host with
  | inr (is_blacklisted, FindNb) =>
      negb (truthy is_blacklisted && (DetectionThreshold cfg <=? FindNb))
      && (DetectionThreshold cfg <=? FindNb)
  | inl _ => false
  end.

(** The setting of the detection threshold is missing, not an integer, or
    not positive. *)
Definition threshold_invalid (settings : list (string * pyobj)) : bool :=
  match assoc "DetectionThreshold" settings with
  | Some (PyInt n) => n <=? 0
  | _ => true
  end.

(** The world after [k] deliveries of one host. *)
Definition redeliver {W} (body : M W unit) (k : nat) (w : W) : W :=
  Nat.iter k (fun w' => world_of (body w')) w.

Module StartupScenario.

Definition settings (threshold : Z) : list (string * pyobj) :=
  [("DBFile", PyStr "db/CertStreamMonitor.sqlite3");
   ("TABLEname", PyStr "detections");
   ("LogFile", PyStr "log/certstreammonitor.log");
   ("LogLevel", PyStr "INFO");
   ("LogType", PyStr "file");
   ("SearchKeywords", PyStr "paypal|login");
   ("BlacklistKeywords", PyStr "");
   ("DetectionThreshold", PyInt threshold);
   ("ACTServer", PyStr "wss://certstream.calidog.io");
   ("Proxy_Host", PyNone);
   ("Proxy_Port", PyNone);
   ("Proxy_Username", PyNone);
   ("Proxy_Password", PyNone)].

Definition conf_path : pyobj := PyStr "conf/example.conf".

(** A file system with one configuration file. *)
Definition read (threshold : Z) (path : pyobj) : option (list (string * pyobj)) :=
  match path with
  | PyStr "conf/example.conf" => Some (settings threshold)
  | _ => None
  end.

(** Collaborators that never fail. *)
Definition calm : list ext_call -> ext_call -> option exn := fun _ _ => None.

Definition str_exc_info (e : exn) : string := "(<class>, <exception>, <traceback>)".

(** A configuration parser that hands over the settings as they are. *)
Definition lenient (threshold : Z) (path : pyobj) : result (list (string * pyobj)) :=
  match read threshold path with
  | Some s => inr s
  | None => inl (ExternalError "configuration file")
  end.

End StartupScenario.

(** ** The command line: [usage], [args_parse] and the entry of the script *)

(** What the script shows on its standard output, next to the process. *)
Record shell : Type := {
  proc : process;
  printed : list string
}.

(** [assert False, msg]. *)
Definition AssertionError (msg : string) : exn :=
  ExternalError ("AssertionError: " ++ msg).

Definition newline : string := String (ascii_of_nat 10) "".

(** The text of lines 33-36. *)
Definition usage_text : string :=
  newline ++ "    -h --help       Print this help"
  ++ newline ++ "    -c --config     Configuration file to use"
  ++ newline ++ "    ".

Section CommandLine.

Variable py : Builtins.
Variable ConfParser : pyobj -> result (list (string * pyobj)).
Variable environment : list ext_call -> ext_call -> option exn.
Variable str_exc_info : exn -> string.
(** [getopt.getopt(args, "hc:", ["help", "conf="])]: the options with their
    arguments and the remaining arguments, or the text of the
    [GetoptError]. *)
Variable getopt : list string -> string + (list (string * string) * list string).
(** [os.path.isfile]. *)
Variable isfile : string -> bool.

Definition SH (A : Type) : Type := M shell A.

(** A computation on the process, run inside the shell. *)
Definition in_process {A} (m : M process A) : SH A :=
  fun s =>
    match m (proc s) with
    | Normal a p => Normal a {| proc := p; printed := printed s |}
    | Raised e p => Raised e {| proc := p; printed := printed s |}
    end.

Definition print (text : string) : SH unit :=
  fun s => Normal tt {| proc := proc s; printed := (printed s ++ [text])%list |}.

(** Lines 29-38. *)
Definition usage : SH unit :=
  print usage_text ;;;
  raise (SystemExit 0).

(** The body of the loop of lines 99-109. *)
Definition handle_option (oa : string * string) : SH unit :=
  let (o, a) := oa in
  if String.eqb o "-h" || String.eqb o "--help" then usage
  else if String.eqb o "-c" || String.eqb o "--config" then
    if isfile a then in_process (set_global "ConfFile" (PyStr a))
    else
      in_process (call environment
                    (logging_error " Can't find configuration file. Exiting...")) ;;;
      raise (SystemExit 1)
  else raise (AssertionError "Unhandled Option").

(** Lines 85-110; [argv] is [sys.argv]. *)
Definition args_parse (argv : list string) : SH unit :=
  (if Nat.eqb (List.length (tl argv)) 0 then usage else ret tt) ;;;
  opts <-
    (match getopt (tl argv) with
     | inr (opts, args) => ret opts
     | inl err =>
         in_process (call environment
                       (logging_error (" Option Error. Exiting..." ++ err))) ;;;
         usage ;;;
         raise (SystemExit 2)
     end) ;;
  for_each handle_option opts.

(** Lines 208-210. *)
Definition script (argv : list string) : SH unit :=
  args_parse argv ;;;
  in_process (main py ConfParser environment str_exc_info).

End CommandLine.

(** The shell when the interpreter starts the script: no configuration name
    is assigned, nothing was called or printed. *)
Definition boot : shell :=
  {| proc := {| globals := []; calls := [] |}; printed := [] |}.

(** ** Vocabulary of the further statements *)

(** [sys.stdout] after whole lines: each one written, then flushed. *)
Definition flushed (lines : list string) : list stdout_op :=
  flat_map (fun line => [write line; flush]) lines.

Definition is_insert (c : sql_call) : bool :=
  match c with
  | Insert _ _ _ _ _ _ _ => true
  | VerifyEntry _ _ => false
  end.

(** The calls one host makes on the store: a lookup of the host in the
    table, alone or followed by the insertion of the same host in the same
    table, with an empty SAN. *)
Inductive store_round (table : string) (hosts : list pyobj) : list sql_call -> Prop :=
| lookup_only d :
    In (PyStr d) hosts ->
    store_round table hosts [VerifyEntry table d]
| lookup_then_insert d i f st fs :
    In (PyStr d) hosts ->
    store_round table hosts [VerifyEntry table d; Insert table d "" i f st fs].

Inductive store_rounds (table : string) (hosts : list pyobj) : list sql_call -> Prop :=
| no_round : store_rounds table hosts []
| more_rounds r rs :
    store_rounds table hosts rs ->
    store_round table hosts r ->
    store_rounds table hosts (rs ++ r)%list.

(** What a run of the callback may add to the world [w] it started from. *)
Inductive callback_trace (sqlite : SqliteCmd) (table : string) (hosts : list pyobj)
    (w w' : world sqlite) : Prop :=
| traced (lines : list string) (added : list sql_call) (messages : list string) :
    stdout sqlite w' = (stdout sqlite w ++ flushed lines)%list ->
    sql_calls sqlite w' = (sql_calls sqlite w ++ added)%list ->
    store_rounds table hosts added ->
    (List.length lines <= List.length (filter is_insert added))%nat ->
    logging sqlite w' = (logging sqlite w ++ map (pair DEBUG) messages)%list ->
    callback_trace sqlite table hosts w w'.

(** The three values the store branch reads from the certificate before it
    turns to the store, in the order of lines 143-146. *)
Definition certificate_fields (py : Builtins) (message : pyobj)
    : result (pyobj * pyobj * string) :=
  rbind (leaf_cert message ["subject"; "aggregated"]) (fun subject =>
  rbind (leaf_cert message ["fingerprint"]) (fun fingerprint =>
  rbind (not_before_isoformat py message) (fun starttime =>
  inr (subject, fingerprint, starttime)))).

(** A computation that ends in an exception from every state. *)
Definition never_returns {W A} (m : M W A) : Prop :=
  forall w, exists e w', m w = Raised e w'.

(** A computation that keeps a property of the world, however it ends. *)
Definition keeps {W A} (I : W -> Prop) (m : M W A) : Prop :=
  forall w, I w -> I (world_of (m w)).

(** [SQLiteClose] was never called. *)
Definition store_open (p : process) : Prop := ~ In SQLiteClose (calls p).

(** The process between [args_parse] and a complete configuration:
    [ConfFile] is [f], the last name [ConfAnalysis] assigns is not assigned
    yet, and the feed client was not called. *)
Definition awaiting_configuration (f : pyobj) (p : process) : Prop :=
  assoc "ConfFile" (globals p) = Some f
  /\ assoc "Proxy_Password" (globals p) = None
  /\ consumes_feed p = false.

(** The assignment of one configuration name, lines 66-78. *)
Definition load_name (CONF : list (string * pyobj)) (name : string)
    : M process unit :=
  v <- lift (getattr CONF name) ;; set_global name v.

(** The globals after the names [names] were assigned the values [val]
    gives them, one after the other. *)
Definition assigned (val : string -> pyobj) (names : list string)
    (g : list (string * pyobj)) : list (string * pyobj) :=
  (rev (map (fun name => (name, val name)) names) ++ g)%list.

Module EdgeScenario.

(** A certificate update whose certificate has a subject and no issuer. *)
Definition no_issuer : pyobj :=
  PyDict [("message_type", PyStr "certificate_update");
          ("data",
           PyDict [("leaf_cert",
                    PyDict [("all_domains", PyList [PyStr "paypal-login.com"]);
                            ("subject", PyDict [("aggregated", PyStr "/CN=paypal-login.com")]);
                            ("fingerprint", PyStr "AB:CD:EF");
                            ("not_before", PyInt 0)])])].

(** A certificate update whose certificate has no subject. *)
Definition no_subject : pyobj :=
  PyDict [("message_type", PyStr "certificate_update");
          ("data",
           PyDict [("leaf_cert",
                    PyDict [("all_domains", PyList [PyStr "paypal-login.com"]);
                            ("issuer", PyDict [("aggregated", PyStr "/C=US/CN=R3")]);
                            ("fingerprint", PyStr "AB:CD:EF");
                            ("not_before", PyInt 0)])])].

(** A list of domains with a number in the middle. *)
Definition mixed_hosts : list pyobj :=
  [PyStr "example.com"; PyInt 7; PyStr "paypal-login.com"].

Definition mixed : pyobj :=
  PyDict [("message_type", PyStr "certificate_update");
          ("data",
           PyDict [("leaf_cert",
                    PyDict [("all_domains", PyList mixed_hosts);
                            ("subject", PyDict [("aggregated", PyStr "/CN=paypal-login.com")]);
                            ("issuer", PyDict [("aggregated", PyStr "/C=US/CN=R3")]);
                            ("fingerprint", PyStr "AB:CD:EF");
                            ("not_before", PyInt 0)])])].

Definition cfg_zero_threshold : Config :=
  {| TABLEname := "detections";
     SearchKeywords := "paypal|login";
     BlacklistKeywords := "";
     DetectionThreshold := 0 |}.

End EdgeScenario.

Module ShellScenario.

(** An option parser for the fixtures: [-c FILE] and [--conf FILE] are read
    as the declared options, a lone positional argument is left over,
    anything else is an option error. *)
Definition getopt (args : list string)
    : string + (list (string * string) * list string) :=
  match args with
  | ["-c"; f] => inr ([("-c", f)], [])
  | ["--conf"; f] => inr ([("--conf", f)], [])
  | ["-h"] => inr ([("-h", "")], [])
  | [a] => if String.prefix "-" a then inl ("option " ++ a ++ " not recognized")
           else inr ([], [a])
  | _ => inl "option not recognized"
  end.

Definition isfile (path : string) : bool := String.eqb path "conf/example.conf".

(** The settings of the start-up fixtures, read by name. *)
Definition val (name : string) : pyobj :=
  match assoc name (StartupScenario.settings 2) with
  | Some v => v
  | None => PyNone
  end.

(** The same settings with a log type the script does not know. *)
Definition odd_settings : list (string * pyobj) :=
  ("LogType", PyStr "udp") :: StartupScenario.settings 2.

Definition odd_val (name : string) : pyobj :=
  match assoc name odd_settings with
  | Some v => v
  | None => PyNone
  end.

End ShellScenario.

(** ** Vocabulary of the statements on hostnames, lines and patterns *)

(** What lines 127-129 leave in [is_blacklisted] for the hostname [h]:
    nothing when no blacklist is configured, else what the blacklist pattern
    finds in [h]. *)
Inductive blacklist_match (re : ReModule) (cfg : Config) (h : string)
    : list string -> Prop :=
| no_blacklist :
    BlacklistKeywords cfg = "" ->
    blacklist_match re cfg h []
| blacklist_searched b :
    BlacklistKeywords cfg <> "" ->
    re_compile re (BlacklistKeywords cfg) = inr b ->
    blacklist_match re cfg h (Pattern_findall re b h).

(** The three values the diagnostic branch reads from the certificate, in the
    order of line 157. *)
Definition diagnostic_fields (py : Builtins) (message : pyobj)
    : result (pyobj * pyobj * string) :=
  rbind (leaf_cert message ["issuer"; "aggregated"]) (fun issuer =>
  rbind (leaf_cert message ["fingerprint"]) (fun fingerprint =>
  rbind (not_before_isoformat py message) (fun starttime =>
  inr (issuer, fingerprint, starttime)))).

(** What one host adds to the calls on the store and to [sys.stdout]: a
    lookup and no output; a lookup and the insertion of the host, with no
    output; or a lookup, the insertion of the host and one line, written and
    flushed, that names the host and carries the fingerprint and the start
    time that were inserted. *)
Inductive host_round (py : Builtins) (table : string) (hosts : list pyobj)
    : list sql_call -> list stdout_op -> Prop :=
| round_lookup d :
    In (PyStr d) hosts ->
    host_round py table hosts [VerifyEntry table d] []
| round_insert d i f st fs :
    In (PyStr d) hosts ->
    host_round py table hosts
      [VerifyEntry table d; Insert table d "" i f st fs] []
| round_insert_line d i f st fs now issuer :
    In (PyStr d) hosts ->
    host_round py table hosts
      [VerifyEntry table d; Insert table d "" i f st fs]
      [write ("[" ++ now ++ "] " ++ d ++ " (SAN: ) (Issuer: "
              ++ format_field py issuer ++ ") (Fingerprint: "
              ++ format_field py f ++ ") (StartTime: " ++ st ++ ")" ++ newline);
       flush].

Inductive host_rounds (py : Builtins) (table : string) (hosts : list pyobj)
    : list sql_call -> list stdout_op -> Prop :=
| rounds_none : host_rounds py table hosts [] []
| rounds_more cs os c o :
    host_rounds py table hosts cs os ->
    host_round py table hosts c o ->
    host_rounds py table hosts (cs ++ c)%list (os ++ o)%list.

(** What a run of the callback adds to the calls on the store and to
    [sys.stdout], from the world [w] it started from. *)
Inductive announced_run (sqlite : SqliteCmd) (py : Builtins) (table : string)
    (hosts : list pyobj) (w w' : world sqlite) : Prop :=
| announced (added : list sql_call) (ops : list stdout_op) :
    sql_calls sqlite w' = (sql_calls sqlite w ++ added)%list ->
    stdout sqlite w' = (stdout sqlite w ++ ops)%list ->
    host_rounds py table hosts added ops ->
    announced_run sqlite py table hosts w w'.

Module PatternScenario.

(** A configured blacklist next to a search pattern that does not compile. *)
Definition cfg_invalid_search : Config :=
  {| TABLEname := "detections";
     SearchKeywords := "*paypal";
     BlacklistKeywords := "paypal";
     DetectionThreshold := 2 |}.

(** A blacklist that does not compile next to a search pattern that does. *)
Definition cfg_invalid_blacklist : Config :=
  {| TABLEname := "detections";
     SearchKeywords := "paypal";
     BlacklistKeywords := "+bank";
     DetectionThreshold := 2 |}.

End PatternScenario.

(** * Properties *)

(** ** The monad and the loop *)

Lemma for_each_app {W A} (body : A -> M W unit) (l1 l2 : list A) (w : W) :
  for_each body (l1 ++ l2)%list w =
  match for_each body l1 w with
  | Normal _ w1 => for_each body l2 w1
  | Raised e w1 => Raised e w1
  end.
Proof.
  revert w.
  induction l1 as [|x l1 IH]; intros w; simpl.
  - reflexivity.
  - unfold bind. destruct (body x w) as [[] w1|e w1].
    + apply IH.
    + reflexivity.
Qed.

(** A property of the world that every run of the body preserves is preserved
    by the loop, however it ends. *)
Lemma for_each_preserves {W A} (P : W -> Prop) (body : A -> M W unit) :
  (forall x w, P w -> P (world_of (body x w))) ->
  forall l w, P w -> P (world_of (for_each body l w)).
Proof.
  intros Hbody l.
  induction l as [|x l IH]; intros w Hw; simpl.
  - exact Hw.
  - unfold bind. specialize (Hbody x w Hw).
    destruct (body x w) as [[] w1|e w1]; simpl in *.
    + apply IH. exact Hbody.
    + exact Hbody.
Qed.

(** ** The callback, whatever the collaborators *)

Section CallbackFacts.

Variable re : ReModule.
Variable sqlite : SqliteCmd.
Variable py : Builtins.
Variable cfg : Config.

Lemma print_callback_certificate_update (message v : pyobj) (hosts : list pyobj) :
  subscript message "message_type" = inr (PyStr "certificate_update") ->
  leaf_cert message ["all_domains"] = inr v ->
  iterate v = inr hosts ->
  forall w : world sqlite,
    print_callback re sqlite py cfg message w
    = for_each (loop_body re sqlite py cfg message) hosts w.
Proof.
  intros Hmt Hall Hit w.
  unfold print_callback, bind.
  rewrite Hmt. simpl. rewrite Hall. simpl. rewrite Hit. simpl.
  reflexivity.
Qed.

Lemma hosts_of_certificate_update (message v : pyobj) (hosts : list pyobj) :
  subscript message "message_type" = inr (PyStr "certificate_update") ->
  leaf_cert message ["all_domains"] = inr v ->
  iterate v = inr hosts ->
  hosts_of message = hosts.
Proof.
  intros Hmt Hall Hit. unfold hosts_of.
  rewrite Hmt. simpl. rewrite Hall. simpl. rewrite Hit. reflexivity.
Qed.

(** The callback is the loop over [hosts_of], or it raises before the loop
    with the world untouched, and then there is no host. *)
Lemma print_callback_loop (message : pyobj) (w : world sqlite) :
  print_callback re sqlite py cfg message w
  = for_each (loop_body re sqlite py cfg message) (hosts_of message) w
  \/ (hosts_of message = []
      /\ exists e, print_callback re sqlite py cfg message w = Raised e w).
Proof.
  unfold print_callback, hosts_of, bind.
  destruct (subscript message "message_type") as [e|mt]; simpl.
  - right. split; [reflexivity|]. exists e. reflexivity.
  - destruct (eq_str mt "heartbeat") eqn:Hh.
    + destruct mt; simpl in Hh; try discriminate.
      apply String.eqb_eq in Hh. subst s. left. reflexivity.
    + destruct (eq_str mt "certificate_update") eqn:Hc; simpl.
      * destruct (leaf_cert message ["all_domains"]) as [e|v]; simpl.
        -- right. split; [reflexivity|]. exists e. reflexivity.
        -- destruct (iterate v) as [e|hosts]; simpl.
           ++ right. split; [reflexivity|]. exists e. reflexivity.
           ++ left. reflexivity.
      * right. split; [reflexivity|].
        exists (UnboundLocalError "all_domains"). reflexivity.
Qed.

Lemma loop_body_str (message : pyobj) (h : string) (w : world sqlite) :
  loop_body re sqlite py cfg message (PyStr h) w =
  match match_host re cfg h with
  | inl e => Raised e w
  | inr r => act_on_host sqlite py cfg message h (fst r) (snd r) w
  end.
Proof.
  unfold loop_body, bind.
  destruct (match_host re cfg h); reflexivity.
Qed.

Lemma loop_body_not_str (message host : pyobj) (w : world sqlite) :
  (forall h, host <> PyStr h) ->
  exists e, loop_body re sqlite py cfg message host w = Raised e w.
Proof.
  intros Hns.
  destruct host; try (exfalso; eapply Hns; reflexivity);
    unfold loop_body, bind;
    destruct (re_compile re (first_pattern cfg)) as [e|p]; simpl;
    eauto.
Qed.

(** The branch taken, by the verdict of the policy. *)
Lemma act_on_host_classify (message : pyobj) (host : string)
    (is_blacklisted : list string) (FindNb : Z) :
  act_on_host sqlite py cfg message host is_blacklisted FindNb =
    match classify FindNb (truthy is_blacklisted) (DetectionThreshold cfg) with
    | NoMatch => ret tt
    | FullDetection => store_host sqlite py cfg message host
    | PartialDetection => debug_host sqlite py message host
    end.
Proof.
  unfold act_on_host, classify.
  destruct (truthy is_blacklisted && (DetectionThreshold cfg <=? FindNb));
    [reflexivity|].
  destruct (DetectionThreshold cfg <=? FindNb); [reflexivity|].
  destruct ((0 <? FindNb) && (FindNb <? DetectionThreshold cfg)); reflexivity.
Qed.

Lemma classify_partial (FindNb threshold : Z) (isBlacklisted : bool) :
  0 < FindNb < threshold ->
  classify FindNb isBlacklisted threshold = PartialDetection.
Proof.
  intros [H0 H1]. unfold classify.
  replace (threshold <=? FindNb) with false by (symmetry; apply Z.leb_gt; lia).
  replace (0 <? FindNb) with true by (symmetry; apply Z.ltb_lt; lia).
  replace (FindNb <? threshold) with true by (symmetry; apply Z.ltb_lt; lia).
  rewrite andb_false_r. reflexivity.
Qed.

Lemma reaches_store_classify (h : string) (bl : list string) (n : Z) :
  match_host re cfg h = inr (bl, n) ->
  reaches_store re cfg h = true <->
  classify n (truthy bl) (DetectionThreshold cfg) = FullDetection.
Proof.
  intros Hm. unfold reaches_store, classify. rewrite Hm.
  destruct (truthy bl && (DetectionThreshold cfg <=? n)); simpl.
  - split; discriminate.
  - destruct (DetectionThreshold cfg <=? n); simpl.
    + split; reflexivity.
    + destruct ((0 <? n) && (n <? DetectionThreshold cfg)); split; discriminate.
Qed.

(** *** The diagnostic branch *)

Lemma debug_host_frame (message : pyobj) (h : string) (w : world sqlite) :
  let w' := world_of (debug_host sqlite py message h w) in
  SQL sqlite w' = SQL sqlite w /\ sql_calls sqlite w' = sql_calls sqlite w
  /\ stdout sqlite w' = stdout sqlite w /\ clock sqlite w' = clock sqlite w.
Proof.
  unfold debug_host, bind.
  destruct (leaf_cert message ["issuer"; "aggregated"]); simpl; [auto|].
  destruct (leaf_cert message ["fingerprint"]); simpl; [auto|].
  destruct (not_before_isoformat py message); simpl; auto.
Qed.

Lemma debug_host_line (message : pyobj) (h : string) (w : world sqlite)
    (issuer fingerprint : pyobj) (starttime : string) :
  leaf_cert message ["issuer"; "aggregated"] = inr issuer ->
  leaf_cert message ["fingerprint"] = inr fingerprint ->
  not_before_isoformat py message = inr starttime ->
  debug_host sqlite py message h w =
  Normal tt
    (Build_world sqlite (SQL sqlite w) (stdout sqlite w)
       (logging sqlite w ++ [(DEBUG, debug_line py h issuer fingerprint starttime)])
       (sql_calls sqlite w) (clock sqlite w)).
Proof.
  intros Hi Hf Hs. unfold debug_host, bind.
  rewrite Hi. simpl. rewrite Hf. simpl. rewrite Hs. reflexivity.
Qed.

(** *** The store branch *)

Lemma store_host_existing (message : pyobj) (h : string) (w : world sqlite) (n : Z) :
  SQLiteVerifyEntry sqlite (SQL sqlite w) (TABLEname cfg) h = inr n ->
  n <> 0 ->
  let w' := world_of (store_host sqlite py cfg message h w) in
  SQL sqlite w' = SQL sqlite w /\ stdout sqlite w' = stdout sqlite w
  /\ logging sqlite w' = logging sqlite w
  /\ forall c, In c (sql_calls sqlite w') ->
       In c (sql_calls sqlite w) \/ c = VerifyEntry (TABLEname cfg) h.
Proof.
  intros Hv Hn. unfold store_host, bind.
  destruct (leaf_cert message ["subject"; "aggregated"]); simpl; [auto|].
  destruct (leaf_cert message ["fingerprint"]); simpl; [auto|].
  destruct (not_before_isoformat py message); simpl; [auto|].
  unfold SQL_SQLiteVerifyEntry. simpl. rewrite Hv.
  apply Z.eqb_neq in Hn. rewrite Hn. simpl.
  repeat split; try reflexivity.
  intros c Hc. apply in_app_or in Hc. destruct Hc as [Hc|[Hc|[]]]; auto.
Qed.

Lemma store_host_new (message : pyobj) (h : string) (w : world sqlite)
    (subject issuer fingerprint : pyobj) (starttime : string) (db' : DB sqlite) :
  leaf_cert message ["subject"; "aggregated"] = inr subject ->
  leaf_cert message ["issuer"; "aggregated"] = inr issuer ->
  leaf_cert message ["fingerprint"] = inr fingerprint ->
  not_before_isoformat py message = inr starttime ->
  SQLiteVerifyEntry sqlite (SQL sqlite w) (TABLEname cfg) h = inr 0 ->
  SQLiteInsert sqlite (SQL sqlite w) (TABLEname cfg) h "" subject fingerprint
    starttime (utcnow_isoformat py (clock sqlite w)) = inr db' ->
  store_host sqlite py cfg message h w =
  Normal tt
    (Build_world sqlite db'
       (stdout sqlite w
        ++ [write (stdout_line py (now_isoformat py (S (clock sqlite w))) h
                     issuer fingerprint starttime);
            flush])
       (logging sqlite w)
       (sql_calls sqlite w
        ++ [VerifyEntry (TABLEname cfg) h;
            Insert (TABLEname cfg) h "" subject fingerprint starttime
              (utcnow_isoformat py (clock sqlite w))])
       (S (S (clock sqlite w)))).
Proof.
  intros Hsub Hiss Hfp Hst Hv Hi. unfold store_host, bind.
  rewrite Hsub. simpl. rewrite Hfp. simpl. rewrite Hst. simpl.
  unfold SQL_SQLiteVerifyEntry. simpl. rewrite Hv. simpl.
  unfold SQL_SQLiteInsert. simpl. rewrite Hi. simpl.
  rewrite Hiss. simpl. rewrite ?Hfp. simpl. rewrite ?Hst. simpl.
  unfold sys_stdout. simpl. rewrite <- !app_assoc. reflexivity.
Qed.

(** A failing store call ends the store branch with the exception the call
    raised; nothing was written. *)
Lemma store_host_failure (message : pyobj) (h : string) (w : world sqlite)
    (subject fingerprint : pyobj) (starttime : string) (e : exn) :
  leaf_cert message ["subject"; "aggregated"] = inr subject ->
  leaf_cert message ["fingerprint"] = inr fingerprint ->
  not_before_isoformat py message = inr starttime ->
  SQLiteVerifyEntry sqlite (SQL sqlite w) (TABLEname cfg) h = inl e
  \/ (SQLiteVerifyEntry sqlite (SQL sqlite w) (TABLEname cfg) h = inr 0
      /\ SQLiteInsert sqlite (SQL sqlite w) (TABLEname cfg) h "" subject fingerprint
           starttime (utcnow_isoformat py (clock sqlite w)) = inl e) ->
  exists w', store_host sqlite py cfg message h w = Raised e w'
    /\ SQL sqlite w' = SQL sqlite w /\ stdout sqlite w' = stdout sqlite w
    /\ logging sqlite w' = logging sqlite w.
Proof.
  intros Hsub Hfp Hst Hfail. unfold store_host, bind.
  rewrite Hsub. simpl. rewrite Hfp. simpl. rewrite Hst. simpl.
  unfold SQL_SQLiteVerifyEntry. simpl.
  destruct Hfail as [Hv|[Hv Hi]]; rewrite Hv; simpl.
  - eexists. split; [reflexivity|]. simpl. auto.
  - unfold SQL_SQLiteInsert. simpl. rewrite Hi.
    eexists. split; [reflexivity|]. simpl. auto.
Qed.

(** ** The claims on the callback *)

(** C9: a heartbeat makes the callback return at once; the dedup store, the
    operator-visible output and the diagnostic log are left as they were. *)
Theorem heartbeat_returns_unchanged (message : pyobj) (w : world sqlite) :
  subscript message "message_type" = inr (PyStr "heartbeat") ->
  print_callback re sqlite py cfg message w = Normal tt w.
Proof.
  intros Hmt.
  unfold print_callback, bind.
  rewrite Hmt. reflexivity.
Qed.

Lemma store_host_asks (message : pyobj) (h : string) (w : world sqlite)
    (fields : pyobj * pyobj * string) :
  certificate_fields py message = inr fields ->
  exists rest,
    sql_calls sqlite (world_of (store_host sqlite py cfg message h w))
    = (sql_calls sqlite w ++ VerifyEntry (TABLEname cfg) h :: rest)%list.
Proof.
  unfold certificate_fields, store_host, bind.
  destruct (leaf_cert message ["subject"; "aggregated"]) as [?|subject]; simpl;
    [discriminate|].
  destruct (leaf_cert message ["fingerprint"]) as [?|fp]; simpl; [discriminate|].
  destruct (not_before_isoformat py message) as [?|st]; simpl; [discriminate|].
  intros _. unfold SQL_SQLiteVerifyEntry. simpl.
  destruct (SQLiteVerifyEntry sqlite (SQL sqlite w) (TABLEname cfg) h) as [e|n];
    simpl; [exists []; reflexivity|].
  destruct (n =? 0); simpl; [|exists []; reflexivity].
  unfold SQL_SQLiteInsert. simpl.
  destruct (SQLiteInsert sqlite (SQL sqlite w) (TABLEname cfg) h "" subject fp st
              (utcnow_isoformat py (clock sqlite w))) as [e|db]; simpl.
  { eexists. rewrite <- app_assoc. reflexivity. }
  destruct (leaf_cert message ["issuer"; "aggregated"]) as [e|iss]; simpl;
    eexists; rewrite <- app_assoc; reflexivity.
Qed.

Lemma match_host_of_patterns (h : string) (p : Pattern re)
    (is_blacklisted : list string) :
  re_compile re (SearchKeywords cfg) = inr p ->
  blacklist_match re cfg h is_blacklisted ->
  match_host re cfg h = inr (is_blacklisted, len_set (Pattern_findall re p h)).
Proof.
  intros Hp Hbl. unfold match_host, re_findall.
  destruct Hbl as [Hb|b Hb Hcb].
  - rewrite Hb, Hp. reflexivity.
  - apply String.eqb_neq in Hb. rewrite Hb, Hcb, Hp. reflexivity.
Qed.

(** C3: every hostname string goes through the ordered rules of the detection
    policy, on the count of distinct matches of the search pattern in it and
    on what the blacklist pattern finds in it.  Blacklisted and at or above
    the threshold: [NoMatch], the loop body returns with the world as it was
    (no record, no line).  Otherwise at or above the threshold:
    [FullDetection], the store branch, which asks the store about the
    hostname as soon as the certificate could be read.  A count strictly
    between 0 and the threshold: [PartialDetection], the diagnostic branch,
    blacklisted or not, which touches neither the store nor the
    operator-visible output.  Otherwise [NoMatch].  In an event, each
    hostname is put through these rules in turn. *)
Theorem hostname_follows_policy (message : pyobj) (h : string) (p : Pattern re)
    (is_blacklisted : list string) :
  re_compile re (SearchKeywords cfg) = inr p ->
  blacklist_match re cfg h is_blacklisted ->
  let FindNb := len_set (Pattern_findall re p h) in
  let verdict := classify FindNb (truthy is_blacklisted) (DetectionThreshold cfg) in
  (forall w : world sqlite,
     loop_body re sqlite py cfg message (PyStr h) w =
     match verdict with
     | NoMatch => Normal tt w
     | FullDetection => store_host sqlite py cfg message h w
     | PartialDetection => debug_host sqlite py message h w
     end)
  /\ (truthy is_blacklisted = true -> DetectionThreshold cfg <= FindNb ->
      verdict = NoMatch
      /\ forall w : world sqlite,
           loop_body re sqlite py cfg message (PyStr h) w = Normal tt w)
  /\ (truthy is_blacklisted = false -> DetectionThreshold cfg <= FindNb ->
      verdict = FullDetection
      /\ forall w : world sqlite,
           loop_body re sqlite py cfg message (PyStr h) w
           = store_host sqlite py cfg message h w
           /\ forall fields, certificate_fields py message = inr fields ->
                exists rest,
                  sql_calls sqlite
                    (world_of (loop_body re sqlite py cfg message (PyStr h) w))
                  = (sql_calls sqlite w ++ VerifyEntry (TABLEname cfg) h :: rest)%list)
  /\ (0 < FindNb < DetectionThreshold cfg ->
      verdict = PartialDetection
      /\ forall w : world sqlite,
           loop_body re sqlite py cfg message (PyStr h) w
           = debug_host sqlite py message h w
           /\ SQL sqlite (world_of (loop_body re sqlite py cfg message (PyStr h) w))
              = SQL sqlite w
           /\ sql_calls sqlite
                (world_of (loop_body re sqlite py cfg message (PyStr h) w))
              = sql_calls sqlite w
           /\ stdout sqlite
                (world_of (loop_body re sqlite py cfg message (PyStr h) w))
              = stdout sqlite w)
  /\ (FindNb <= 0 -> FindNb < DetectionThreshold cfg ->
      verdict = NoMatch
      /\ forall w : world sqlite,
           loop_body re sqlite py cfg message (PyStr h) w = Normal tt w)
  /\ (forall (v : pyobj) (before after : list pyobj) (w0 w1 : world sqlite),
        subscript message "message_type" = inr (PyStr "certificate_update") ->
        leaf_cert message ["all_domains"] = inr v ->
        iterate v = inr (before ++ PyStr h :: after)%list ->
        for_each (loop_body re sqlite py cfg message) before w0 = Normal tt w1 ->
        print_callback re sqlite py cfg message w0 =
        match loop_body re sqlite py cfg message (PyStr h) w1 with
        | Normal _ w2 => for_each (loop_body re sqlite py cfg message) after w2
        | Raised e w2 => Raised e w2
        end).
Proof.
  intros Hp Hbl. cbv zeta.
  pose proof (match_host_of_patterns h p is_blacklisted Hp Hbl) as Hm.
  set (FindNb := len_set (Pattern_findall re p h)) in *.
  assert (Hbody : forall w : world sqlite,
             loop_body re sqlite py cfg message (PyStr h) w =
             match classify FindNb (truthy is_blacklisted) (DetectionThreshold cfg) with
             | NoMatch => Normal tt w
             | FullDetection => store_host sqlite py cfg message h w
             | PartialDetection => debug_host sqlite py message h w
             end).
  { intros w. rewrite loop_body_str, Hm. cbn [fst snd].
    rewrite act_on_host_classify.
    destruct (classify FindNb (truthy is_blacklisted) (DetectionThreshold cfg));
      reflexivity. }
  split; [exact Hbody|].
  split; [|split; [|split; [|split]]].
  - intros Hb Hn.
    assert (Hv : classify FindNb (truthy is_blacklisted) (DetectionThreshold cfg)
                 = NoMatch).
    { unfold classify. rewrite Hb. apply Z.leb_le in Hn. rewrite Hn. reflexivity. }
    split; [exact Hv|]. intros w. rewrite Hbody, Hv. reflexivity.
  - intros Hb Hn.
    assert (Hv : classify FindNb (truthy is_blacklisted) (DetectionThreshold cfg)
                 = FullDetection).
    { unfold classify. rewrite Hb. apply Z.leb_le in Hn. rewrite Hn. reflexivity. }
    split; [exact Hv|]. intros w. rewrite Hbody, Hv.
    split; [reflexivity|].
    intros fields Hfields. apply (store_host_asks message h w fields Hfields).
  - intros Hn.
    pose proof (classify_partial FindNb (DetectionThreshold cfg)
                  (truthy is_blacklisted) Hn) as Hv.
    split; [exact Hv|]. intros w. rewrite Hbody, Hv.
    destruct (debug_host_frame message h w) as (H1 & H2 & H3 & _).
    repeat split; assumption.
  - intros H0 H1.
    assert (Hv : classify FindNb (truthy is_blacklisted) (DetectionThreshold cfg)
                 = NoMatch).
    { unfold classify.
      replace (DetectionThreshold cfg <=? FindNb) with false
        by (symmetry; apply Z.leb_gt; lia).
      replace (0 <? FindNb) with false by (symmetry; apply Z.ltb_ge; lia).
      rewrite andb_false_r. reflexivity. }
    split; [exact Hv|]. intros w. rewrite Hbody, Hv. reflexivity.
  - intros v before after w0 w1 Hmt Hall Hit Hbefore.
    rewrite (print_callback_certificate_update _ _ _ Hmt Hall Hit).
    rewrite for_each_app, Hbefore. cbn [for_each]. unfold bind at 1.
    destruct (loop_body re sqlite py cfg message (PyStr h) w1) as [[] w2|e w2];
      reflexivity.
Qed.

Lemma missing_field_raises (message : pyobj) (e : exn) (w : world sqlite) :
  missing_field message e ->
  print_callback re sqlite py cfg message w = Raised e w.
Proof.
  intros Hmiss. unfold print_callback, bind.
  destruct Hmiss as [e Hmt|e Hmt Hall].
  - rewrite Hmt. reflexivity.
  - rewrite Hmt. simpl. rewrite Hall. reflexivity.
Qed.

(** C5, as the code has it: on an event of unexpected shape (the message
    type missing, the message type neither [heartbeat] nor
    [certificate_update], or the list of domains of a certificate update
    missing) the callback does no classification work and leaves the store
    and both channels as they were; the event is not taken for one without
    hostnames, though: when the message type or the list of domains is
    missing, the exception of the subscript ([KeyError], or [TypeError] on a
    value that is not a dictionary) leaves the callback. *)
Theorem unexpected_shape_leaves_world_unchanged (message : pyobj)
    (w : world sqlite) :
  unexpected_shape message ->
  world_of (print_callback re sqlite py cfg message w) = w
  /\ forall e, missing_field message e ->
               print_callback re sqlite py cfg message w = Raised e w.
Proof.
  intros Hshape. split.
  - destruct Hshape as [e Hmiss|mt Hmt Hh Hc].
    + rewrite (missing_field_raises message e w Hmiss). reflexivity.
    + unfold print_callback, bind. rewrite Hmt. simpl. rewrite Hh, Hc. reflexivity.
  - intros e Hmiss. apply missing_field_raises. exact Hmiss.
Qed.

Lemma debug_host_of_fields (message : pyobj) (h : string) (w : world sqlite) :
  debug_host sqlite py message h w =
  match diagnostic_fields py message with
  | inr (issuer, fingerprint, starttime) =>
      Normal tt
        (Build_world sqlite (SQL sqlite w) (stdout sqlite w)
           (logging sqlite w
            ++ [(DEBUG, debug_line py h issuer fingerprint starttime)])
           (sql_calls sqlite w) (clock sqlite w))
  | inl e => Raised e w
  end.
Proof.
  unfold debug_host, diagnostic_fields, bind.
  destruct (leaf_cert message ["issuer"; "aggregated"]) as [?|i]; simpl;
    [reflexivity|].
  destruct (leaf_cert message ["fingerprint"]) as [?|f]; simpl; [reflexivity|].
  destruct (not_before_isoformat py message) as [?|st]; reflexivity.
Qed.

(** C8, as the code has it: a host whose number of distinct matches lies
    strictly between 0 and the threshold never touches the store (no lookup,
    no insert) and never writes to the operator-visible output, however the
    delivery ends and however often it is repeated.  The line for the
    diagnostic log is built from the issuer, the fingerprint and the start
    time of the certificate, read by plain subscripts: when all three can be
    read, each delivery returns after handing exactly one line to the log,
    whose text names the host, so [k] deliveries leave [k] lines; when one
    cannot, the loop body raises the exception of that read and no line is
    logged, whatever the number of deliveries; the exception leaves the
    callback, and the hostnames after this one are not looked at. *)
Theorem partial_detection_logs_or_raises (message : pyobj) (h : string)
    (is_blacklisted : list string) (FindNb : Z) :
  match_host re cfg h = inr (is_blacklisted, FindNb) ->
  0 < FindNb < DetectionThreshold cfg ->
  (forall (k : nat) (w : world sqlite),
     let w' := redeliver (loop_body re sqlite py cfg message (PyStr h)) k w in
     SQL sqlite w' = SQL sqlite w /\ sql_calls sqlite w' = sql_calls sqlite w
     /\ stdout sqlite w' = stdout sqlite w)
  /\ (forall issuer fingerprint starttime,
        diagnostic_fields py message = inr (issuer, fingerprint, starttime) ->
        let line :=
          "DETECTION THRESHOLD VALUE NOT REACHED - " ++ h ++ " (SAN: ) (Issuer: "
          ++ format_field py issuer ++ ") (Fingerprint: "
          ++ format_field py fingerprint ++ ") (StartTime: " ++ starttime ++ ")" in
        (forall w : world sqlite,
           loop_body re sqlite py cfg message (PyStr h) w =
           Normal tt
             (Build_world sqlite (SQL sqlite w) (stdout sqlite w)
                (logging sqlite w ++ [(DEBUG, line)])
                (sql_calls sqlite w) (clock sqlite w)))
        /\ (forall (k : nat) (w : world sqlite),
              logging sqlite
                (redeliver (loop_body re sqlite py cfg message (PyStr h)) k w)
              = (logging sqlite w ++ repeat (DEBUG, line) k)%list))
  /\ (forall e,
        diagnostic_fields py message = inl e ->
        (forall w : world sqlite,
           loop_body re sqlite py cfg message (PyStr h) w = Raised e w)
        /\ (forall (k : nat) (w : world sqlite),
              redeliver (loop_body re sqlite py cfg message (PyStr h)) k w = w)
        /\ (forall (v : pyobj) (before after : list pyobj) (w0 w1 : world sqlite),
              subscript message "message_type" = inr (PyStr "certificate_update") ->
              leaf_cert message ["all_domains"] = inr v ->
              iterate v = inr (before ++ PyStr h :: after)%list ->
              for_each (loop_body re sqlite py cfg message) before w0
              = Normal tt w1 ->
              print_callback re sqlite py cfg message w0 = Raised e w1)).
Proof.
  intros Hm Hn.
  assert (Hbody : forall w : world sqlite,
             loop_body re sqlite py cfg message (PyStr h) w
             = debug_host sqlite py message h w).
  { intros w. rewrite loop_body_str, Hm. cbn [fst snd].
    rewrite act_on_host_classify, (classify_partial _ _ _ Hn). reflexivity. }
  assert (Hstep : forall (k : nat) (w : world sqlite),
             redeliver (loop_body re sqlite py cfg message (PyStr h)) (S k) w
             = world_of (loop_body re sqlite py cfg message (PyStr h)
                  (redeliver (loop_body re sqlite py cfg message (PyStr h)) k w)))
    by reflexivity.
  split; [|split].
  - intros k w. cbv zeta. induction k as [|k IH].
    + repeat split; reflexivity.
    + rewrite Hstep, Hbody.
      destruct (debug_host_frame message h
                  (redeliver (loop_body re sqlite py cfg message (PyStr h)) k w))
        as (H1 & H2 & H3 & _).
      destruct IH as (I1 & I2 & I3).
      rewrite H1, H2, H3. repeat split; assumption.
  - intros issuer fingerprint starttime Hf. cbv zeta.
    assert (Hone : forall w : world sqlite,
               loop_body re sqlite py cfg message (PyStr h) w =
               Normal tt
                 (Build_world sqlite (SQL sqlite w) (stdout sqlite w)
                    (logging sqlite w
                     ++ [(DEBUG, debug_line py h issuer fingerprint starttime)])
                    (sql_calls sqlite w) (clock sqlite w))).
    { intros w. rewrite Hbody, debug_host_of_fields, Hf. reflexivity. }
    split; [exact Hone|].
    intros k w. induction k as [|k IH].
    + simpl. rewrite app_nil_r. reflexivity.
    + rewrite Hstep, Hone. cbn [world_of logging]. rewrite IH.
      rewrite <- app_assoc. f_equal.
      symmetry.
      apply (repeat_cons k (DEBUG, debug_line py h issuer fingerprint starttime)).
  - intros e Hf.
    assert (Hone : forall w : world sqlite,
               loop_body re sqlite py cfg message (PyStr h) w = Raised e w).
    { intros w. rewrite Hbody, debug_host_of_fields, Hf. reflexivity. }
    split; [exact Hone|]. split.
    + intros k w. induction k as [|k IH].
      * reflexivity.
      * rewrite Hstep, Hone. cbn [world_of]. exact IH.
    + intros v before after w0 w1 Hmt Hall Hit Hbefore.
      rewrite (print_callback_certificate_update _ _ _ Hmt Hall Hit).
      rewrite for_each_app, Hbefore. cbn [for_each]. unfold bind at 1.
      rewrite Hone. reflexivity.
Qed.

(** C10: on a full detection of a domain the store does not hold yet, the
    issuer handed to [SQLiteInsert] is the certificate's
    [subject.aggregated], while the line written to the operator-visible
    output carries, after [(Issuer: ], the certificate's
    [issuer.aggregated] (a string is printed as it is).  This is what the
    store branch does, and so what the loop body does on a hostname that the
    policy makes a full detection. *)
Theorem stored_issuer_is_subject_printed_text_has_issuer (message : pyobj)
    (h : string) (w : world sqlite) (subject issuer fingerprint : pyobj)
    (starttime : string) (db' : DB sqlite) :
  leaf_cert message ["subject"; "aggregated"] = inr subject ->
  leaf_cert message ["issuer"; "aggregated"] = inr issuer ->
  leaf_cert message ["fingerprint"] = inr fingerprint ->
  not_before_isoformat py message = inr starttime ->
  SQLiteVerifyEntry sqlite (SQL sqlite w) (TABLEname cfg) h = inr 0 ->
  SQLiteInsert sqlite (SQL sqlite w) (TABLEname cfg) h "" subject fingerprint
    starttime (utcnow_isoformat py (clock sqlite w)) = inr db' ->
  let stored_and_printed :=
    Build_world sqlite db'
      (stdout sqlite w
       ++ [write ("[" ++ now_isoformat py (S (clock sqlite w)) ++ "] " ++ h
                  ++ " (SAN: ) (Issuer: " ++ format_field py issuer
                  ++ ") (Fingerprint: " ++ format_field py fingerprint
                  ++ ") (StartTime: " ++ starttime ++ ")" ++ newline);
           flush])
      (logging sqlite w)
      (sql_calls sqlite w
       ++ [VerifyEntry (TABLEname cfg) h;
           Insert (TABLEname cfg) h "" subject fingerprint starttime
             (utcnow_isoformat py (clock sqlite w))])
      (S (S (clock sqlite w))) in
  store_host sqlite py cfg message h w = Normal tt stored_and_printed
  /\ (forall (is_blacklisted : list string) (FindNb : Z),
        match_host re cfg h = inr (is_blacklisted, FindNb) ->
        classify FindNb (truthy is_blacklisted) (DetectionThreshold cfg)
        = FullDetection ->
        loop_body re sqlite py cfg message (PyStr h) w
        = Normal tt stored_and_printed)
  /\ (forall s : string, format_field py (PyStr s) = s).
Proof.
  intros Hsub Hiss Hfp Hst Hv Hi. cbv zeta.
  assert (Hstore :
            store_host sqlite py cfg message h w =
            Normal tt
              (Build_world sqlite db'
                 (stdout sqlite w
                  ++ [write ("[" ++ now_isoformat py (S (clock sqlite w)) ++ "] "
                             ++ h ++ " (SAN: ) (Issuer: " ++ format_field py issuer
                             ++ ") (Fingerprint: " ++ format_field py fingerprint
                             ++ ") (StartTime: " ++ starttime ++ ")" ++ newline);
                      flush])
                 (logging sqlite w)
                 (sql_calls sqlite w
                  ++ [VerifyEntry (TABLEname cfg) h;
                      Insert (TABLEname cfg) h "" subject fingerprint starttime
                        (utcnow_isoformat py (clock sqlite w))])
                 (S (S (clock sqlite w))))).
  { rewrite (store_host_new message h w subject issuer fingerprint starttime db'
               Hsub Hiss Hfp Hst Hv Hi).
    reflexivity. }
  split; [exact Hstore|]. split; [|reflexivity].
  intros is_blacklisted FindNb Hm Hfull.
  rewrite loop_body_str, Hm. cbn [fst snd].
  rewrite act_on_host_classify, Hfull. exact Hstore.
Qed.

(** C2, as the code has it: the callback has no handler of its own.  When the
    lookup or the insert raises on a host that reached the threshold, the
    exception leaves [print_callback]; the hosts after it are not looked at,
    and the failing host leaves no record, no output line and no log line. *)
Theorem store_failure_leaves_callback (message v : pyobj)
    (before after : list pyobj) (h : string) (w w1 : world sqlite)
    (is_blacklisted : list string) (FindNb : Z)
    (subject fingerprint : pyobj) (starttime : string) (e : exn) :
  subscript message "message_type" = inr (PyStr "certificate_update") ->
  leaf_cert message ["all_domains"] = inr v ->
  iterate v = inr (before ++ PyStr h :: after)%list ->
  for_each (loop_body re sqlite py cfg message) before w = Normal tt w1 ->
  match_host re cfg h = inr (is_blacklisted, FindNb) ->
  classify FindNb (truthy is_blacklisted) (DetectionThreshold cfg) = FullDetection ->
  leaf_cert message ["subject"; "aggregated"] = inr subject ->
  leaf_cert message ["fingerprint"] = inr fingerprint ->
  not_before_isoformat py message = inr starttime ->
  SQLiteVerifyEntry sqlite (SQL sqlite w1) (TABLEname cfg) h = inl e
  \/ (SQLiteVerifyEntry sqlite (SQL sqlite w1) (TABLEname cfg) h = inr 0
      /\ SQLiteInsert sqlite (SQL sqlite w1) (TABLEname cfg) h "" subject fingerprint
           starttime (utcnow_isoformat py (clock sqlite w1)) = inl e) ->
  exists w2, print_callback re sqlite py cfg message w = Raised e w2
    /\ SQL sqlite w2 = SQL sqlite w1 /\ stdout sqlite w2 = stdout sqlite w1
    /\ logging sqlite w2 = logging sqlite w1.
Proof.
  intros Hmt Hall Hit Hbefore Hm Hfull Hsub Hfp Hst Hfail.
  rewrite (print_callback_certificate_update _ _ _ Hmt Hall Hit).
  rewrite for_each_app, Hbefore. cbn [for_each]. unfold bind at 1.
  rewrite loop_body_str, Hm. cbn [fst snd].
  rewrite act_on_host_classify, Hfull.
  destruct (store_host_failure message h w1 subject fingerprint starttime e
              Hsub Hfp Hst Hfail) as (w2 & Hr & Hframe).
  exists w2. rewrite Hr. split; [reflexivity|exact Hframe].
Qed.

End CallbackFacts.

Lemma NoDup_snoc {A} (l : list A) (x : A) :
  NoDup l -> ~ In x l -> NoDup (l ++ [x])%list.
Proof.
  intros Hl Hx. apply NoDup_Add with (a := x) (l := l).
  - pose proof (Add_app x l []) as Hadd. rewrite app_nil_r in Hadd. exact Hadd.
  - split; assumption.
Qed.

(** ** The callback over the dedup store of the specification *)

Section DedupFacts.

Variable re : ReModule.
Variable py : Builtins.
Variable cfg : Config.

Import DedupStore.

Lemma exists_domain_app (d : string) (t1 t2 : table) :
  exists_domain d (t1 ++ t2)%list = exists_domain d t1 || exists_domain d t2.
Proof. unfold exists_domain. apply existsb_app. Qed.

Lemma exists_domain_In (d : string) (t : table) :
  exists_domain d t = true <-> In d (domains t).
Proof.
  unfold exists_domain, domains. rewrite existsb_exists, in_map_iff.
  split; intros (r & H1 & H2); exists r.
  - apply String.eqb_eq in H2. auto.
  - split; [assumption|]. apply String.eqb_eq. assumption.
Qed.

(** What the store branch does to the rows and to the output: nothing, or
    one record for a domain that had none. *)
Lemma store_host_rows (message : pyobj) (h : string) (w : world sqlite) :
  let w' := world_of (store_host sqlite py cfg message h w) in
  (SQL sqlite w' = SQL sqlite w /\ stdout sqlite w' = stdout sqlite w)
  \/ (exists_domain h (SQL sqlite w) = false
      /\ exists r, domain r = h /\ SQL sqlite w' = (SQL sqlite w ++ [r])%list).
Proof.
  unfold store_host, bind.
  destruct (leaf_cert message ["subject"; "aggregated"]) as [?|subject]; simpl; [auto|].
  destruct (leaf_cert message ["fingerprint"]) as [?|fp]; simpl; [auto|].
  destruct (not_before_isoformat py message) as [?|st]; simpl; [auto|].
  unfold SQL_SQLiteVerifyEntry. simpl.
  destruct (exists_domain h (SQL sqlite w)) eqn:Hex; simpl; [auto|].
  right. split; [reflexivity|].
  destruct (leaf_cert message ["issuer"; "aggregated"]); simpl;
    eexists; (split; [|reflexivity]); reflexivity.
Qed.

Lemma store_host_present (message : pyobj) (h : string) (w : world sqlite) :
  exists_domain h (SQL sqlite w) = true ->
  let w' := world_of (store_host sqlite py cfg message h w) in
  SQL sqlite w' = SQL sqlite w /\ stdout sqlite w' = stdout sqlite w.
Proof.
  intros Hex.
  destruct (store_host_existing sqlite py cfg message h w 1) as (H1 & H2 & _).
  - simpl. rewrite Hex. reflexivity.
  - discriminate.
  - auto.
Qed.

(** After the store branch returned, the domain has its record. *)
Lemma store_host_returns_present (message : pyobj) (h : string) (w w' : world sqlite) :
  store_host sqlite py cfg message h w = Normal tt w' ->
  exists_domain h (SQL sqlite w') = true.
Proof.
  unfold store_host, bind.
  destruct (leaf_cert message ["subject"; "aggregated"]) as [?|subject]; simpl;
    [discriminate|].
  destruct (leaf_cert message ["fingerprint"]) as [?|fp]; simpl; [discriminate|].
  destruct (not_before_isoformat py message) as [?|st]; simpl; [discriminate|].
  unfold SQL_SQLiteVerifyEntry. simpl.
  destruct (exists_domain h (SQL sqlite w)) eqn:Hex; simpl.
  - intros H. injection H as <-. exact Hex.
  - destruct (leaf_cert message ["issuer"; "aggregated"]); simpl; [discriminate|].
    intros H. injection H as <-. simpl.
    unfold insert. rewrite exists_domain_app. simpl.
    rewrite String.eqb_refl. apply orb_true_r.
Qed.

(** The loop body on any host: the rows and the output are untouched, or the
    host is a name that reaches the store branch, had no record and got
    one. *)
Lemma loop_body_rows (message host : pyobj) (w : world sqlite) :
  let w' := world_of (loop_body re sqlite py cfg message host w) in
  (SQL sqlite w' = SQL sqlite w /\ stdout sqlite w' = stdout sqlite w)
  \/ (exists h r, host = PyStr h /\ reaches_store re cfg h = true
        /\ exists_domain h (SQL sqlite w) = false
        /\ domain r = h /\ SQL sqlite w' = (SQL sqlite w ++ [r])%list).
Proof.
  assert (Hother : (forall h, host <> PyStr h) ->
            let w' := world_of (loop_body re sqlite py cfg message host w) in
            SQL sqlite w' = SQL sqlite w /\ stdout sqlite w' = stdout sqlite w).
  { intros Hns. destruct (loop_body_not_str re sqlite py cfg message host w Hns)
      as (e & ->). simpl. auto. }
  destruct host as [| | |h| |]; try (left; apply Hother; discriminate).
  cbv zeta. rewrite loop_body_str.
  destruct (match_host re cfg h) as [e|[bl n]] eqn:Hm; [left; simpl; auto|].
  cbn [fst snd]. rewrite act_on_host_classify.
  destruct (classify n (truthy bl) (DetectionThreshold cfg)) eqn:Hc.
  - destruct (store_host_rows message h w) as [Hsame|(Hex & r & Hr & Hrows)].
    + left. exact Hsame.
    + right. exists h, r. repeat split; try assumption.
      apply (reaches_store_classify re cfg h bl n Hm). exact Hc.
  - left. destruct (debug_host_frame sqlite py message h w) as (H1 & _ & H3 & _).
    auto.
  - left. simpl. auto.
Qed.

(** Records are only ever added at the end. *)
Lemma loop_body_grows (message host : pyobj) (w : world sqlite) :
  exists added, SQL sqlite (world_of (loop_body re sqlite py cfg message host w))
                = (SQL sqlite w ++ added)%list.
Proof.
  destruct (loop_body_rows message host w) as [[Hs _]|(h & r & _ & _ & _ & _ & Hr)].
  - exists []. rewrite Hs, app_nil_r. reflexivity.
  - exists [r]. exact Hr.
Qed.

Lemma loop_body_keeps_present (d : string) (message host : pyobj) (w : world sqlite) :
  exists_domain d (SQL sqlite w) = true ->
  exists_domain d (SQL sqlite (world_of (loop_body re sqlite py cfg message host w))) = true.
Proof.
  intros Hex. destruct (loop_body_grows message host w) as (added & ->).
  rewrite exists_domain_app, Hex. reflexivity.
Qed.

Lemma loop_body_keeps_unique (message host : pyobj) (w : world sqlite) :
  NoDup (domains (SQL sqlite w)) ->
  NoDup (domains (SQL sqlite (world_of (loop_body re sqlite py cfg message host w)))).
Proof.
  intros Hnd.
  destruct (loop_body_rows message host w)
    as [[Hs _]|(h & r & _ & _ & Hex & Hd & Hr)].
  - rewrite Hs. exact Hnd.
  - rewrite Hr. unfold domains. rewrite map_app. simpl.
    apply NoDup_snoc; [exact Hnd|].
    rewrite Hd. intros Hin. apply exists_domain_In in Hin. congruence.
Qed.

(** Once every host that reaches the store branch has its record, a pass
    over the hosts changes neither the rows nor the output. *)
Lemma covered_pass_is_silent (message : pyobj) (hosts : list pyobj) :
  forall w : world sqlite,
    (forall h, In (PyStr h) hosts -> reaches_store re cfg h = true ->
               exists_domain h (SQL sqlite w) = true) ->
    let w' := world_of (for_each (loop_body re sqlite py cfg message) hosts w) in
    SQL sqlite w' = SQL sqlite w /\ stdout sqlite w' = stdout sqlite w.
Proof.
  induction hosts as [|host hosts IH]; intros w Hcov; simpl.
  - auto.
  - unfold bind.
    assert (Hstep : SQL sqlite (world_of (loop_body re sqlite py cfg message host w)) = SQL sqlite w
                    /\ stdout sqlite (world_of (loop_body re sqlite py cfg message host w)) = stdout sqlite w).
    { destruct (loop_body_rows message host w)
        as [Hsame|(h & r & -> & Hreach & Hex & _)]; [exact Hsame|].
      rewrite (Hcov h) in Hex; [discriminate|left; reflexivity|exact Hreach]. }
    destruct (loop_body re sqlite py cfg message host w) as [[] w1|e w1]; simpl in Hstep |- *.
    + destruct Hstep as [Hs Ho].
      destruct (IH w1) as [Hs' Ho'].
      * intros h Hin Hreach. rewrite Hs. apply Hcov; [right|]; assumption.
      * cbv zeta in Hs', Ho'. rewrite Hs', Ho'. auto.
    + exact Hstep.
Qed.

(** A pass that returned left a record for every host that reaches the store
    branch. *)
Lemma returned_pass_covers (message : pyobj) (hosts : list pyobj) :
  forall w w1 : world sqlite,
    for_each (loop_body re sqlite py cfg message) hosts w = Normal tt w1 ->
    forall h, In (PyStr h) hosts -> reaches_store re cfg h = true ->
              exists_domain h (SQL sqlite w1) = true.
Proof.
  induction hosts as [|host hosts IH]; intros w w1 Hrun h Hin Hreach.
  - destruct Hin.
  - simpl in Hrun. unfold bind in Hrun.
    destruct (loop_body re sqlite py cfg message host w) as [[] wx|e wx] eqn:Hx; [|discriminate].
    destruct Hin as [->|Hin].
    + assert (Hnow : exists_domain h (SQL sqlite wx) = true).
      { rewrite loop_body_str in Hx.
        unfold reaches_store in Hreach.
        destruct (match_host re cfg h) as [e|[bl n]] eqn:Hm; [discriminate|].
        cbn [fst snd] in Hx. unfold act_on_host in Hx.
        apply andb_prop in Hreach. destruct Hreach as [Hnb Hthr].
        apply negb_true_iff in Hnb. rewrite Hnb, Hthr in Hx.
        apply (store_host_returns_present message h w wx Hx). }
      replace w1 with (world_of (for_each (loop_body re sqlite py cfg message) hosts wx))
        by (rewrite Hrun; reflexivity).
      apply (for_each_preserves
               (fun w' : world sqlite => exists_domain h (SQL sqlite w') = true)).
      * intros x w' Hw'. apply loop_body_keeps_present. exact Hw'.
      * exact Hnow.
    + apply (IH wx w1 Hrun h Hin Hreach).
Qed.

(** C1: over the store of the specification, with at most one record per
    domain to begin with, the callback leaves at most one record per domain
    and only adds records after the ones already there; a host whose domain
    has a record adds none and writes nothing to the operator-visible
    output; and after an event was processed, delivering it again, or any
    event whose hostnames are among its hostnames, changes neither the store
    nor the operator-visible output. *)
Theorem at_most_one_record_per_domain (message : pyobj) (w : world sqlite) :
  NoDup (domains (SQL sqlite w)) ->
  NoDup (domains (SQL sqlite (world_of (print_callback re sqlite py cfg message w))))
  /\ (exists added,
        SQL sqlite (world_of (print_callback re sqlite py cfg message w))
        = (SQL sqlite w ++ added)%list)
  /\ (forall (D : string) (message' : pyobj),
        exists_domain D (SQL sqlite w) = true ->
        let w' := world_of (loop_body re sqlite py cfg message' (PyStr D) w) in
        SQL sqlite w' = SQL sqlite w /\ stdout sqlite w' = stdout sqlite w)
  /\ (forall (w1 : world sqlite) (message' : pyobj),
        print_callback re sqlite py cfg message w = Normal tt w1 ->
        incl (hosts_of message') (hosts_of message) ->
        let w2 := world_of (print_callback re sqlite py cfg message' w1) in
        SQL sqlite w2 = SQL sqlite w1 /\ stdout sqlite w2 = stdout sqlite w1).
Proof.
  intros Hnd.
  split; [|split; [|split]].
  - destruct (print_callback_loop re sqlite py cfg message w) as [->|(_ & e & ->)].
    + apply (for_each_preserves (fun w' : world sqlite => NoDup (domains (SQL sqlite w')))).
      * intros x w'. apply loop_body_keeps_unique.
      * exact Hnd.
    + exact Hnd.
  - destruct (print_callback_loop re sqlite py cfg message w) as [->|(_ & e & ->)].
    + apply (for_each_preserves
               (fun w' : world sqlite => exists added, SQL sqlite w' = (SQL sqlite w ++ added)%list)).
      * intros x w' (added & Hw').
        destruct (loop_body_grows message x w') as (more & Hmore).
        exists (added ++ more)%list.
        rewrite Hmore, Hw', app_assoc. reflexivity.
      * exists []. rewrite app_nil_r. reflexivity.
    + exists []. simpl. rewrite app_nil_r. reflexivity.
  - intros D message' Hex.
    destruct (loop_body_rows message' (PyStr D) w)
      as [Hsame|(h & r & Heq & _ & Hno & _)]; [exact Hsame|].
    injection Heq as <-. congruence.
  - intros w1 message' Hrun Hincl.
    destruct (print_callback_loop re sqlite py cfg message' w1) as [->|(_ & e & ->)];
      [|simpl; auto].
    apply covered_pass_is_silent.
    intros h Hin Hreach.
    destruct (print_callback_loop re sqlite py cfg message w) as [Hloop|(Hnil & _)].
    + rewrite Hloop in Hrun.
      apply (returned_pass_covers message (hosts_of message) w w1 Hrun h);
        [apply Hincl|]; assumption.
    + apply Hincl in Hin. rewrite Hnil in Hin. destruct Hin.
Qed.

End DedupFacts.

(** ** The pattern-match step *)

Lemma nodup_repeat (x : string) (n : nat) :
  nodup string_dec (repeat x (S n)) = [x].
Proof.
  induction n as [|n IH].
  - reflexivity.
  - change (repeat x (S (S n))) with (x :: repeat x (S n)).
    cbn [nodup]. destruct (in_dec string_dec x (repeat x (S n))) as [_|Hn].
    + exact IH.
    + exfalso. apply Hn. left. reflexivity.
Qed.

(** The empty pattern matches the empty string at every position of the
    subject, the end included. *)
Lemma findall_empty_pattern (s : string) :
  PyRe.findall [""] s = repeat "" (S (String.length s)).
Proof.
  unfold PyRe.findall.
  induction s as [|c s IH].
  - reflexivity.
  - change (String.length (String c s)) with (S (String.length s)).
    change (repeat "" (S (S (String.length s))))
      with ("" :: repeat "" (S (String.length s))).
    rewrite <- IH. reflexivity.
Qed.

Lemma match_host_compiled (re : ReModule) (cfg : Config) (h : string)
    (p : Pattern re) :
  BlacklistKeywords cfg = "" ->
  re_compile re (SearchKeywords cfg) = inr p ->
  match_host re cfg h = inr ([], len_set (Pattern_findall re p h)).
Proof.
  intros Hb Hp. unfold match_host, re_findall.
  rewrite Hb, Hp. reflexivity.
Qed.

(** C6, as the code has it: on a hostname string the pattern-match step
    raises nothing once the configured patterns compile, and an unconfigured
    (empty) blacklist is not compiled at all.  Neither pattern has a handler
    and the search pattern has no guard: a configured blacklist that does not
    compile raises before the search pattern is looked at, and a search
    pattern that does not compile raises whether or not a blacklist is
    configured.  The exception of the compiler, not a count of zero, leaves
    the step, the loop body and the callback. *)
Theorem match_step_outcomes (re : ReModule) (cfg : Config) (h : string) :
  (BlacklistKeywords cfg = "" ->
   forall p, re_compile re (SearchKeywords cfg) = inr p ->
     match_host re cfg h = inr ([], len_set (Pattern_findall re p h)))
  /\ (BlacklistKeywords cfg <> "" ->
      forall b p,
        re_compile re (BlacklistKeywords cfg) = inr b ->
        re_compile re (SearchKeywords cfg) = inr p ->
        match_host re cfg h
        = inr (Pattern_findall re b h, len_set (Pattern_findall re p h)))
  /\ (BlacklistKeywords cfg = "" ->
      forall e, re_compile re (SearchKeywords cfg) = inl e ->
        match_host re cfg h = inl e
        /\ forall sqlite py message (w : world sqlite),
             loop_body re sqlite py cfg message (PyStr h) w = Raised e w)
  /\ (BlacklistKeywords cfg <> "" ->
      forall b e,
        re_compile re (BlacklistKeywords cfg) = inr b ->
        re_compile re (SearchKeywords cfg) = inl e ->
        match_host re cfg h = inl e
        /\ forall sqlite py message (w : world sqlite),
             loop_body re sqlite py cfg message (PyStr h) w = Raised e w)
  /\ (BlacklistKeywords cfg <> "" ->
      forall e, re_compile re (BlacklistKeywords cfg) = inl e ->
        match_host re cfg h = inl e
        /\ forall sqlite py message (w : world sqlite),
             loop_body re sqlite py cfg message (PyStr h) w = Raised e w)
  /\ (forall e, match_host re cfg h = inl e ->
      forall sqlite py (message v : pyobj) (after : list pyobj) (w : world sqlite),
        subscript message "message_type" = inr (PyStr "certificate_update") ->
        leaf_cert message ["all_domains"] = inr v ->
        iterate v = inr (PyStr h :: after) ->
        print_callback re sqlite py cfg message w = Raised e w).
Proof.
  assert (Hraise : forall e, match_host re cfg h = inl e ->
            forall sqlite py message (w : world sqlite),
              loop_body re sqlite py cfg message (PyStr h) w = Raised e w).
  { intros e Hm sqlite py message w. rewrite loop_body_str, Hm. reflexivity. }
  split; [|split; [|split; [|split; [|split]]]].
  - intros Hb p Hp. apply match_host_compiled; assumption.
  - intros Hb b p Hcb Hp. unfold match_host, re_findall.
    apply String.eqb_neq in Hb. rewrite Hb, Hcb, Hp. reflexivity.
  - intros Hb e He.
    assert (Hm : match_host re cfg h = inl e).
    { unfold match_host, re_findall. rewrite Hb, He. reflexivity. }
    split; [exact Hm|apply Hraise; exact Hm].
  - intros Hb b e Hcb He.
    assert (Hm : match_host re cfg h = inl e).
    { unfold match_host, re_findall.
      apply String.eqb_neq in Hb. rewrite Hb, Hcb, He. reflexivity. }
    split; [exact Hm|apply Hraise; exact Hm].
  - intros Hb e He.
    assert (Hm : match_host re cfg h = inl e).
    { unfold match_host, re_findall.
      apply String.eqb_neq in Hb. rewrite Hb, He. reflexivity. }
    split; [exact Hm|apply Hraise; exact Hm].
  - intros e Hm sqlite py message v after w Hmt Hall Hit.
    rewrite (print_callback_certificate_update re sqlite py cfg _ _ _ Hmt Hall Hit).
    cbn [for_each]. unfold bind at 1. rewrite (Hraise e Hm). reflexivity.
Qed.

(** The empty search pattern, in the fragment: the empty string is found at
    every position, which is one distinct match. *)
Lemma empty_search_pattern_counts_one (cfg : Config) (h : string) :
  BlacklistKeywords cfg = "" -> SearchKeywords cfg = "" ->
  match_host PyRe.re cfg h = inr ([], 1).
Proof.
  intros Hb Hs.
  rewrite (match_host_compiled PyRe.re cfg h [""] Hb)
    by (rewrite Hs; reflexivity).
  cbn [Pattern_findall PyRe.re]. rewrite findall_empty_pattern.
  unfold len_set. rewrite nodup_repeat. reflexivity.
Qed.

(** C4, as the code has it: with threshold 2 and the pattern [paypal], the
    host [secure-paypal-paypal-login.com] yields the match [paypal] twice,
    which is one distinct match: a count of 1, below the threshold.  The
    event leaves no record and no operator-visible line; one line goes to the
    diagnostic log.  [example.com] has a count of 0 and leaves nothing. *)
Theorem paypal_scenario :
  PyRe.findall ["paypal"] "secure-paypal-paypal-login.com" = ["paypal"; "paypal"]
  /\ match_host PyRe.re Scenario.cfg "secure-paypal-paypal-login.com" = inr ([], 1)
  /\ match_host PyRe.re Scenario.cfg "example.com" = inr ([], 0)
  /\ classify 1 false (DetectionThreshold Scenario.cfg) = PartialDetection
  /\ classify 0 false (DetectionThreshold Scenario.cfg) = NoMatch
  /\ print_callback PyRe.re DedupStore.sqlite Scenario.py Scenario.cfg
       (Scenario.certificate_update ["secure-paypal-paypal-login.com"; "example.com"])
       Scenario.w0
     = Normal tt
         (Build_world DedupStore.sqlite [] []
            [(DEBUG,
              debug_line Scenario.py "secure-paypal-paypal-login.com"
                (PyStr "/C=US/O=Let's Encrypt/CN=R3") (PyStr "AB:CD:EF")
                "1970-01-01T00:00:00")]
            [] 0).
Proof.
  repeat split; vm_compute; reflexivity.
Qed.

(** ** Start-up *)

Section StartupFacts.

Variable py : Builtins.
Variable ConfParser : pyobj -> result (list (string * pyobj)).
Variable environment : list ext_call -> ext_call -> option exn.
Variable str_exc_info : exn -> string.

(** When [ConfParser] raises, [ConfAnalysis] logs and returns with no global
    assigned; [main] then stops on the first configuration name it reads,
    before any call to the feed client. *)
Lemma main_without_configuration (f : pyobj) (e : exn) :
  ConfParser f = inl e ->
  let p := world_of (run_main py ConfParser environment str_exc_info (Some f)) in
  consumes_feed p = false
  /\ exists rest,
       calls p = logging_error (" ConfParser Error: " ++ str_exc_info e) :: rest.
Proof.
  intros He.
  unfold run_main, main, ConfAnalysis, fresh_process, try_except, bind, global,
    lift, call, consumes_feed.
  cbn [assoc globals calls String.eqb Ascii.eqb Bool.eqb].
  rewrite He. cbn [raise calls globals app].
  repeat match goal with
         | |- context [environment ?cs ?c] =>
             destruct (environment cs c);
             cbn [assoc globals calls app world_of String.eqb Ascii.eqb Bool.eqb
                  existsb is_listen orb]
         end;
    (split; [reflexivity|eexists; reflexivity]).
Qed.

End StartupFacts.

Lemma SpecConfParser_rejects (re : ReModule)
    (read : pyobj -> option (list (string * pyobj))) (f : pyobj) :
  read f = None
  \/ (exists settings, read f = Some settings /\ threshold_invalid settings = true) ->
  exists e, SpecConfParser re read f = inl e.
Proof.
  unfold SpecConfParser, threshold_invalid.
  intros [->|(settings & -> & Hbad)]; [eauto|].
  destruct (assoc "DetectionThreshold" settings) as [[| |n| | |]|]; eauto.
  apply Z.leb_le in Hbad.
  replace (0 <? n) with false by (symmetry; apply Z.ltb_ge; exact Hbad).
  eauto.
Qed.

(** C7: with the configuration parser of the specification, a configuration
    that is missing or whose detection threshold is missing, not an integer
    or not positive is refused when it is loaded; the process logs the error
    and never calls the feed client. *)
Theorem invalid_threshold_never_consumes (py : Builtins) (re : ReModule)
    (read : pyobj -> option (list (string * pyobj)))
    (environment : list ext_call -> ext_call -> option exn)
    (str_exc_info : exn -> string) (f : pyobj) :
  read f = None
  \/ (exists settings, read f = Some settings /\ threshold_invalid settings = true) ->
  let p := world_of (run_main py (SpecConfParser re read) environment str_exc_info
                       (Some f)) in
  (exists e, SpecConfParser re read f = inl e)
  /\ consumes_feed p = false
  /\ exists e rest,
       calls p = logging_error (" ConfParser Error: " ++ str_exc_info e) :: rest.
Proof.
  intros Hbad.
  destruct (SpecConfParser_rejects re read f Hbad) as (e & He).
  destruct (main_without_configuration py (SpecConfParser re read) environment
              str_exc_info f e He) as (Hno & rest & Hcalls).
  split; [exists e; exact He|].
  split; [exact Hno|].
  exists e, rest. exact Hcalls.
Qed.

(** [ConfAnalysis] and [main] themselves do not look at the threshold: with a
    parser that hands over a threshold of 0, the feed client is called. *)
Example main_does_not_check_threshold :
  consumes_feed
    (world_of (run_main Scenario.py (StartupScenario.lenient 0) StartupScenario.calm
                 StartupScenario.str_exc_info (Some StartupScenario.conf_path)))
  = true.
Proof. vm_compute. reflexivity. Qed.

(** ** The statements at concrete events *)

(** C9 at the fixture heartbeat. *)
Lemma heartbeat_returns_unchanged_witness :
  subscript Scenario.heartbeat "message_type" = inr (PyStr "heartbeat")
  /\ print_callback PyRe.re DedupStore.sqlite Scenario.py Scenario.cfg
       Scenario.heartbeat Scenario.w0
     = Normal tt Scenario.w0.
Proof.
  split; [reflexivity|].
  apply heartbeat_returns_unchanged. reflexivity.
Defined.

(** C3 at a blacklisted host with two distinct matches under a threshold of
    3: the diagnostic branch, the store and the output as they were. *)
Lemma hostname_follows_policy_witness :
  let message := Scenario.certificate_update ["paypal-login.com"] in
  re_compile PyRe.re (SearchKeywords Scenario.cfg_blacklist)
  = inr (["paypal"; "login"] : Pattern PyRe.re)
  /\ blacklist_match PyRe.re Scenario.cfg_blacklist "paypal-login.com" ["paypal"]
  /\ 0 < len_set (PyRe.findall ["paypal"; "login"] "paypal-login.com")
       < DetectionThreshold Scenario.cfg_blacklist
  /\ forall w : world DedupStore.sqlite,
       loop_body PyRe.re DedupStore.sqlite Scenario.py Scenario.cfg_blacklist
         message (PyStr "paypal-login.com") w
       = debug_host DedupStore.sqlite Scenario.py message "paypal-login.com" w
       /\ SQL _ (world_of (loop_body PyRe.re DedupStore.sqlite Scenario.py
                             Scenario.cfg_blacklist message
                             (PyStr "paypal-login.com") w))
          = SQL _ w.
Proof.
  cbv zeta.
  assert (Hp : re_compile PyRe.re (SearchKeywords Scenario.cfg_blacklist)
               = inr (["paypal"; "login"] : Pattern PyRe.re)) by reflexivity.
  assert (Hbl : blacklist_match PyRe.re Scenario.cfg_blacklist "paypal-login.com"
                  ["paypal"]).
  { apply (blacklist_searched PyRe.re Scenario.cfg_blacklist "paypal-login.com"
             (["paypal"] : Pattern PyRe.re)); [discriminate|reflexivity]. }
  assert (Hn : 0 < len_set (PyRe.findall ["paypal"; "login"] "paypal-login.com")
                 < DetectionThreshold Scenario.cfg_blacklist)
    by (vm_compute; split; reflexivity).
  split; [exact Hp|]. split; [exact Hbl|]. split; [exact Hn|].
  destruct (hostname_follows_policy PyRe.re DedupStore.sqlite Scenario.py
              Scenario.cfg_blacklist
              (Scenario.certificate_update ["paypal-login.com"])
              "paypal-login.com" ["paypal"; "login"] ["paypal"] Hp Hbl)
    as (_ & _ & _ & Hpartial & _).
  intros w. destruct (Hpartial Hn) as (_ & Hbody).
  destruct (Hbody w) as (Hb & Hsql & _).
  split; [exact Hb|exact Hsql].
Defined.

(** C5 at a certificate update without its list of domains. *)
Lemma unexpected_shape_leaves_world_unchanged_witness :
  unexpected_shape Scenario.no_domains
  /\ missing_field Scenario.no_domains (KeyError "all_domains")
  /\ world_of (print_callback PyRe.re DedupStore.sqlite Scenario.py Scenario.cfg
                 Scenario.no_domains Scenario.w0)
     = Scenario.w0
  /\ print_callback PyRe.re DedupStore.sqlite Scenario.py Scenario.cfg
       Scenario.no_domains Scenario.w0
     = Raised (KeyError "all_domains") Scenario.w0.
Proof.
  assert (Hm : missing_field Scenario.no_domains (KeyError "all_domains"))
    by (apply missing_domain_list; reflexivity).
  assert (H : unexpected_shape Scenario.no_domains)
    by (exact (field_missing _ _ Hm)).
  split; [exact H|]. split; [exact Hm|].
  destruct (unexpected_shape_leaves_world_unchanged PyRe.re DedupStore.sqlite
              Scenario.py Scenario.cfg Scenario.no_domains Scenario.w0 H)
    as [Hw Hraise].
  split; [exact Hw|exact (Hraise _ Hm)].
Defined.

(** C5 does not hold as stated: a certificate update without its list of
    domains is not an event without hostnames; the callback raises. *)
Lemma missing_domain_list_raises :
  subscript Scenario.no_domains "message_type" = inr (PyStr "certificate_update")
  /\ leaf_cert Scenario.no_domains ["all_domains"] = inl (KeyError "all_domains")
  /\ print_callback PyRe.re DedupStore.sqlite Scenario.py Scenario.cfg
       Scenario.no_domains Scenario.w0
     = Raised (KeyError "all_domains") Scenario.w0.
Proof. repeat split; reflexivity. Qed.

(** The local [all_domains] on a message type the callback does not know. *)
Example unknown_message_type_unbound_local :
  print_callback PyRe.re DedupStore.sqlite Scenario.py Scenario.cfg
    Scenario.other_message Scenario.w0
  = Raised (UnboundLocalError "all_domains") Scenario.w0.
Proof. reflexivity. Qed.

(** C8 at the host of the fixture event: one distinct match under a
    threshold of 2, delivered three times. *)
Lemma partial_detection_logs_or_raises_witness :
  let message := Scenario.certificate_update ["secure-paypal-paypal-login.com"] in
  match_host PyRe.re Scenario.cfg "secure-paypal-paypal-login.com" = inr ([], 1)
  /\ 0 < 1 < DetectionThreshold Scenario.cfg
  /\ diagnostic_fields Scenario.py message
     = inr (PyStr "/C=US/O=Let's Encrypt/CN=R3", PyStr "AB:CD:EF",
            "1970-01-01T00:00:00")
  /\ let w' := redeliver
                 (loop_body PyRe.re DedupStore.sqlite Scenario.py Scenario.cfg message
                    (PyStr "secure-paypal-paypal-login.com")) 3 Scenario.w0 in
     SQL _ w' = [] /\ sql_calls _ w' = [] /\ stdout _ w' = []
     /\ logging _ w'
        = repeat (DEBUG,
                  "DETECTION THRESHOLD VALUE NOT REACHED - secure-paypal-paypal-login.com (SAN: ) (Issuer: /C=US/O=Let's Encrypt/CN=R3) (Fingerprint: AB:CD:EF) (StartTime: 1970-01-01T00:00:00)")
            3.
Proof.
  cbv zeta.
  assert (Hm : match_host PyRe.re Scenario.cfg "secure-paypal-paypal-login.com"
               = inr ([], 1)) by reflexivity.
  assert (Hn : 0 < 1 < DetectionThreshold Scenario.cfg) by (simpl; lia).
  split; [exact Hm|]. split; [exact Hn|]. split; [reflexivity|].
  destruct (partial_detection_logs_or_raises PyRe.re DedupStore.sqlite
              Scenario.py Scenario.cfg
              (Scenario.certificate_update ["secure-paypal-paypal-login.com"])
              "secure-paypal-paypal-login.com" [] 1 Hm Hn)
    as (Hframe & Hline & _).
  destruct (Hframe 3%nat Scenario.w0) as (H1 & H2 & H3).
  destruct (Hline (PyStr "/C=US/O=Let's Encrypt/CN=R3") (PyStr "AB:CD:EF")
              "1970-01-01T00:00:00" eq_refl) as (_ & Hk).
  split; [exact H1|]. split; [exact H2|]. split; [exact H3|].
  exact (Hk 3%nat Scenario.w0).
Defined.

(** C8 does not hold as stated: a host with one distinct match under a
    threshold of 2, on a certificate that has no issuer, leaves no line in
    the diagnostic log; the callback raises. *)
Lemma partial_detection_without_issuer_raises :
  match_host PyRe.re Scenario.cfg "paypal-login.com" = inr ([], 1)
  /\ classify 1 false (DetectionThreshold Scenario.cfg) = PartialDetection
  /\ print_callback PyRe.re DedupStore.sqlite Scenario.py Scenario.cfg
       EdgeScenario.no_issuer Scenario.w0
     = Raised (KeyError "issuer") Scenario.w0.
Proof. repeat split; reflexivity. Qed.

(** C10 at a first detection: the record holds the subject, the line prints
    the issuer. *)
Lemma stored_issuer_is_subject_printed_text_has_issuer_witness :
  let message := Scenario.certificate_update ["paypal-login.com"] in
  leaf_cert message ["subject"; "aggregated"] = inr (PyStr "/CN=paypal-login.com")
  /\ leaf_cert message ["issuer"; "aggregated"] = inr (PyStr "/C=US/O=Let's Encrypt/CN=R3")
  /\ match_host PyRe.re Scenario.cfg_two_keywords "paypal-login.com" = inr ([], 2)
  /\ loop_body PyRe.re DedupStore.sqlite Scenario.py Scenario.cfg_two_keywords
       message (PyStr "paypal-login.com") Scenario.w0
     = Normal tt
         (Build_world DedupStore.sqlite
            [DedupStore.Build_DetectionRecord "paypal-login.com" ""
               (PyStr "/CN=paypal-login.com") (PyStr "AB:CD:EF")
               "1970-01-01T00:00:00" "2021-06-01T12:00:00"]
            [write ("[2021-06-01T14:00:00] paypal-login.com (SAN: ) (Issuer: /C=US/O=Let's Encrypt/CN=R3) (Fingerprint: AB:CD:EF) (StartTime: 1970-01-01T00:00:00)"
                    ++ newline);
             flush]
            []
            [VerifyEntry "detections" "paypal-login.com";
             Insert "detections" "paypal-login.com" ""
               (PyStr "/CN=paypal-login.com") (PyStr "AB:CD:EF")
               "1970-01-01T00:00:00" "2021-06-01T12:00:00"]
            2).
Proof.
  cbv zeta.
  assert (Hm : match_host PyRe.re Scenario.cfg_two_keywords "paypal-login.com"
               = inr ([], 2)) by reflexivity.
  split; [reflexivity|]. split; [reflexivity|]. split; [exact Hm|].
  exact (proj1 (proj2
           (stored_issuer_is_subject_printed_text_has_issuer PyRe.re
              DedupStore.sqlite Scenario.py Scenario.cfg_two_keywords
              (Scenario.certificate_update ["paypal-login.com"]) "paypal-login.com"
              Scenario.w0 (PyStr "/CN=paypal-login.com")
              (PyStr "/C=US/O=Let's Encrypt/CN=R3") (PyStr "AB:CD:EF")
              "1970-01-01T00:00:00" _ eq_refl eq_refl eq_refl eq_refl eq_refl
              eq_refl))
           [] 2 Hm eq_refl).
Defined.

(** C2 at an event whose second host reaches the threshold while the
    storage is unavailable. *)
Lemma store_failure_leaves_callback_witness :
  let message :=
    Scenario.certificate_update ["example.com"; "paypal-login.com"; "paypal.com"] in
  for_each (loop_body PyRe.re DedupStore.unavailable Scenario.py
              Scenario.cfg_two_keywords message)
    [PyStr "example.com"] Scenario.down
  = Normal tt Scenario.down
  /\ match_host PyRe.re Scenario.cfg_two_keywords "paypal-login.com"
     = inr ([], 2)
  /\ SQLiteVerifyEntry DedupStore.unavailable (SQL _ Scenario.down) "detections"
       "paypal-login.com"
     = inl (ExternalError "storage unavailable")
  /\ exists w2,
       print_callback PyRe.re DedupStore.unavailable Scenario.py
         Scenario.cfg_two_keywords message Scenario.down
       = Raised (ExternalError "storage unavailable") w2
       /\ SQL _ w2 = SQL _ Scenario.down /\ stdout _ w2 = stdout _ Scenario.down
       /\ logging _ w2 = logging _ Scenario.down.
Proof.
  cbv zeta.
  split; [reflexivity|]. split; [reflexivity|]. split; [reflexivity|].
  apply (store_failure_leaves_callback PyRe.re DedupStore.unavailable Scenario.py
           Scenario.cfg_two_keywords
           (Scenario.certificate_update ["example.com"; "paypal-login.com"; "paypal.com"])
           (PyList [PyStr "example.com"; PyStr "paypal-login.com"; PyStr "paypal.com"])
           [PyStr "example.com"] [PyStr "paypal.com"] "paypal-login.com"
           Scenario.down Scenario.down [] 2
           (PyStr "/CN=paypal-login.com") (PyStr "AB:CD:EF") "1970-01-01T00:00:00"
           (ExternalError "storage unavailable"));
    try reflexivity.
  left. reflexivity.
Defined.

(** C2 does not hold as stated: with the storage unavailable, the exception
    of the lookup comes out of the callback. *)
Lemma unavailable_store_raises_out_of_callback :
  print_callback PyRe.re DedupStore.unavailable Scenario.py Scenario.cfg_two_keywords
    (Scenario.certificate_update ["paypal-login.com"]) Scenario.down
  = Raised (ExternalError "storage unavailable")
      (Build_world DedupStore.unavailable [] [] []
         [VerifyEntry "detections" "paypal-login.com"] 1).
Proof. reflexivity. Qed.

(** C1 at a first delivery into the empty store and its re-delivery. *)
Lemma at_most_one_record_per_domain_witness :
  let message := Scenario.certificate_update ["paypal-login.com"; "paypal-login.com"] in
  NoDup (DedupStore.domains (SQL _ Scenario.w0))
  /\ NoDup (DedupStore.domains
              (SQL _ (world_of (print_callback PyRe.re DedupStore.sqlite Scenario.py
                                  Scenario.cfg_two_keywords message Scenario.w0))))
  /\ forall w1,
       print_callback PyRe.re DedupStore.sqlite Scenario.py Scenario.cfg_two_keywords
         message Scenario.w0 = Normal tt w1 ->
       let w2 := world_of (print_callback PyRe.re DedupStore.sqlite Scenario.py
                             Scenario.cfg_two_keywords message w1) in
       SQL _ w2 = SQL _ w1 /\ stdout _ w2 = stdout _ w1.
Proof.
  cbv zeta.
  assert (H : NoDup (DedupStore.domains (SQL _ Scenario.w0))) by constructor.
  split; [exact H|].
  pose proof (at_most_one_record_per_domain PyRe.re Scenario.py
                Scenario.cfg_two_keywords
                (Scenario.certificate_update ["paypal-login.com"; "paypal-login.com"])
                Scenario.w0 H) as (Hunique & _ & _ & Hagain).
  split; [exact Hunique|].
  intros w1 Hrun. apply (Hagain w1 _ Hrun). apply incl_refl.
Defined.

(** C6 at a configured blacklist next to a search pattern that opens with a
    quantifier. *)
Lemma match_step_outcomes_witness :
  BlacklistKeywords PatternScenario.cfg_invalid_search <> ""
  /\ re_compile PyRe.re (BlacklistKeywords PatternScenario.cfg_invalid_search)
     = inr (["paypal"] : Pattern PyRe.re)
  /\ re_compile PyRe.re (SearchKeywords PatternScenario.cfg_invalid_search)
     = inl re_error
  /\ match_host PyRe.re PatternScenario.cfg_invalid_search "example.com"
     = inl re_error
  /\ print_callback PyRe.re DedupStore.sqlite Scenario.py
       PatternScenario.cfg_invalid_search
       (Scenario.certificate_update ["example.com"; "paypal.com"]) Scenario.w0
     = Raised re_error Scenario.w0.
Proof.
  assert (Hb : BlacklistKeywords PatternScenario.cfg_invalid_search <> "")
    by discriminate.
  split; [exact Hb|]. split; [reflexivity|]. split; [reflexivity|].
  destruct (match_step_outcomes PyRe.re PatternScenario.cfg_invalid_search
              "example.com") as (_ & _ & _ & Hsearch & _ & Hevent).
  destruct (Hsearch Hb (["paypal"] : Pattern PyRe.re) re_error eq_refl eq_refl)
    as (Hm & _).
  split; [exact Hm|].
  exact (Hevent re_error Hm DedupStore.sqlite Scenario.py
           (Scenario.certificate_update ["example.com"; "paypal.com"])
           (PyList [PyStr "example.com"; PyStr "paypal.com"])
           [PyStr "paypal.com"] Scenario.w0 eq_refl eq_refl eq_refl).
Defined.

(** A blacklist that does not compile, next to a search pattern that does. *)
Example invalid_blacklist_raises :
  match_host PyRe.re PatternScenario.cfg_invalid_blacklist "example.com"
  = inl re_error.
Proof. reflexivity. Qed.

(** C6 does not hold as stated: a search pattern that does not compile gives
    no count of zero; the match step and the callback raise. *)
Lemma invalid_pattern_raises :
  match_host PyRe.re Scenario.cfg_invalid_pattern "example.com" = inl re_error
  /\ print_callback PyRe.re DedupStore.sqlite Scenario.py Scenario.cfg_invalid_pattern
       (Scenario.certificate_update ["example.com"]) Scenario.w0
     = Raised re_error Scenario.w0.
Proof. split; reflexivity. Qed.

(** C4 does not hold as stated: the host counts 1, not 2; no record is
    inserted and nothing is written to the operator-visible output. *)
Lemma paypal_twice_counts_once :
  let w' := world_of
              (print_callback PyRe.re DedupStore.sqlite Scenario.py Scenario.cfg
                 (Scenario.certificate_update
                    ["secure-paypal-paypal-login.com"; "example.com"])
                 Scenario.w0) in
  len_set (PyRe.findall ["paypal"] "secure-paypal-paypal-login.com") = 1
  /\ SQL _ w' = [] /\ stdout _ w' = [].
Proof. repeat split; reflexivity. Qed.

(** C7 at a configuration file whose threshold is 0. *)
Lemma invalid_threshold_never_consumes_witness :
  (StartupScenario.read 0 StartupScenario.conf_path = None
   \/ exists settings,
        StartupScenario.read 0 StartupScenario.conf_path = Some settings
        /\ threshold_invalid settings = true)
  /\ consumes_feed
       (world_of (run_main Scenario.py
                    (SpecConfParser PyRe.re (StartupScenario.read 0))
                    StartupScenario.calm StartupScenario.str_exc_info
                    (Some StartupScenario.conf_path)))
     = false.
Proof.
  assert (H : StartupScenario.read 0 StartupScenario.conf_path = None
              \/ exists settings,
                   StartupScenario.read 0 StartupScenario.conf_path = Some settings
                   /\ threshold_invalid settings = true).
  { right. exists (StartupScenario.settings 0). split; reflexivity. }
  split; [exact H|].
  exact (proj1 (proj2 (invalid_threshold_never_consumes Scenario.py PyRe.re
                         (StartupScenario.read 0) StartupScenario.calm
                         StartupScenario.str_exc_info StartupScenario.conf_path H))).
Defined.

(** The empty search pattern on a hostname of the fixtures. *)
Example empty_pattern_on_example_com :
  match_host PyRe.re Scenario.cfg_empty_pattern "example.com" = inr ([], 1).
Proof. apply empty_search_pattern_counts_one; reflexivity. Qed.

(** * Further properties of the callback *)

Lemma for_each_preserves_in {W A} (P : W -> Prop) (body : A -> M W unit)
    (l : list A) :
  (forall x w, In x l -> P w -> P (world_of (body x w))) ->
  forall w, P w -> P (world_of (for_each body l w)).
Proof.
  induction l as [|x l IH]; intros Hbody w Hw; simpl.
  - exact Hw.
  - unfold bind.
    pose proof (Hbody x w (or_introl eq_refl) Hw) as Hx.
    destruct (body x w) as [[] w1|e w1]; simpl in *.
    + apply IH; [|exact Hx].
      intros y w' Hy. apply Hbody. right. exact Hy.
    + exact Hx.
Qed.

Lemma flushed_app (l1 l2 : list string) :
  flushed (l1 ++ l2) = (flushed l1 ++ flushed l2)%list.
Proof. unfold flushed. apply flat_map_app. Qed.

Lemma store_rounds_app (table : string) (hosts : list pyobj)
    (a b : list sql_call) :
  store_rounds table hosts a -> store_rounds table hosts b ->
  store_rounds table hosts (a ++ b)%list.
Proof.
  intros Ha Hb. induction Hb as [|r rs Hrs IH Hr].
  - rewrite app_nil_r. exact Ha.
  - rewrite app_assoc. apply more_rounds; assumption.
Qed.

Lemma store_rounds_one (table : string) (hosts : list pyobj) (r : list sql_call) :
  store_round table hosts r -> store_rounds table hosts r.
Proof.
  intros Hr. change r with ([] ++ r)%list.
  apply more_rounds; [apply no_round|exact Hr].
Qed.

(** Side conditions of a trace that adds nothing, or one round. *)
Ltac trace_side :=
  simpl; rewrite ?app_nil_r, <- ?app_assoc;
  first [reflexivity | assumption | apply no_round | apply le_n | simpl; lia | idtac].

Section CallbackTraces.

Variable re : ReModule.
Variable sqlite : SqliteCmd.
Variable py : Builtins.
Variable cfg : Config.
Variable hosts : list pyobj.

Lemma callback_trace_refl (w : world sqlite) :
  callback_trace sqlite (TABLEname cfg) hosts w w.
Proof.
  apply (traced _ _ _ _ _ [] [] []); trace_side.
Qed.

Lemma callback_trace_same (w w' : world sqlite) :
  stdout sqlite w' = stdout sqlite w ->
  sql_calls sqlite w' = sql_calls sqlite w ->
  logging sqlite w' = logging sqlite w ->
  callback_trace sqlite (TABLEname cfg) hosts w w'.
Proof.
  intros Ho Hs Hl.
  apply (traced _ _ _ _ _ [] [] []); trace_side.
Qed.

Lemma callback_trace_trans (w w1 w2 : world sqlite) :
  callback_trace sqlite (TABLEname cfg) hosts w w1 ->
  callback_trace sqlite (TABLEname cfg) hosts w1 w2 ->
  callback_trace sqlite (TABLEname cfg) hosts w w2.
Proof.
  intros [l1 a1 m1 Ho1 Hs1 Hr1 Hi1 Hl1] [l2 a2 m2 Ho2 Hs2 Hr2 Hi2 Hl2].
  apply (traced _ _ _ _ _ (l1 ++ l2) (a1 ++ a2) (m1 ++ m2)).
  - rewrite Ho2, Ho1, flushed_app, app_assoc. reflexivity.
  - rewrite Hs2, Hs1, app_assoc. reflexivity.
  - apply store_rounds_app; assumption.
  - rewrite filter_app, !length_app. apply Nat.add_le_mono; assumption.
  - rewrite Hl2, Hl1, map_app, app_assoc. reflexivity.
Qed.

Lemma debug_host_trace (message : pyobj) (h : string) (w : world sqlite) :
  callback_trace sqlite (TABLEname cfg) hosts w
    (world_of (debug_host sqlite py message h w)).
Proof.
  unfold debug_host, bind.
  destruct (leaf_cert message ["issuer"; "aggregated"]) as [?|i]; simpl;
    [apply callback_trace_refl|].
  destruct (leaf_cert message ["fingerprint"]) as [?|f]; simpl;
    [apply callback_trace_refl|].
  destruct (not_before_isoformat py message) as [?|st]; simpl;
    [apply callback_trace_refl|].
  apply (traced _ _ _ _ _ [] [] [debug_line py h i f st]); trace_side.
Qed.

Lemma store_host_trace (message : pyobj) (h : string) (w : world sqlite) :
  In (PyStr h) hosts ->
  callback_trace sqlite (TABLEname cfg) hosts w
    (world_of (store_host sqlite py cfg message h w)).
Proof.
  intros Hin. unfold store_host, bind.
  destruct (leaf_cert message ["subject"; "aggregated"]) as [?|subject]; simpl;
    [apply callback_trace_refl|].
  destruct (leaf_cert message ["fingerprint"]) as [?|fp]; simpl;
    [apply callback_trace_refl|].
  destruct (not_before_isoformat py message) as [?|st]; simpl;
    [apply callback_trace_refl|].
  assert (Hlook : store_rounds (TABLEname cfg) hosts [VerifyEntry (TABLEname cfg) h])
    by (apply store_rounds_one, lookup_only, Hin).
  unfold SQL_SQLiteVerifyEntry. simpl.
  destruct (SQLiteVerifyEntry sqlite (SQL sqlite w) (TABLEname cfg) h) as [e|n]; simpl.
  { apply (traced _ _ _ _ _ [] [VerifyEntry (TABLEname cfg) h] []); trace_side. }
  destruct (n =? 0); simpl.
  2:{ apply (traced _ _ _ _ _ [] [VerifyEntry (TABLEname cfg) h] []); trace_side. }
  assert (Hins : forall fs,
             store_rounds (TABLEname cfg) hosts
               [VerifyEntry (TABLEname cfg) h;
                Insert (TABLEname cfg) h "" subject fp st fs])
    by (intros fs; apply store_rounds_one, lookup_then_insert, Hin).
  pose (two := [VerifyEntry (TABLEname cfg) h;
                Insert (TABLEname cfg) h "" subject fp st
                  (utcnow_isoformat py (clock sqlite w))]).
  unfold SQL_SQLiteInsert. simpl.
  destruct (SQLiteInsert sqlite (SQL sqlite w) (TABLEname cfg) h "" subject fp st
              (utcnow_isoformat py (clock sqlite w))) as [e|db]; simpl.
  { apply (traced _ _ _ _ _ [] two []); trace_side; apply Hins. }
  destruct (leaf_cert message ["issuer"; "aggregated"]) as [e|iss]; simpl.
  { apply (traced _ _ _ _ _ [] two []); trace_side; apply Hins. }
  apply (traced _ _ _ _ _
           [stdout_line py (now_isoformat py (S (clock sqlite w))) h iss fp st]
           two []); trace_side; apply Hins.
Qed.

Lemma loop_body_trace (message host : pyobj) (w : world sqlite) :
  In host hosts ->
  callback_trace sqlite (TABLEname cfg) hosts w
    (world_of (loop_body re sqlite py cfg message host w)).
Proof.
  intros Hin.
  assert (Hother : (forall h, host <> PyStr h) ->
            callback_trace sqlite (TABLEname cfg) hosts w
              (world_of (loop_body re sqlite py cfg message host w))).
  { intros Hns. destruct (loop_body_not_str re sqlite py cfg message host w Hns)
      as (e & ->). apply callback_trace_refl. }
  destruct host as [| | |h| |]; try (apply Hother; discriminate).
  rewrite loop_body_str.
  destruct (match_host re cfg h) as [e|[bl n]]; [apply callback_trace_refl|].
  cbn [fst snd]. rewrite act_on_host_classify.
  destruct (classify n (truthy bl) (DetectionThreshold cfg)).
  - apply store_host_trace. exact Hin.
  - apply debug_host_trace.
  - apply callback_trace_refl.
Qed.

End CallbackTraces.

Lemma print_callback_trace (re : ReModule) (sqlite : SqliteCmd) (py : Builtins)
    (cfg : Config) (message : pyobj) (w : world sqlite) :
  callback_trace sqlite (TABLEname cfg) (hosts_of message) w
    (world_of (print_callback re sqlite py cfg message w)).
Proof.
  destruct (print_callback_loop re sqlite py cfg message w) as [->|(_ & e & ->)].
  - apply (for_each_preserves_in
             (callback_trace sqlite (TABLEname cfg) (hosts_of message) w)).
    + intros x w' Hx Hw'. eapply callback_trace_trans; [exact Hw'|].
      apply loop_body_trace. exact Hx.
    + apply callback_trace_refl.
  - apply callback_trace_refl.
Qed.

(** X1: whatever the event and however the callback ends, the calls it makes
    on the store come in rounds, one per host: a lookup of a hostname of the
    event in the configured table, alone or followed at once by the insertion
    of that same hostname in that table, with an empty SAN.  The callback
    never inserts a domain it has not just looked up. *)
Theorem store_calls_come_in_lookup_rounds (re : ReModule) (sqlite : SqliteCmd)
    (py : Builtins) (cfg : Config) (message : pyobj) (w : world sqlite) :
  exists added,
    sql_calls sqlite (world_of (print_callback re sqlite py cfg message w))
    = (sql_calls sqlite w ++ added)%list
    /\ store_rounds (TABLEname cfg) (hosts_of message) added.
Proof.
  destruct (print_callback_trace re sqlite py cfg message w)
    as [lines added messages _ Hs Hr _ _].
  exists added. split; assumption.
Qed.

(** ** Lines and insertions *)

Lemma host_rounds_app (py : Builtins) (table : string) (hosts : list pyobj)
    (c1 c2 : list sql_call) (o1 o2 : list stdout_op) :
  host_rounds py table hosts c1 o1 -> host_rounds py table hosts c2 o2 ->
  host_rounds py table hosts (c1 ++ c2)%list (o1 ++ o2)%list.
Proof.
  intros H1 H2. induction H2 as [|cs os c o Hrs IH Hr].
  - rewrite !app_nil_r. exact H1.
  - rewrite !app_assoc. apply rounds_more; assumption.
Qed.

Lemma host_rounds_one (py : Builtins) (table : string) (hosts : list pyobj)
    (c : list sql_call) (o : list stdout_op) :
  host_round py table hosts c o -> host_rounds py table hosts c o.
Proof.
  intros Hr. change c with ([] ++ c)%list. change o with ([] ++ o)%list.
  apply rounds_more; [apply rounds_none|exact Hr].
Qed.

(** Side conditions of a run that adds the calls and the output given. *)
Ltac announce_side :=
  simpl; rewrite ?app_nil_r, <- ?app_assoc; reflexivity.

Section Announcements.

Variable re : ReModule.
Variable sqlite : SqliteCmd.
Variable py : Builtins.
Variable cfg : Config.
Variable hosts : list pyobj.

Lemma announced_same (w w' : world sqlite) :
  sql_calls sqlite w' = sql_calls sqlite w ->
  stdout sqlite w' = stdout sqlite w ->
  announced_run sqlite py (TABLEname cfg) hosts w w'.
Proof.
  intros Hs Ho. apply (announced _ _ _ _ _ _ [] []).
  - rewrite app_nil_r. exact Hs.
  - rewrite app_nil_r. exact Ho.
  - apply rounds_none.
Qed.

Lemma announced_trans (w w1 w2 : world sqlite) :
  announced_run sqlite py (TABLEname cfg) hosts w w1 ->
  announced_run sqlite py (TABLEname cfg) hosts w1 w2 ->
  announced_run sqlite py (TABLEname cfg) hosts w w2.
Proof.
  intros [a1 o1 Hs1 Ho1 Hr1] [a2 o2 Hs2 Ho2 Hr2].
  apply (announced _ _ _ _ _ _ (a1 ++ a2) (o1 ++ o2)).
  - rewrite Hs2, Hs1, app_assoc. reflexivity.
  - rewrite Ho2, Ho1, app_assoc. reflexivity.
  - apply host_rounds_app; assumption.
Qed.

Lemma store_host_announced (message : pyobj) (h : string) (w : world sqlite) :
  In (PyStr h) hosts ->
  announced_run sqlite py (TABLEname cfg) hosts w
    (world_of (store_host sqlite py cfg message h w)).
Proof.
  intros Hin. unfold store_host, bind.
  destruct (leaf_cert message ["subject"; "aggregated"]) as [?|subject]; simpl;
    [apply announced_same; reflexivity|].
  destruct (leaf_cert message ["fingerprint"]) as [?|fp]; simpl;
    [apply announced_same; reflexivity|].
  destruct (not_before_isoformat py message) as [?|st]; simpl;
    [apply announced_same; reflexivity|].
  unfold SQL_SQLiteVerifyEntry. simpl.
  destruct (SQLiteVerifyEntry sqlite (SQL sqlite w) (TABLEname cfg) h) as [e|n]; simpl.
  { apply (announced _ _ _ _ _ _ [VerifyEntry (TABLEname cfg) h] []);
      [announce_side | announce_side | ].
    exact (host_rounds_one _ _ _ _ _ (round_lookup py (TABLEname cfg) hosts h Hin)). }
  destruct (n =? 0); simpl.
  2:{ apply (announced _ _ _ _ _ _ [VerifyEntry (TABLEname cfg) h] []);
        [announce_side | announce_side | ].
      exact (host_rounds_one _ _ _ _ _ (round_lookup py (TABLEname cfg) hosts h Hin)). }
  pose (two := [VerifyEntry (TABLEname cfg) h;
                Insert (TABLEname cfg) h "" subject fp st
                  (utcnow_isoformat py (clock sqlite w))]).
  unfold SQL_SQLiteInsert. simpl.
  destruct (SQLiteInsert sqlite (SQL sqlite w) (TABLEname cfg) h "" subject fp st
              (utcnow_isoformat py (clock sqlite w))) as [e|db]; simpl.
  { apply (announced _ _ _ _ _ _ two []); [announce_side | announce_side | ].
    exact (host_rounds_one _ _ _ _ _
             (round_insert py (TABLEname cfg) hosts h subject fp st
                (utcnow_isoformat py (clock sqlite w)) Hin)). }
  destruct (leaf_cert message ["issuer"; "aggregated"]) as [e|iss]; simpl.
  { apply (announced _ _ _ _ _ _ two []); [announce_side | announce_side | ].
    exact (host_rounds_one _ _ _ _ _
             (round_insert py (TABLEname cfg) hosts h subject fp st
                (utcnow_isoformat py (clock sqlite w)) Hin)). }
  apply (announced _ _ _ _ _ _ two
           [write ("[" ++ now_isoformat py (S (clock sqlite w)) ++ "] " ++ h
                   ++ " (SAN: ) (Issuer: " ++ format_field py iss
                   ++ ") (Fingerprint: " ++ format_field py fp
                   ++ ") (StartTime: " ++ st ++ ")" ++ newline);
            flush]); [announce_side | announce_side | ].
  exact (host_rounds_one _ _ _ _ _
           (round_insert_line py (TABLEname cfg) hosts h subject fp st
              (utcnow_isoformat py (clock sqlite w))
              (now_isoformat py (S (clock sqlite w))) iss Hin)).
Qed.

Lemma loop_body_announced (message host : pyobj) (w : world sqlite) :
  In host hosts ->
  announced_run sqlite py (TABLEname cfg) hosts w
    (world_of (loop_body re sqlite py cfg message host w)).
Proof.
  intros Hin.
  assert (Hother : (forall h, host <> PyStr h) ->
            announced_run sqlite py (TABLEname cfg) hosts w
              (world_of (loop_body re sqlite py cfg message host w))).
  { intros Hns. destruct (loop_body_not_str re sqlite py cfg message host w Hns)
      as (e & ->). apply announced_same; reflexivity. }
  destruct host as [| | |h| |]; try (apply Hother; discriminate).
  rewrite loop_body_str.
  destruct (match_host re cfg h) as [e|[bl n]];
    [apply announced_same; reflexivity|].
  cbn [fst snd]. rewrite act_on_host_classify.
  destruct (classify n (truthy bl) (DetectionThreshold cfg)).
  - apply store_host_announced. exact Hin.
  - destruct (debug_host_frame sqlite py message h w) as (_ & H2 & H3 & _).
    apply announced_same; assumption.
  - apply announced_same; reflexivity.
Qed.

End Announcements.

(** X2: whatever the event and however the callback ends, what it adds to
    the calls on the store and to [sys.stdout] is made of rounds, one per
    host that reached the store: a lookup with no output, a lookup and the
    insertion of the host with no output, or a lookup, the insertion of the
    host and one whole line, written and then flushed, whose text names that
    host and carries the fingerprint and the start time just inserted.  No
    line is written for a domain that was not inserted in the same round. *)
Theorem every_line_follows_its_insert (re : ReModule) (sqlite : SqliteCmd)
    (py : Builtins) (cfg : Config) (message : pyobj) (w : world sqlite) :
  exists (added : list sql_call) (ops : list stdout_op),
    sql_calls sqlite (world_of (print_callback re sqlite py cfg message w))
    = (sql_calls sqlite w ++ added)%list
    /\ stdout sqlite (world_of (print_callback re sqlite py cfg message w))
       = (stdout sqlite w ++ ops)%list
    /\ host_rounds py (TABLEname cfg) (hosts_of message) added ops.
Proof.
  assert (Hrun : announced_run sqlite py (TABLEname cfg) (hosts_of message) w
                   (world_of (print_callback re sqlite py cfg message w))).
  { destruct (print_callback_loop re sqlite py cfg message w) as [->|(_ & e & ->)].
    - apply (for_each_preserves_in
               (announced_run sqlite py (TABLEname cfg) (hosts_of message) w)).
      + intros x w' Hx Hw'. eapply announced_trans; [exact Hw'|].
        apply loop_body_announced. exact Hx.
      + apply announced_same; reflexivity.
    - apply announced_same; reflexivity. }
  destruct Hrun as [added ops Hs Ho Hr].
  exists added, ops. repeat split; assumption.
Qed.

(** X3: the callback only ever logs at level [DEBUG]: whatever the event and
    however the callback ends, including with an exception, the entries it
    adds to the log are debug messages. *)
Theorem callback_logs_only_debug (re : ReModule) (sqlite : SqliteCmd)
    (py : Builtins) (cfg : Config) (message : pyobj) (w : world sqlite) :
  exists messages,
    logging sqlite (world_of (print_callback re sqlite py cfg message w))
    = (logging sqlite w ++ map (pair DEBUG) messages)%list.
Proof.
  destruct (print_callback_trace re sqlite py cfg message w)
    as [lines added messages _ _ _ _ Hl].
  exists messages. exact Hl.
Qed.

Section CallbackEdges.

Variable re : ReModule.
Variable sqlite : SqliteCmd.
Variable py : Builtins.
Variable cfg : Config.

Lemma store_host_fields_missing (message : pyobj) (h : string) (e : exn)
    (w : world sqlite) :
  certificate_fields py message = inl e ->
  store_host sqlite py cfg message h w = Raised e w.
Proof.
  unfold certificate_fields, store_host, bind.
  destruct (leaf_cert message ["subject"; "aggregated"]) as [e1|subject]; simpl.
  { intros H. injection H as <-. reflexivity. }
  destruct (leaf_cert message ["fingerprint"]) as [e2|fp]; simpl.
  { intros H. injection H as <-. reflexivity. }
  destruct (not_before_isoformat py message) as [e3|st]; simpl.
  { intros H. injection H as <-. reflexivity. }
  discriminate.
Qed.

(** X4: the certificate is read before the store is asked.  For a host that
    reaches the threshold, when the subject, the fingerprint or the start
    time of the certificate cannot be read, the callback raises that
    exception without any call on the store and without output, whether or
    not the domain already has a record. *)
Theorem certificate_is_read_before_lookup (message : pyobj) (h : string)
    (is_blacklisted : list string) (FindNb : Z) (e : exn) (w : world sqlite) :
  match_host re cfg h = inr (is_blacklisted, FindNb) ->
  classify FindNb (truthy is_blacklisted) (DetectionThreshold cfg) = FullDetection ->
  certificate_fields py message = inl e ->
  loop_body re sqlite py cfg message (PyStr h) w = Raised e w.
Proof.
  intros Hm Hfull Hfields.
  rewrite loop_body_str, Hm. cbn [fst snd].
  rewrite act_on_host_classify, Hfull.
  apply store_host_fields_missing. exact Hfields.
Qed.

(** X5: the record is inserted before the output line is built.  When the
    certificate has a subject but its [issuer.aggregated] cannot be read, a
    new domain is inserted into the store and then the callback raises: the
    record is there and no line was written for it. *)
Theorem record_inserted_before_line_is_built (message : pyobj) (h : string)
    (w : world sqlite) (subject fingerprint : pyobj) (starttime : string)
    (db' : DB sqlite) (e : exn) :
  certificate_fields py message = inr (subject, fingerprint, starttime) ->
  SQLiteVerifyEntry sqlite (SQL sqlite w) (TABLEname cfg) h = inr 0 ->
  SQLiteInsert sqlite (SQL sqlite w) (TABLEname cfg) h "" subject fingerprint
    starttime (utcnow_isoformat py (clock sqlite w)) = inr db' ->
  leaf_cert message ["issuer"; "aggregated"] = inl e ->
  store_host sqlite py cfg message h w =
  Raised e
    (Build_world sqlite db' (stdout sqlite w) (logging sqlite w)
       (sql_calls sqlite w
        ++ [VerifyEntry (TABLEname cfg) h;
            Insert (TABLEname cfg) h "" subject fingerprint starttime
              (utcnow_isoformat py (clock sqlite w))])
       (S (S (clock sqlite w)))).
Proof.
  unfold certificate_fields, store_host, bind.
  destruct (leaf_cert message ["subject"; "aggregated"]) as [?|s]; simpl;
    [discriminate|].
  destruct (leaf_cert message ["fingerprint"]) as [?|f]; simpl; [discriminate|].
  destruct (not_before_isoformat py message) as [?|st]; simpl; [discriminate|].
  intros Hf Hv Hi Hiss. injection Hf as -> -> ->.
  unfold SQL_SQLiteVerifyEntry. simpl. rewrite Hv. simpl.
  unfold SQL_SQLiteInsert. simpl. rewrite Hi. simpl.
  rewrite Hiss. simpl. rewrite <- app_assoc. reflexivity.
Qed.

Lemma len_set_nonneg (results : list string) : 0 <= len_set results.
Proof. unfold len_set. lia. Qed.

Lemma match_host_count (h : string) (bl : list string) (n : Z) :
  match_host re cfg h = inr (bl, n) ->
  exists results, re_findall re (SearchKeywords cfg) h = inr results
                  /\ n = len_set results.
Proof.
  unfold match_host, rbind.
  destruct (String.eqb (BlacklistKeywords cfg) "");
    [|destruct (re_findall re (BlacklistKeywords cfg) h) as [?|b];
      [discriminate|]];
    (destruct (re_findall re (SearchKeywords cfg) h) as [?|results];
     [discriminate|]);
    (intros H; injection H as _ <-; exists results; split; reflexivity).
Qed.

(** X6: with a detection threshold of 0 or less, the number of matches no
    longer matters: every hostname string takes the store branch, also one
    in which no keyword was found, unless the blacklist matches it, in which
    case nothing happens. *)
Theorem nonpositive_threshold_stores_every_host (message : pyobj) (h : string)
    (is_blacklisted : list string) (FindNb : Z) (w : world sqlite) :
  DetectionThreshold cfg <= 0 ->
  match_host re cfg h = inr (is_blacklisted, FindNb) ->
  loop_body re sqlite py cfg message (PyStr h) w =
  if truthy is_blacklisted then Normal tt w
  else store_host sqlite py cfg message h w.
Proof.
  intros Hthr Hm.
  destruct (match_host_count h is_blacklisted FindNb Hm) as (results & _ & ->).
  rewrite loop_body_str, Hm. cbn [fst snd]. unfold act_on_host.
  pose proof (len_set_nonneg results) as Hn.
  replace (DetectionThreshold cfg <=? len_set results) with true
    by (symmetry; apply Z.leb_le; lia).
  rewrite andb_true_r.
  destruct (truthy is_blacklisted); reflexivity.
Qed.

(** X8: a host that is not a string ends the event.  When the list of
    domains holds a value that is not a string, the hosts before it are
    processed, then the callback raises [TypeError] (the pattern compiled,
    the subject was refused) and the hosts after it are never looked at. *)
Theorem non_string_host_ends_the_event (message v host : pyobj)
    (before after : list pyobj) (w w1 : world sqlite) (p : Pattern re) :
  subscript message "message_type" = inr (PyStr "certificate_update") ->
  leaf_cert message ["all_domains"] = inr v ->
  iterate v = inr (before ++ host :: after)%list ->
  (forall h, host <> PyStr h) ->
  re_compile re (first_pattern cfg) = inr p ->
  for_each (loop_body re sqlite py cfg message) before w = Normal tt w1 ->
  print_callback re sqlite py cfg message w = Raised TypeError w1.
Proof.
  intros Hmt Hall Hit Hns Hp Hbefore.
  rewrite (print_callback_certificate_update re sqlite py cfg _ _ _ Hmt Hall Hit).
  rewrite for_each_app, Hbefore. cbn [for_each]. unfold bind at 1.
  assert (Hhost : loop_body re sqlite py cfg message host w1 = Raised TypeError w1).
  { destruct host; try (exfalso; eapply Hns; reflexivity);
      unfold loop_body, bind; rewrite Hp; reflexivity. }
  rewrite Hhost. reflexivity.
Qed.

End CallbackEdges.

(** ** The count of distinct matches *)

Lemma nodup_length_le (l : list string) :
  (List.length (nodup string_dec l) <= List.length l)%nat.
Proof.
  induction l as [|x l IH]; simpl.
  - apply le_n.
  - destruct (in_dec string_dec x l); simpl; lia.
Qed.

(** X7: [FindNb] counts the distinct strings among the matches.  It is 0
    exactly when nothing matched, it never exceeds the number of matches, a
    match that repeats an earlier one does not change it, and a match unlike
    the others adds one. *)
Theorem FindNb_counts_distinct_matches (results : list string) :
  (len_set results = 0 <-> results = [])
  /\ 0 <= len_set results <= Z.of_nat (List.length results)
  /\ (forall x, In x results -> len_set (x :: results) = len_set results)
  /\ (forall x, ~ In x results -> len_set (x :: results) = len_set results + 1).
Proof.
  unfold len_set.
  split; [|split; [|split]].
  - split.
    + intros H. destruct results as [|x l]; [reflexivity|].
      exfalso.
      assert (Hin : In x (nodup string_dec (x :: l)))
        by (apply nodup_In; left; reflexivity).
      destruct (nodup string_dec (x :: l)); [destruct Hin|].
      simpl in H. lia.
    + intros ->. reflexivity.
  - pose proof (nodup_length_le results). lia.
  - intros x Hin. simpl. destruct (in_dec string_dec x results) as [_|Hn].
    + reflexivity.
    + contradiction.
  - intros x Hn. simpl. destruct (in_dec string_dec x results) as [Hin|_].
    + contradiction.
    + simpl. lia.
Qed.

(** ** Keywords and threshold, in the fragment of [re] *)

Lemma match_here_in (alts : list string) (s : string) (b : bool) (m : string) :
  PyRe.match_here alts s b = Some m -> In m alts.
Proof.
  unfold PyRe.match_here. intros H. apply find_some in H. apply H.
Qed.

Lemma scan_in (alts : list string) (s : string) :
  forall (skip : nat) (x : string), In x (PyRe.scan alts s skip) -> In x alts.
Proof.
  induction s as [|c s IH]; intros skip x.
  - destruct skip as [|k]; simpl; [|intros []].
    destruct (PyRe.match_here alts "" false) as [m|] eqn:Hm; [|intros []].
    destruct (String.eqb m "").
    + destruct (PyRe.match_here alts "" true) as [m'|] eqn:Hm'.
      * intros [<-|[<-|[]]]; eapply match_here_in; eassumption.
      * intros [<-|[]]. eapply match_here_in; eassumption.
    + intros [<-|[]]. eapply match_here_in; eassumption.
  - destruct skip as [|k]; simpl; [|apply IH].
    destruct (PyRe.match_here alts (String c s) false) as [m|] eqn:Hm; [|apply IH].
    destruct (String.eqb m "").
    + destruct (PyRe.match_here alts (String c s) true) as [m'|] eqn:Hm'.
      * intros [<-|[<-|Hin]];
          [eapply match_here_in; eassumption
          |eapply match_here_in; eassumption
          |eapply IH; eassumption].
      * intros [<-|Hin]; [eapply match_here_in; eassumption|eapply IH; eassumption].
    + intros [<-|Hin]; [eapply match_here_in; eassumption|eapply IH; eassumption].
Qed.

Lemma len_set_findall_le (alts : list string) (s : string) :
  len_set (PyRe.findall alts s) <= Z.of_nat (List.length alts).
Proof.
  unfold len_set. apply Nat2Z.inj_le.
  apply NoDup_incl_length.
  - apply NoDup_nodup.
  - intros x Hx. apply nodup_In in Hx. apply (scan_in alts s 0%nat x Hx).
Qed.

(** X9: with a search pattern that is an alternation of literal keywords,
    the count of a hostname never exceeds the number of keywords, so a
    threshold above that number is never reached: no host ever touches the
    store or the operator-visible output. *)
Theorem count_bounded_by_keywords (cfg : Config) (h : string)
    (alts : list string) (is_blacklisted : list string) (FindNb : Z) :
  PyRe.parse true (SearchKeywords cfg) = inr alts ->
  match_host PyRe.re cfg h = inr (is_blacklisted, FindNb) ->
  FindNb <= Z.of_nat (List.length alts)
  /\ (Z.of_nat (List.length alts) < DetectionThreshold cfg ->
      forall (sqlite : SqliteCmd) (py : Builtins) (message : pyobj)
             (w : world sqlite),
        let w' := world_of (loop_body PyRe.re sqlite py cfg message (PyStr h) w) in
        SQL sqlite w' = SQL sqlite w /\ sql_calls sqlite w' = sql_calls sqlite w
        /\ stdout sqlite w' = stdout sqlite w).
Proof.
  intros Hp Hm.
  assert (Hle : FindNb <= Z.of_nat (List.length alts)).
  { destruct (match_host_count PyRe.re cfg h is_blacklisted FindNb Hm)
      as (results & Hr & ->).
    unfold re_findall in Hr. cbn [re_compile Pattern_findall PyRe.re] in Hr.
    rewrite Hp in Hr. simpl in Hr. injection Hr as <-.
    apply len_set_findall_le. }
  split; [exact Hle|].
  intros Hthr sqlite py message w. cbv zeta.
  rewrite loop_body_str, Hm. cbn [fst snd]. unfold act_on_host.
  replace (DetectionThreshold cfg <=? FindNb) with false
    by (symmetry; apply Z.leb_gt; lia).
  rewrite andb_false_r.
  destruct ((0 <? FindNb) && (FindNb <? DetectionThreshold cfg)).
  - destruct (debug_host_frame sqlite py message h w) as (H1 & H2 & H3 & _). auto.
  - simpl. auto.
Qed.

(** * Further properties of the start-up *)

(** ** Rules for [never_returns] and [keeps] *)

Lemma never_returns_raise_bind {W A B} (e : exn) (k : A -> M W B) :
  never_returns (bind (raise e) k).
Proof. intros w. exists e, w. reflexivity. Qed.

Lemma never_returns_bind {W A B} (m : M W A) (k : A -> M W B) :
  (forall a, never_returns (k a)) -> never_returns (bind m k).
Proof.
  intros Hk w. unfold bind.
  destruct (m w) as [a w1|e w1].
  - apply Hk.
  - exists e, w1. reflexivity.
Qed.

Lemma keeps_ret {W A} (I : W -> Prop) (a : A) : keeps I (ret a).
Proof. intros w Hw. exact Hw. Qed.

Lemma keeps_raise {W A} (I : W -> Prop) (e : exn) : keeps I (@raise W A e).
Proof. intros w Hw. exact Hw. Qed.

Lemma keeps_lift {W A} (I : W -> Prop) (r : result A) : keeps I (lift r).
Proof. intros w Hw. destruct r; exact Hw. Qed.

Lemma keeps_bind {W A B} (I : W -> Prop) (m : M W A) (k : A -> M W B) :
  keeps I m -> (forall a, keeps I (k a)) -> keeps I (bind m k).
Proof.
  intros Hm Hk w Hw. unfold bind.
  specialize (Hm w Hw).
  destruct (m w) as [a w1|e w1]; simpl in Hm.
  - apply Hk. exact Hm.
  - exact Hm.
Qed.

Lemma keeps_raise_bind {W A B} (I : W -> Prop) (e : exn) (k : A -> M W B) :
  keeps I (bind (raise e) k).
Proof. intros w Hw. exact Hw. Qed.

Lemma keeps_try_except {W A} (I : W -> Prop) (m : M W A) (handler : exn -> M W A) :
  keeps I m -> (forall e, keeps I (handler e)) -> keeps I (try_except m handler).
Proof.
  intros Hm Hh w Hw. unfold try_except.
  specialize (Hm w Hw).
  destruct (m w) as [a w1|e w1]; simpl in Hm.
  - exact Hm.
  - apply Hh. exact Hm.
Qed.

Lemma keeps_for_each {W A} (I : W -> Prop) (body : A -> M W unit) (l : list A) :
  (forall x, keeps I (body x)) -> keeps I (for_each body l).
Proof.
  intros Hbody w Hw.
  apply (for_each_preserves I body); [|exact Hw].
  intros x w' Hw'. apply Hbody. exact Hw'.
Qed.

Lemma keeps_global (I : process -> Prop) (name : string) : keeps I (global name).
Proof.
  intros p Hp. unfold global.
  destruct (assoc name (globals p)); exact Hp.
Qed.

Lemma keeps_set_global (I : process -> Prop) (name : string) (v : pyobj) :
  (forall p, I p -> I {| globals := (name, v) :: globals p; calls := calls p |}) ->
  keeps I (set_global name v).
Proof. intros H p Hp. apply H. exact Hp. Qed.

Lemma keeps_call (I : process -> Prop)
    (environment : list ext_call -> ext_call -> option exn) (c : ext_call) :
  (forall p, I p -> I {| globals := globals p; calls := (calls p ++ [c])%list |}) ->
  keeps I (call environment c).
Proof.
  intros H p Hp. unfold call.
  destruct (environment (calls p) c); apply H; exact Hp.
Qed.

(** A name that the invariant knows unbound: the read raises and what follows
    is not run. *)
Lemma keeps_bind_unbound {A} (I : process -> Prop) (name : string)
    (k : pyobj -> M process A) :
  (forall p, I p -> assoc name (globals p) = None) ->
  keeps I (bind (global name) k).
Proof.
  intros Hn p Hp. unfold bind, global. rewrite (Hn p Hp). exact Hp.
Qed.

(** A name whose value the invariant knows. *)
Lemma keeps_bind_bound {A} (I : process -> Prop) (name : string) (v : pyobj)
    (k : pyobj -> M process A) :
  (forall p, I p -> assoc name (globals p) = Some v) ->
  keeps I (k v) ->
  keeps I (bind (global name) k).
Proof.
  intros Hn Hk p Hp. unfold bind, global. rewrite (Hn p Hp). apply Hk. exact Hp.
Qed.

Lemma store_open_call (c : ext_call) (p : process) :
  c <> SQLiteClose -> store_open p ->
  store_open {| globals := globals p; calls := (calls p ++ [c])%list |}.
Proof.
  unfold store_open. simpl. intros Hc Hp Hin.
  apply in_app_or in Hin. destruct Hin as [Hin|[Heq|[]]].
  - exact (Hp Hin).
  - exact (Hc Heq).
Qed.

(** Walking through a sequence of statements with [keeps]. *)
Ltac keeps_leaf side :=
  first
    [ apply keeps_global
    | apply keeps_ret
    | apply keeps_raise
    | apply keeps_lift
    | apply keeps_set_global; side
    | apply keeps_call; side ].

Ltac keeps_walk side :=
  repeat first
    [ apply keeps_raise_bind
    | apply keeps_bind; [|intros ?]
    | apply keeps_try_except; [|intros ?]
    | apply keeps_for_each; intros ?
    | keeps_leaf side
    | match goal with
      | |- keeps _ (if ?b then _ else _) => destruct b
      end ].

Section StartupRuns.

Variable py : Builtins.
Variable ConfParser : pyobj -> result (list (string * pyobj)).
Variable environment : list ext_call -> ext_call -> option exn.
Variable str_exc_info : exn -> string.

(** X10: [main] never closes the store.  Whatever the configuration and
    whatever the collaborators do, [SQL.SQLiteClose()] is not called: the
    statement before it, [print_callback()] without its two arguments, always
    raises. *)
Theorem main_never_closes_the_store (p : process) :
  store_open p ->
  store_open (world_of (main py ConfParser environment str_exc_info p)).
Proof.
  revert p. change (keeps store_open (main py ConfParser environment str_exc_info)).
  unfold main, ConfAnalysis.
  keeps_walk ltac:(intros; first [assumption | apply store_open_call;
                                   [discriminate|assumption]]).
Qed.

Lemma main_body_never_returns (p : process) :
  exists e p1,
    main py ConfParser environment str_exc_info p
    = call environment (logging_error (" Main error " ++ str_exc_info e)) p1.
Proof.
  unfold main, try_except.
  match goal with
  | |- exists e p1, match ?body p with _ => _ end = _ =>
      assert (Hnever : never_returns body)
  end.
  { repeat first [apply never_returns_raise_bind
                 | apply never_returns_bind; intros ?]. }
  destruct (Hnever p) as (e & p1 & ->).
  exists e, p1. reflexivity.
Qed.

(** X11: every run of [main] ends in its handler.  The body of the [try]
    never completes, not even after the feed client returned, so the last
    thing [main] does is always to log [" Main error ..."]; it returns
    normally exactly when that call to [logging.error] does. *)
Theorem main_always_ends_in_its_handler (p : process) :
  exists e p1,
    main py ConfParser environment str_exc_info p
    = call environment (logging_error (" Main error " ++ str_exc_info e)) p1
    /\ calls (world_of (main py ConfParser environment str_exc_info p))
       = (calls p1 ++ [logging_error (" Main error " ++ str_exc_info e)])%list.
Proof.
  destruct (main_body_never_returns p) as (e & p1 & Hmain).
  exists e, p1. split; [exact Hmain|].
  rewrite Hmain. unfold call.
  destruct (environment (calls p1) (logging_error (" Main error " ++ str_exc_info e)));
    reflexivity.
Qed.

End StartupRuns.

(** ** [ConfAnalysis] *)

Lemma load_names_all (CONF : list (string * pyobj)) (val : string -> pyobj)
    (names : list string) :
  (forall n, In n names -> getattr CONF n = inr (val n)) ->
  forall p,
    for_each (load_name CONF) names p
    = Normal tt {| globals := assigned val names (globals p); calls := calls p |}.
Proof.
  unfold assigned.
  induction names as [|x names IH]; intros Hval p.
  - destruct p. reflexivity.
  - cbn [for_each]. unfold bind at 1. unfold load_name at 1. unfold bind at 1.
    rewrite (Hval x (or_introl eq_refl)). cbn [lift ret set_global].
    rewrite IH by (intros n Hn; apply Hval; right; exact Hn).
    cbn [globals calls map rev]. rewrite <- app_assoc. reflexivity.
Qed.

Lemma load_names_returned (CONF : list (string * pyobj)) (names : list string) :
  forall p p',
    for_each (load_name CONF) names p = Normal tt p' ->
    forall n, In n names -> exists v, getattr CONF n = inr v.
Proof.
  induction names as [|x names IH]; intros p p' Hrun n Hin.
  - destruct Hin.
  - cbn [for_each] in Hrun. unfold bind at 1 in Hrun.
    unfold load_name at 1 in Hrun. unfold bind at 1 in Hrun.
    destruct (getattr CONF x) as [e|v] eqn:Hx; [discriminate|].
    cbn [lift ret set_global] in Hrun.
    destruct Hin as [<-|Hin]; [eauto|].
    apply (IH _ _ Hrun n Hin).
Qed.

Section ConfAnalysisFacts.

Variable ConfParser : pyobj -> result (list (string * pyobj)).
Variable environment : list ext_call -> ext_call -> option exn.
Variable str_exc_info : exn -> string.

Lemma ConfAnalysis_complete (f : pyobj) (CONF : list (string * pyobj))
    (val : string -> pyobj) (p : process) :
  ConfParser f = inr CONF ->
  (forall n, In n conf_names -> getattr CONF n = inr (val n)) ->
  ConfAnalysis ConfParser environment str_exc_info f p
  = Normal tt
      {| globals := assigned val conf_names (("CONF", PyDict CONF) :: globals p);
         calls := calls p |}.
Proof.
  intros Hf Hval. unfold ConfAnalysis, try_except.
  unfold bind at 1. rewrite Hf. cbn [lift ret]. unfold bind at 1.
  cbn [set_global].
  change (fun name : string => bind (lift (getattr CONF name))
                                 (fun v => set_global name v))
    with (load_name CONF).
  rewrite (load_names_all CONF val conf_names Hval). reflexivity.
Qed.

(** X12: when the parser returns an object that has the thirteen attributes,
    [ConfAnalysis] returns without logging or calling anything, and each of
    the thirteen globals then reads as the attribute of the same name;
    [CONF] is the object itself. *)
Theorem ConfAnalysis_loads_every_attribute (f : pyobj)
    (CONF : list (string * pyobj)) (val : string -> pyobj) (p : process) :
  ConfParser f = inr CONF ->
  (forall n, In n conf_names -> getattr CONF n = inr (val n)) ->
  exists p',
    ConfAnalysis ConfParser environment str_exc_info f p = Normal tt p'
    /\ calls p' = calls p
    /\ assoc "CONF" (globals p') = Some (PyDict CONF)
    /\ forall n, In n conf_names -> global n p' = Normal (val n) p'.
Proof.
  intros Hf Hval.
  rewrite (ConfAnalysis_complete f CONF val p Hf Hval).
  eexists. split; [reflexivity|]. split; [reflexivity|]. split; [reflexivity|].
  intros n Hn. unfold conf_names in Hn. cbn [In] in Hn.
  repeat (destruct Hn as [<-|Hn]; [reflexivity|]).
  destruct Hn.
Qed.

(** X13: [ConfAnalysis] swallows every error of the parser and of the reading
    of the attributes.  As long as [logging.error] itself does not raise,
    it returns normally, having made no call or the one call that logs
    [" ConfParser Error: ..."]. *)
Theorem ConfAnalysis_swallows_errors (f : pyobj) (p : process) :
  (forall cs msg, environment cs (logging_error msg) = None) ->
  exists p',
    ConfAnalysis ConfParser environment str_exc_info f p = Normal tt p'
    /\ (calls p' = calls p
        \/ exists e,
             calls p' = (calls p ++
                         [logging_error (" ConfParser Error: " ++ str_exc_info e)])%list).
Proof.
  intros Hlog. unfold ConfAnalysis, try_except.
  match goal with
  | |- exists p', match ?body p with _ => _ end = _ /\ _ =>
      assert (Hcalls : keeps (fun q => calls q = calls p) body)
  end.
  { keeps_walk ltac:(intros; assumption). }
  specialize (Hcalls p eq_refl).
  match goal with
  | |- exists p', match ?body p with _ => _ end = _ /\ _ =>
      destruct (body p) as [[] p1|e p1]
  end; simpl in Hcalls.
  - exists p1. split; [reflexivity|]. left. exact Hcalls.
  - unfold call. rewrite Hlog. eexists. split; [reflexivity|].
    right. exists e. simpl. rewrite Hcalls. reflexivity.
Qed.

End ConfAnalysisFacts.

(** ** [main] and the configuration *)

Lemma consumes_feed_call (c : ext_call) (p : process) :
  is_listen c = false -> consumes_feed p = false ->
  consumes_feed {| globals := globals p; calls := (calls p ++ [c])%list |} = false.
Proof.
  unfold consumes_feed. simpl. intros Hc Hp.
  rewrite existsb_app, Hp. simpl. rewrite Hc. reflexivity.
Qed.

Lemma awaiting_call (f : pyobj) (c : ext_call) (p : process) :
  is_listen c = false -> awaiting_configuration f p ->
  awaiting_configuration f {| globals := globals p; calls := (calls p ++ [c])%list |}.
Proof.
  intros Hc (H1 & H2 & H3). repeat split; try assumption.
  apply consumes_feed_call; assumption.
Qed.

Lemma awaiting_set_global (f : pyobj) (name : string) (v : pyobj) (p : process) :
  name <> "ConfFile" -> name <> "Proxy_Password" ->
  awaiting_configuration f p ->
  awaiting_configuration f {| globals := (name, v) :: globals p; calls := calls p |}.
Proof.
  intros Hc Hp (H1 & H2 & H3).
  assert (String.eqb "ConfFile" name = false) as E1
    by (apply String.eqb_neq; congruence).
  assert (String.eqb "Proxy_Password" name = false) as E2
    by (apply String.eqb_neq; congruence).
  unfold awaiting_configuration. cbn [globals assoc]. rewrite E1, E2.
  repeat split; assumption.
Qed.

Lemma conf_names_last :
  conf_names = (removelast conf_names ++ ["Proxy_Password"])%list.
Proof. reflexivity. Qed.

Section IncompleteConfiguration.

Variable py : Builtins.
Variable ConfParser : pyobj -> result (list (string * pyobj)).
Variable environment : list ext_call -> ext_call -> option exn.
Variable str_exc_info : exn -> string.

Lemma load_names_keep_awaiting (f : pyobj) (CONF : list (string * pyobj))
    (names : list string) :
  ~ In "ConfFile" names -> ~ In "Proxy_Password" names ->
  keeps (awaiting_configuration f) (for_each (load_name CONF) names).
Proof.
  intros Hc Hp p Hw.
  apply (for_each_preserves_in (awaiting_configuration f)); [|exact Hw].
  intros x w Hx Hw'. unfold load_name, bind.
  destruct (getattr CONF x) as [e|v]; simpl; [exact Hw'|].
  apply awaiting_set_global; try assumption; intros ->; contradiction.
Qed.

(** An attribute is missing: the loop of assignments stops before the last
    name. *)
Lemma load_incomplete_keeps_awaiting (f : pyobj) (CONF : list (string * pyobj)) :
  (exists n, In n conf_names /\ forall v, getattr CONF n <> inr v) ->
  keeps (awaiting_configuration f) (for_each (load_name CONF) conf_names).
Proof.
  intros (n & Hn & Hmiss) p Hw.
  rewrite conf_names_last, for_each_app.
  assert (Hfirst : awaiting_configuration f
            (world_of (for_each (load_name CONF) (removelast conf_names) p))).
  { apply load_names_keep_awaiting; [| |exact Hw];
      cbn; intros H; repeat (destruct H as [H|H]; [discriminate|]); exact H. }
  destruct (for_each (load_name CONF) (removelast conf_names) p)
    as [[] p1|e p1] eqn:Hrun; simpl in Hfirst; [|exact Hfirst].
  cbn [for_each]. unfold bind at 1. unfold load_name, bind.
  destruct (getattr CONF "Proxy_Password") as [e|v] eqn:Hlast; simpl;
    [exact Hfirst|].
  exfalso.
  rewrite conf_names_last in Hn. apply in_app_or in Hn.
  destruct Hn as [Hn|[<-|[]]].
  - destruct (load_names_returned CONF _ _ _ Hrun n Hn) as (v' & Hv').
    exact (Hmiss v' Hv').
  - exact (Hmiss v Hlast).
Qed.

Lemma ConfAnalysis_incomplete_keeps_awaiting (f : pyobj) :
  (forall CONF, ConfParser f = inr CONF ->
     exists n, In n conf_names /\ forall v, getattr CONF n <> inr v) ->
  keeps (awaiting_configuration f)
    (ConfAnalysis ConfParser environment str_exc_info f).
Proof.
  intros Hinc. unfold ConfAnalysis.
  apply keeps_try_except.
  - intros p Hw. unfold bind at 1.
    destruct (ConfParser f) as [e|CONF] eqn:Hf; cbn [lift raise ret world_of].
    + exact Hw.
    + unfold bind at 1. cbn [set_global].
      change (fun name : string => bind (lift (getattr CONF name))
                                     (fun v => set_global name v))
        with (load_name CONF).
      apply (load_incomplete_keeps_awaiting f CONF (Hinc CONF eq_refl)).
      apply awaiting_set_global; [discriminate|discriminate|exact Hw].
  - intros e. apply keeps_call. intros p Hw.
    apply awaiting_call; [reflexivity|exact Hw].
Qed.

Lemma main_incomplete_keeps_awaiting (f : pyobj) :
  (forall CONF, ConfParser f = inr CONF ->
     exists n, In n conf_names /\ forall v, getattr CONF n <> inr v) ->
  keeps (awaiting_configuration f) (main py ConfParser environment str_exc_info).
Proof.
  intros Hinc. unfold main.
  apply keeps_try_except.
  - apply (keeps_bind_bound _ "ConfFile" f); [intros p (H & _); exact H|].
    apply keeps_bind; [apply ConfAnalysis_incomplete_keeps_awaiting; exact Hinc|].
    intros _.
    repeat first
      [ apply keeps_bind_unbound; solve [intros p (_ & H & _); exact H]
      | apply keeps_bind; [|intros ?]
      | keeps_leaf ltac:(intros;
                         first [ apply awaiting_call; [reflexivity|assumption]
                               | apply awaiting_set_global;
                                 [discriminate|discriminate|assumption] ])
      | match goal with
        | |- keeps _ (if ?b then _ else _) => destruct b
        end ].
  - intros e. apply keeps_call. intros p Hw.
    apply awaiting_call; [reflexivity|exact Hw].
Qed.

(** X14: the feed is consumed only under a complete configuration.  When a
    run of [main] started by [args_parse] reaches the call to the feed
    client, the parser had returned an object and that object had every one
    of the thirteen attributes [ConfAnalysis] reads, [BlacklistKeywords]
    included. *)
Theorem feed_needs_complete_configuration (f : pyobj) :
  consumes_feed
    (world_of (run_main py ConfParser environment str_exc_info (Some f))) = true ->
  exists CONF,
    ConfParser f = inr CONF
    /\ forall n, In n conf_names -> exists v, getattr CONF n = inr v.
Proof.
  intros Hfeed.
  assert (Hdec : forall CONF n,
             {exists v, getattr CONF n = inr v} + {~ exists v, getattr CONF n = inr v}).
  { intros CONF n. destruct (getattr CONF n) as [e|v].
    - right. intros (v & Hv). discriminate.
    - left. exists v. reflexivity. }
  assert (Hinc : ~ (forall CONF, ConfParser f = inr CONF ->
                      exists n, In n conf_names /\ forall v, getattr CONF n <> inr v)).
  { intros Hinc.
    pose proof (main_incomplete_keeps_awaiting f Hinc (fresh_process (Some f)))
      as Hkeep.
    unfold run_main in Hfeed.
    destruct Hkeep as (_ & _ & Hno).
    - repeat split.
    - rewrite Hno in Hfeed. discriminate. }
  destruct (ConfParser f) as [e|CONF] eqn:Hf.
  - exfalso. apply Hinc. intros CONF HCONF. discriminate.
  - exists CONF. split; [reflexivity|].
    destruct (Forall_Exists_dec (fun n => exists v, getattr CONF n = inr v)
                (Hdec CONF) conf_names) as [Hall|Hex].
    + intros n Hn. rewrite Forall_forall in Hall. apply Hall. exact Hn.
    + exfalso. apply Hinc. intros CONF' HCONF'. injection HCONF' as <-.
      apply Exists_exists in Hex. destruct Hex as (n & Hn & Hmiss).
      exists n. split; [exact Hn|].
      intros v Hv. apply Hmiss. exists v. exact Hv.
Qed.

End IncompleteConfiguration.

(** Running the statements of [main] once the answers of the environment are
    known. *)
Ltac run_main_steps Hcalm :=
  repeat progress
    (cbn [globals calls assoc String.eqb Ascii.eqb Bool.eqb app world_of];
     rewrite ?Hcalm).

Section CompleteConfiguration.

Variable py : Builtins.
Variable ConfParser : pyobj -> result (list (string * pyobj)).
Variable environment : list ext_call -> ext_call -> option exn.
Variable str_exc_info : exn -> string.

(** What [main] does up to the choice of the log handler, under a complete
    configuration and collaborators that do not fail. *)
Lemma main_complete_run (f : pyobj) (CONF : list (string * pyobj))
    (val : string -> pyobj) :
  ConfParser f = inr CONF ->
  (forall n, In n conf_names -> getattr CONF n = inr (val n)) ->
  (forall cs c, environment cs c = None) ->
  forall k : string,
  val "SearchKeywords" = PyStr k ->
  calls (world_of (run_main py ConfParser environment str_exc_info (Some f)))
  = ([VerifyPath_new;
      VerifyOrCreate (val "DBFile");
      VerifyOrCreate (val "LogFile");
      SqliteCmd_new (val "DBFile");
      SQLiteCreateTable (val "TABLEname");
      getLogger;
      setLevel (val "LogLevel")]
     ++ (if eq_str (val "LogType") "file"
         then [RotatingFileHandler (val "LogFile"); addHandler;
               logging_info ("Looking for these strings: " ++ k
                             ++ ", detection threshold: "
                             ++ format_field py (val "DetectionThreshold"));
               listen_for_events (val "ACTServer") (val "Proxy_Host")
                 (val "Proxy_Port") (val "Proxy_Username") (val "Proxy_Password");
               logging_error (" Main error " ++ str_exc_info TypeError)]
         else if eq_str (val "LogType") "syslog"
         then [StreamHandler; addHandler;
               logging_info ("Looking for these strings: " ++ k
                             ++ ", detection threshold: "
                             ++ format_field py (val "DetectionThreshold"));
               listen_for_events (val "ACTServer") (val "Proxy_Host")
                 (val "Proxy_Port") (val "Proxy_Username") (val "Proxy_Password");
               logging_error (" Main error " ++ str_exc_info TypeError)]
         else match str_operand (val "LogType") with
              | inr t =>
                  [logging_error ("Unsupported log type " ++ t ++ ". Exiting...");
                   logging_error (" Main error " ++ str_exc_info (SystemExit 1))]
              | inl e => [logging_error (" Main error " ++ str_exc_info e)]
              end))%list.
Proof.
  intros Hf Hval Hcalm k Hk.
  unfold run_main, main, try_except, fresh_process.
  unfold bind at 1. cbn [global globals assoc String.eqb Ascii.eqb Bool.eqb].
  unfold bind at 1.
  rewrite (ConfAnalysis_complete ConfParser environment str_exc_info f CONF val _
             Hf Hval).
  unfold assigned, conf_names.
  cbn [map rev app globals calls].
  unfold bind, call, global, set_global, lift, ret, raise.
  run_main_steps Hcalm.
  destruct (eq_str (val "LogType") "file").
  { rewrite ?Hk. unfold str_operand. run_main_steps Hcalm. reflexivity. }
  run_main_steps Hcalm.
  destruct (eq_str (val "LogType") "syslog").
  { rewrite ?Hk. unfold str_operand. run_main_steps Hcalm. reflexivity. }
  run_main_steps Hcalm.
  destruct (str_operand (val "LogType")); run_main_steps Hcalm; reflexivity.
Qed.

Lemma main_returns_when_logging_does (p : process) :
  (forall cs c, environment cs c = None) ->
  exists p', main py ConfParser environment str_exc_info p = Normal tt p'.
Proof.
  intros Hcalm.
  destruct (main_body_never_returns py ConfParser environment str_exc_info p)
    as (e & p1 & ->).
  unfold call. rewrite Hcalm. eexists. reflexivity.
Qed.

(** X15: the start-up under a complete configuration.  With the thirteen
    attributes there, a log type of [file] or [syslog], a search pattern that
    is a string and collaborators that do not fail, [main] checks or creates
    the two files, opens the store, creates the table, sets the log level
    and the handler, logs the keywords and the threshold, and calls the feed
    client with the server and the four proxy settings exactly as the
    configuration has them.  When the feed client returns, [main] logs a
    [TypeError] and returns. *)
Theorem main_hands_configuration_to_feed_client (f : pyobj)
    (CONF : list (string * pyobj)) (val : string -> pyobj) (k t : string) :
  ConfParser f = inr CONF ->
  (forall n, In n conf_names -> getattr CONF n = inr (val n)) ->
  (forall cs c, environment cs c = None) ->
  val "SearchKeywords" = PyStr k ->
  val "LogType" = PyStr t ->
  t = "file" \/ t = "syslog" ->
  calls (world_of (run_main py ConfParser environment str_exc_info (Some f)))
  = ([VerifyPath_new;
      VerifyOrCreate (val "DBFile");
      VerifyOrCreate (val "LogFile");
      SqliteCmd_new (val "DBFile");
      SQLiteCreateTable (val "TABLEname");
      getLogger;
      setLevel (val "LogLevel")]
     ++ (if String.eqb t "file"
         then [RotatingFileHandler (val "LogFile"); addHandler]
         else [StreamHandler; addHandler])
     ++ [logging_info ("Looking for these strings: " ++ k
                       ++ ", detection threshold: "
                       ++ format_field py (val "DetectionThreshold"));
         listen_for_events (val "ACTServer") (val "Proxy_Host")
           (val "Proxy_Port") (val "Proxy_Username") (val "Proxy_Password");
         logging_error (" Main error " ++ str_exc_info TypeError)])%list.
Proof.
  intros Hf Hval Hcalm Hk Ht Hkind.
  rewrite (main_complete_run f CONF val Hf Hval Hcalm k Hk), Ht.
  destruct Hkind as [->| ->]; reflexivity.
Qed.

(** X16: a log type that is neither [file] nor [syslog].  Under an otherwise
    complete configuration, [main] logs the unsupported log type and the feed
    client is never called; the [sys.exit(1)] that follows is caught by the
    bare [except] of [main], which logs it as a main error and returns
    normally instead of ending the process with status 1. *)
Theorem unsupported_log_type_is_swallowed (f : pyobj)
    (CONF : list (string * pyobj)) (val : string -> pyobj) (k t : string) :
  ConfParser f = inr CONF ->
  (forall n, In n conf_names -> getattr CONF n = inr (val n)) ->
  (forall cs c, environment cs c = None) ->
  val "SearchKeywords" = PyStr k ->
  val "LogType" = PyStr t ->
  t <> "file" -> t <> "syslog" ->
  calls (world_of (run_main py ConfParser environment str_exc_info (Some f)))
  = [VerifyPath_new;
     VerifyOrCreate (val "DBFile");
     VerifyOrCreate (val "LogFile");
     SqliteCmd_new (val "DBFile");
     SQLiteCreateTable (val "TABLEname");
     getLogger;
     setLevel (val "LogLevel");
     logging_error ("Unsupported log type " ++ t ++ ". Exiting...");
     logging_error (" Main error " ++ str_exc_info (SystemExit 1))]
  /\ consumes_feed
       (world_of (run_main py ConfParser environment str_exc_info (Some f))) = false
  /\ exists p',
       run_main py ConfParser environment str_exc_info (Some f) = Normal tt p'.
Proof.
  intros Hf Hval Hcalm Hk Ht Hfile Hsys.
  assert (Hcalls :
    calls (world_of (run_main py ConfParser environment str_exc_info (Some f)))
    = [VerifyPath_new;
       VerifyOrCreate (val "DBFile");
       VerifyOrCreate (val "LogFile");
       SqliteCmd_new (val "DBFile");
       SQLiteCreateTable (val "TABLEname");
       getLogger;
       setLevel (val "LogLevel");
       logging_error ("Unsupported log type " ++ t ++ ". Exiting...");
       logging_error (" Main error " ++ str_exc_info (SystemExit 1))]).
  { rewrite (main_complete_run f CONF val Hf Hval Hcalm k Hk), Ht.
    apply String.eqb_neq in Hfile, Hsys.
    cbn [eq_str str_operand]. rewrite Hfile, Hsys. reflexivity. }
  split; [exact Hcalls|]. split.
  - unfold consumes_feed. rewrite Hcalls. reflexivity.
  - apply main_returns_when_logging_does. exact Hcalm.
Qed.

End CompleteConfiguration.

(** * The command line *)

Section CommandLineFacts.

Variable py : Builtins.
Variable ConfParser : pyobj -> result (list (string * pyobj)).
Variable environment : list ext_call -> ext_call -> option exn.
Variable str_exc_info : exn -> string.
Variable getopt : list string -> string + (list (string * string) * list string).
Variable isfile : string -> bool.

Lemma usage_exits (s : shell) :
  usage s
  = Raised (SystemExit 0)
      {| proc := proc s; printed := (printed s ++ [usage_text])%list |}.
Proof. reflexivity. Qed.

Lemma args_parse_with_arguments (argv : list string) (s : shell) :
  tl argv <> [] ->
  args_parse environment getopt isfile argv s
  = match getopt (tl argv) with
    | inr (opts, _) => for_each (handle_option environment isfile) opts s
    | inl err =>
        bind (in_process (call environment
                            (logging_error (" Option Error. Exiting..." ++ err))))
          (fun _ => bind usage (fun _ => raise (SystemExit 2))) s
    end.
Proof.
  intros Hargs. unfold args_parse.
  destruct (tl argv) as [|x rest]; [contradiction|].
  cbn [List.length Nat.eqb]. unfold bind at 1. cbn [ret].
  unfold bind at 1.
  destruct (getopt (x :: rest)) as [err|[opts args]].
  - unfold bind. destruct (in_process _ s); [|reflexivity].
    rewrite usage_exits. reflexivity.
  - reflexivity.
Qed.

(** X17: started without any argument, the script prints the usage text and
    exits with status 0; nothing is assigned, parsed or logged. *)
Theorem no_argument_prints_usage (argv : list string) (s : shell) :
  tl argv = [] ->
  args_parse environment getopt isfile argv s
  = Raised (SystemExit 0)
      {| proc := proc s; printed := (printed s ++ [usage_text])%list |}.
Proof.
  intros Hargs. unfold args_parse. rewrite Hargs.
  cbn [List.length Nat.eqb]. unfold bind at 1. rewrite usage_exits. reflexivity.
Qed.

(** X18: an option error ends the script with status 0, not 2.  When
    [getopt] refuses the arguments, the error is logged, the usage text is
    printed, and [usage] leaves with [sys.exit(0)]; the [sys.exit(2)] after
    it is never reached. *)
Theorem option_error_exits_with_status_0 (argv : list string) (s : shell)
    (err : string) :
  tl argv <> [] ->
  getopt (tl argv) = inl err ->
  environment (calls (proc s))
    (logging_error (" Option Error. Exiting..." ++ err)) = None ->
  args_parse environment getopt isfile argv s
  = Raised (SystemExit 0)
      {| proc := {| globals := globals (proc s);
                    calls := (calls (proc s)
                              ++ [logging_error (" Option Error. Exiting..." ++ err)])%list |};
         printed := (printed s ++ [usage_text])%list |}.
Proof.
  intros Hargs Herr Hlog.
  rewrite (args_parse_with_arguments argv s Hargs), Herr.
  unfold bind at 1. unfold in_process, call. rewrite Hlog.
  unfold bind at 1. rewrite usage_exits. reflexivity.
Qed.

Lemma handle_option_other (o a : string) (s : shell) :
  o <> "-h" -> o <> "--help" -> o <> "-c" -> o <> "--config" ->
  handle_option environment isfile (o, a) s
  = Raised (AssertionError "Unhandled Option") s.
Proof.
  intros H1 H2 H3 H4. unfold handle_option.
  apply String.eqb_neq in H1, H2, H3, H4.
  rewrite H1, H2, H3, H4. reflexivity.
Qed.

(** X19: an option other than [-h], [--help], [-c] and [--config] fails the
    assertion of line 109.  The script ends with [AssertionError] after the
    options before it were handled and before those after it are looked at.
    [--conf], the long option line 93 declares, is such an option. *)
Theorem other_option_fails_the_assertion (argv : list string) (s s1 : shell)
    (before after : list (string * string)) (o a : string) (args : list string) :
  tl argv <> [] ->
  getopt (tl argv) = inr ((before ++ (o, a) :: after)%list, args) ->
  for_each (handle_option environment isfile) before s = Normal tt s1 ->
  o <> "-h" -> o <> "--help" -> o <> "-c" -> o <> "--config" ->
  args_parse environment getopt isfile argv s
  = Raised (AssertionError "Unhandled Option") s1.
Proof.
  intros Hargs Hopts Hbefore H1 H2 H3 H4.
  rewrite (args_parse_with_arguments argv s Hargs), Hopts.
  rewrite for_each_app, Hbefore. cbn [for_each]. unfold bind at 1.
  rewrite (handle_option_other o a s1 H1 H2 H3 H4). reflexivity.
Qed.

Lemma handle_option_returned (oa : string * string) (s s' : shell) :
  handle_option environment isfile oa s = Normal tt s' ->
  (fst oa = "-c" \/ fst oa = "--config") /\ isfile (snd oa) = true
  /\ s' = {| proc := {| globals := ("ConfFile", PyStr (snd oa)) :: globals (proc s);
                        calls := calls (proc s) |};
             printed := printed s |}.
Proof.
  destruct oa as [o a]. unfold handle_option. cbn [fst snd].
  destruct (String.eqb o "-h" || String.eqb o "--help") eqn:Hh.
  { rewrite usage_exits. discriminate. }
  destruct (String.eqb o "-c" || String.eqb o "--config") eqn:Hc;
    [|discriminate].
  destruct (isfile a) eqn:Hfile.
  - unfold in_process, set_global. intros H. injection H as <-.
    split; [|split; reflexivity].
    apply orb_prop in Hc. destruct Hc as [Hc|Hc]; apply String.eqb_eq in Hc; auto.
  - unfold bind, in_process, call.
    destruct (environment _ _); discriminate.
Qed.

Lemma options_returned (opts : list (string * string)) :
  forall s s' : shell,
    for_each (handle_option environment isfile) opts s = Normal tt s' ->
    (forall o a, In (o, a) opts -> (o = "-c" \/ o = "--config") /\ isfile a = true)
    /\ s' = {| proc := {| globals :=
                            (rev (map (fun oa => ("ConfFile", PyStr (snd oa))) opts)
                             ++ globals (proc s))%list;
                          calls := calls (proc s) |};
               printed := printed s |}.
Proof.
  induction opts as [|oa opts IH]; intros s s' Hrun.
  - cbn [for_each ret] in Hrun. injection Hrun as <-.
    split; [intros o a []|]. destruct s as [[g c] pr]. reflexivity.
  - cbn [for_each] in Hrun. unfold bind at 1 in Hrun.
    destruct (handle_option environment isfile oa s) as [[] s1|e s1] eqn:Hone;
      [|discriminate].
    destruct (handle_option_returned oa s s1 Hone) as (Ho & Hfile & ->).
    destruct (IH _ _ Hrun) as (Hall & ->).
    split.
    + intros o a [Heq|Hin]; [subst oa; split; assumption|apply Hall; exact Hin].
    + cbn [proc globals calls printed map rev]. rewrite <- app_assoc. reflexivity.
Qed.

(** X20: [args_parse] returns only with existing files.  When it returns,
    there was at least one argument, every option was [-c] or [--config]
    with a path that [os.path.isfile] accepts, nothing was printed or
    logged, and [ConfFile] was assigned once per option, in order, so that
    it holds the path of the last one. *)
Theorem args_parse_returns_with_existing_files (argv : list string)
    (s s' : shell) :
  args_parse environment getopt isfile argv s = Normal tt s' ->
  exists opts args,
    tl argv <> []
    /\ getopt (tl argv) = inr (opts, args)
    /\ (forall o a, In (o, a) opts ->
          (o = "-c" \/ o = "--config") /\ isfile a = true)
    /\ s' = {| proc := {| globals :=
                            (rev (map (fun oa => ("ConfFile", PyStr (snd oa))) opts)
                             ++ globals (proc s))%list;
                          calls := calls (proc s) |};
               printed := printed s |}.
Proof.
  intros Hrun.
  assert (Hargs : tl argv <> []).
  { intros Hnil. rewrite (no_argument_prints_usage argv s Hnil) in Hrun.
    discriminate. }
  rewrite (args_parse_with_arguments argv s Hargs) in Hrun.
  destruct (getopt (tl argv)) as [err|[opts args]] eqn:Hopts.
  - exfalso. unfold bind at 1 in Hrun.
    destruct (in_process _ s); [|discriminate].
    unfold bind at 1 in Hrun. rewrite usage_exits in Hrun. discriminate.
  - exists opts, args. destruct (options_returned opts s s' Hrun) as (Hall & Hs').
    split; [exact Hargs|]. split; [reflexivity|]. split; [exact Hall|exact Hs'].
Qed.

(** X21: started with arguments among which [getopt] finds no option, the
    script reaches [main] with [ConfFile] never assigned: the only thing
    done is to log the [NameError] as a main error; no file, store or feed
    client is touched. *)
Theorem script_without_option_only_logs (argv args : list string) :
  tl argv <> [] ->
  getopt (tl argv) = inr ([], args) ->
  let s' := world_of (script py ConfParser environment str_exc_info getopt isfile
                        argv boot) in
  calls (proc s')
  = [logging_error (" Main error " ++ str_exc_info (NameError "ConfFile"))]
  /\ globals (proc s') = []
  /\ printed s' = [].
Proof.
  intros Hargs Hopts.
  assert (Hrun : script py ConfParser environment str_exc_info getopt isfile argv boot
                 = in_process (main py ConfParser environment str_exc_info) boot).
  { unfold script. unfold bind at 1.
    rewrite (args_parse_with_arguments argv boot Hargs), Hopts. reflexivity. }
  assert (Hmain : main py ConfParser environment str_exc_info (proc boot)
                  = call environment
                      (logging_error (" Main error "
                                      ++ str_exc_info (NameError "ConfFile")))
                      (proc boot)).
  { unfold main, try_except. unfold bind at 1. reflexivity. }
  cbv zeta. rewrite Hrun. unfold in_process. rewrite Hmain.
  unfold call. cbn [proc boot calls globals].
  destruct (environment [] _); repeat split; reflexivity.
Qed.


End CommandLineFacts.

(** * The further statements at concrete inputs *)

(** Membership in the thirteen names, case by case. *)
Ltac each_conf_name H :=
  unfold conf_names in H; cbn [In] in H;
  repeat (destruct H as [<-|H]; [reflexivity|]);
  destruct H.

(** X4 at a certificate without subject. *)
Lemma certificate_is_read_before_lookup_witness :
  match_host PyRe.re Scenario.cfg_two_keywords "paypal-login.com" = inr ([], 2)
  /\ certificate_fields Scenario.py EdgeScenario.no_subject = inl (KeyError "subject")
  /\ loop_body PyRe.re DedupStore.sqlite Scenario.py Scenario.cfg_two_keywords
       EdgeScenario.no_subject (PyStr "paypal-login.com") Scenario.w0
     = Raised (KeyError "subject") Scenario.w0.
Proof.
  split; [reflexivity|]. split; [reflexivity|].
  apply (certificate_is_read_before_lookup PyRe.re DedupStore.sqlite Scenario.py
           Scenario.cfg_two_keywords EdgeScenario.no_subject "paypal-login.com"
           [] 2); reflexivity.
Defined.

(** X5 at a certificate with a subject and no issuer. *)
Lemma record_inserted_before_line_is_built_witness :
  certificate_fields Scenario.py EdgeScenario.no_issuer
  = inr (PyStr "/CN=paypal-login.com", PyStr "AB:CD:EF", "1970-01-01T00:00:00")
  /\ leaf_cert EdgeScenario.no_issuer ["issuer"; "aggregated"] = inl (KeyError "issuer")
  /\ store_host DedupStore.sqlite Scenario.py Scenario.cfg_two_keywords
       EdgeScenario.no_issuer "paypal-login.com" Scenario.w0
     = Raised (KeyError "issuer")
         (Build_world DedupStore.sqlite
            [DedupStore.Build_DetectionRecord "paypal-login.com" ""
               (PyStr "/CN=paypal-login.com") (PyStr "AB:CD:EF")
               "1970-01-01T00:00:00" "2021-06-01T12:00:00"]
            [] []
            [VerifyEntry "detections" "paypal-login.com";
             Insert "detections" "paypal-login.com" ""
               (PyStr "/CN=paypal-login.com") (PyStr "AB:CD:EF")
               "1970-01-01T00:00:00" "2021-06-01T12:00:00"]
            2).
Proof.
  split; [reflexivity|]. split; [reflexivity|].
  exact (record_inserted_before_line_is_built DedupStore.sqlite Scenario.py
           Scenario.cfg_two_keywords EdgeScenario.no_issuer "paypal-login.com"
           Scenario.w0 (PyStr "/CN=paypal-login.com") (PyStr "AB:CD:EF")
           "1970-01-01T00:00:00" _ (KeyError "issuer")
           eq_refl eq_refl eq_refl eq_refl).
Defined.

(** X6 at a threshold of 0 and a hostname without any keyword. *)
Lemma nonpositive_threshold_stores_every_host_witness :
  DetectionThreshold EdgeScenario.cfg_zero_threshold <= 0
  /\ match_host PyRe.re EdgeScenario.cfg_zero_threshold "example.com" = inr ([], 0)
  /\ loop_body PyRe.re DedupStore.sqlite Scenario.py EdgeScenario.cfg_zero_threshold
       (Scenario.certificate_update ["example.com"]) (PyStr "example.com") Scenario.w0
     = store_host DedupStore.sqlite Scenario.py EdgeScenario.cfg_zero_threshold
         (Scenario.certificate_update ["example.com"]) "example.com" Scenario.w0.
Proof.
  assert (H : DetectionThreshold EdgeScenario.cfg_zero_threshold <= 0)
    by (simpl; lia).
  split; [exact H|]. split; [reflexivity|].
  exact (nonpositive_threshold_stores_every_host PyRe.re DedupStore.sqlite
           Scenario.py EdgeScenario.cfg_zero_threshold
           (Scenario.certificate_update ["example.com"]) "example.com" [] 0
           Scenario.w0 H eq_refl).
Defined.

(** X7 at three matches, two of them alike. *)
Lemma FindNb_counts_distinct_matches_witness :
  In "paypal" ["login"; "paypal"]
  /\ len_set ["paypal"; "login"; "paypal"] = len_set ["login"; "paypal"].
Proof.
  assert (H : In "paypal" ["login"; "paypal"]) by (right; left; reflexivity).
  split; [exact H|].
  exact (proj1 (proj2 (proj2 (FindNb_counts_distinct_matches ["login"; "paypal"])))
           "paypal" H).
Defined.

(** X8 at a list of domains with a number in the middle. *)
Lemma non_string_host_ends_the_event_witness :
  iterate (PyList EdgeScenario.mixed_hosts)
  = inr ([PyStr "example.com"] ++ PyInt 7 :: [PyStr "paypal-login.com"])%list
  /\ for_each (loop_body PyRe.re DedupStore.sqlite Scenario.py
                 Scenario.cfg_two_keywords EdgeScenario.mixed)
       [PyStr "example.com"] Scenario.w0
     = Normal tt Scenario.w0
  /\ print_callback PyRe.re DedupStore.sqlite Scenario.py Scenario.cfg_two_keywords
       EdgeScenario.mixed Scenario.w0
     = Raised TypeError Scenario.w0.
Proof.
  split; [reflexivity|]. split; [reflexivity|].
  apply (non_string_host_ends_the_event PyRe.re DedupStore.sqlite Scenario.py
           Scenario.cfg_two_keywords EdgeScenario.mixed
           (PyList EdgeScenario.mixed_hosts) (PyInt 7)
           [PyStr "example.com"] [PyStr "paypal-login.com"]
           Scenario.w0 Scenario.w0 ["paypal"; "login"]);
    try reflexivity.
  intros h. discriminate.
Defined.

(** X9 at the single keyword [paypal] under a threshold of 2. *)
Lemma count_bounded_by_keywords_witness :
  PyRe.parse true (SearchKeywords Scenario.cfg) = inr ["paypal"]
  /\ match_host PyRe.re Scenario.cfg "secure-paypal-paypal-login.com" = inr ([], 1)
  /\ 1 <= Z.of_nat (List.length ["paypal"]).
Proof.
  split; [reflexivity|]. split; [reflexivity|].
  exact (proj1 (count_bounded_by_keywords Scenario.cfg
                  "secure-paypal-paypal-login.com" ["paypal"] [] 1
                  eq_refl eq_refl)).
Defined.

(** X10 at the start of the fixture process. *)
Lemma main_never_closes_the_store_witness :
  store_open (fresh_process (Some StartupScenario.conf_path))
  /\ store_open
       (world_of (main Scenario.py (StartupScenario.lenient 2) StartupScenario.calm
                    StartupScenario.str_exc_info
                    (fresh_process (Some StartupScenario.conf_path)))).
Proof.
  assert (H : store_open (fresh_process (Some StartupScenario.conf_path)))
    by (intros []).
  split; [exact H|].
  apply main_never_closes_the_store. exact H.
Defined.

(** X12 at the settings of the fixtures. *)
Lemma ConfAnalysis_loads_every_attribute_witness :
  StartupScenario.lenient 2 StartupScenario.conf_path
  = inr (StartupScenario.settings 2)
  /\ (forall n, In n conf_names ->
        getattr (StartupScenario.settings 2) n = inr (ShellScenario.val n))
  /\ exists p',
       ConfAnalysis (StartupScenario.lenient 2) StartupScenario.calm
         StartupScenario.str_exc_info StartupScenario.conf_path
         (fresh_process (Some StartupScenario.conf_path))
       = Normal tt p'
       /\ calls p' = []
       /\ global "DetectionThreshold" p' = Normal (PyInt 2) p'.
Proof.
  assert (Hval : forall n, In n conf_names ->
            getattr (StartupScenario.settings 2) n = inr (ShellScenario.val n))
    by (intros n Hn; each_conf_name Hn).
  split; [reflexivity|]. split; [exact Hval|].
  destruct (ConfAnalysis_loads_every_attribute (StartupScenario.lenient 2)
              StartupScenario.calm StartupScenario.str_exc_info
              StartupScenario.conf_path (StartupScenario.settings 2)
              ShellScenario.val (fresh_process (Some StartupScenario.conf_path))
              eq_refl Hval) as (p' & Hrun & Hcalls & _ & Hread).
  exists p'. split; [exact Hrun|]. split; [exact Hcalls|].
  apply (Hread "DetectionThreshold").
  unfold conf_names. cbn [In]. tauto.
Defined.

(** X13 at a parser that finds no file. *)
Lemma ConfAnalysis_swallows_errors_witness :
  (forall cs msg, StartupScenario.calm cs (logging_error msg) = None)
  /\ exists p',
       ConfAnalysis (StartupScenario.lenient 2) StartupScenario.calm
         StartupScenario.str_exc_info (PyStr "nowhere.conf") (fresh_process None)
       = Normal tt p'.
Proof.
  assert (H : forall cs msg, StartupScenario.calm cs (logging_error msg) = None)
    by reflexivity.
  split; [exact H|].
  destruct (ConfAnalysis_swallows_errors (StartupScenario.lenient 2)
              StartupScenario.calm StartupScenario.str_exc_info
              (PyStr "nowhere.conf") (fresh_process None) H) as (p' & Hrun & _).
  exists p'. exact Hrun.
Defined.

(** X14 at a run that consumes the feed. *)
Lemma feed_needs_complete_configuration_witness :
  consumes_feed
    (world_of (run_main Scenario.py (StartupScenario.lenient 2) StartupScenario.calm
                 StartupScenario.str_exc_info (Some StartupScenario.conf_path)))
  = true
  /\ exists CONF,
       StartupScenario.lenient 2 StartupScenario.conf_path = inr CONF
       /\ forall n, In n conf_names -> exists v, getattr CONF n = inr v.
Proof.
  assert (H : consumes_feed
                (world_of (run_main Scenario.py (StartupScenario.lenient 2)
                             StartupScenario.calm StartupScenario.str_exc_info
                             (Some StartupScenario.conf_path)))
              = true) by reflexivity.
  split; [exact H|].
  exact (feed_needs_complete_configuration Scenario.py (StartupScenario.lenient 2)
           StartupScenario.calm StartupScenario.str_exc_info
           StartupScenario.conf_path H).
Defined.

(** X15 at the settings of the fixtures, log type [file]. *)
Lemma main_hands_configuration_to_feed_client_witness :
  (forall n, In n conf_names ->
     getattr (StartupScenario.settings 2) n = inr (ShellScenario.val n))
  /\ In (listen_for_events (PyStr "wss://certstream.calidog.io") PyNone PyNone
           PyNone PyNone)
       (calls (world_of (run_main Scenario.py (StartupScenario.lenient 2)
                           StartupScenario.calm StartupScenario.str_exc_info
                           (Some StartupScenario.conf_path)))).
Proof.
  assert (Hval : forall n, In n conf_names ->
            getattr (StartupScenario.settings 2) n = inr (ShellScenario.val n))
    by (intros n Hn; each_conf_name Hn).
  split; [exact Hval|].
  rewrite (main_hands_configuration_to_feed_client Scenario.py
             (StartupScenario.lenient 2) StartupScenario.calm
             StartupScenario.str_exc_info StartupScenario.conf_path
             (StartupScenario.settings 2) ShellScenario.val "paypal|login" "file"
             eq_refl Hval (fun _ _ => eq_refl) eq_refl eq_refl
             (or_introl eq_refl)).
  cbn. tauto.
Defined.

(** X16 at a log type of [udp]. *)
Lemma unsupported_log_type_is_swallowed_witness :
  (forall n, In n conf_names ->
     getattr ShellScenario.odd_settings n = inr (ShellScenario.odd_val n))
  /\ "udp" <> "file" /\ "udp" <> "syslog"
  /\ consumes_feed
       (world_of (run_main Scenario.py (fun _ => inr ShellScenario.odd_settings)
                    StartupScenario.calm StartupScenario.str_exc_info
                    (Some StartupScenario.conf_path)))
     = false.
Proof.
  assert (Hval : forall n, In n conf_names ->
            getattr ShellScenario.odd_settings n = inr (ShellScenario.odd_val n))
    by (intros n Hn; each_conf_name Hn).
  assert (H1 : "udp" <> "file") by discriminate.
  assert (H2 : "udp" <> "syslog") by discriminate.
  split; [exact Hval|]. split; [exact H1|]. split; [exact H2|].
  exact (proj1 (proj2 (unsupported_log_type_is_swallowed Scenario.py
                         (fun _ => inr ShellScenario.odd_settings)
                         StartupScenario.calm StartupScenario.str_exc_info
                         StartupScenario.conf_path ShellScenario.odd_settings
                         ShellScenario.odd_val "paypal|login" "udp"
                         eq_refl Hval (fun _ _ => eq_refl) eq_refl eq_refl H1 H2))).
Defined.

(** X17 at a command line that is the name of the script alone. *)
Lemma no_argument_prints_usage_witness :
  tl ["CertStreamMonitor.py"] = []
  /\ args_parse StartupScenario.calm ShellScenario.getopt ShellScenario.isfile
       ["CertStreamMonitor.py"] boot
     = Raised (SystemExit 0) {| proc := proc boot; printed := [usage_text] |}.
Proof.
  split; [reflexivity|].
  exact (no_argument_prints_usage StartupScenario.calm ShellScenario.getopt
           ShellScenario.isfile ["CertStreamMonitor.py"] boot eq_refl).
Defined.

(** X18 at [--config], which the option parser does not know. *)
Lemma option_error_exits_with_status_0_witness :
  ShellScenario.getopt ["--config"; "conf/example.conf"]
  = inl "option not recognized"
  /\ args_parse StartupScenario.calm ShellScenario.getopt ShellScenario.isfile
       ["CertStreamMonitor.py"; "--config"; "conf/example.conf"] boot
     = Raised (SystemExit 0)
         {| proc := {| globals := [];
                       calls := [logging_error
                                   " Option Error. Exiting...option not recognized"] |};
            printed := [usage_text] |}.
Proof.
  split; [reflexivity|].
  apply (option_error_exits_with_status_0 StartupScenario.calm ShellScenario.getopt
           ShellScenario.isfile
           ["CertStreamMonitor.py"; "--config"; "conf/example.conf"] boot
           "option not recognized").
  - discriminate.
  - reflexivity.
  - reflexivity.
Defined.

(** X19 at [--conf], the long option the script declares. *)
Lemma other_option_fails_the_assertion_witness :
  ShellScenario.getopt ["--conf"; "conf/example.conf"]
  = inr ([] ++ [("--conf", "conf/example.conf")], [])%list
  /\ args_parse StartupScenario.calm ShellScenario.getopt ShellScenario.isfile
       ["CertStreamMonitor.py"; "--conf"; "conf/example.conf"] boot
     = Raised (AssertionError "Unhandled Option") boot.
Proof.
  split; [reflexivity|].
  apply (other_option_fails_the_assertion StartupScenario.calm ShellScenario.getopt
           ShellScenario.isfile
           ["CertStreamMonitor.py"; "--conf"; "conf/example.conf"] boot boot
           [] [] "--conf" "conf/example.conf" []);
    first [reflexivity | discriminate].
Defined.

(** X20 at [-c] with the configuration file of the fixtures. *)
Lemma args_parse_returns_with_existing_files_witness :
  args_parse StartupScenario.calm ShellScenario.getopt ShellScenario.isfile
    ["CertStreamMonitor.py"; "-c"; "conf/example.conf"] boot
  = Normal tt {| proc := fresh_process (Some StartupScenario.conf_path);
                 printed := [] |}
  /\ exists opts args,
       ShellScenario.getopt ["-c"; "conf/example.conf"] = inr (opts, args)
       /\ forall o a, In (o, a) opts ->
            (o = "-c" \/ o = "--config") /\ ShellScenario.isfile a = true.
Proof.
  assert (H : args_parse StartupScenario.calm ShellScenario.getopt
                ShellScenario.isfile
                ["CertStreamMonitor.py"; "-c"; "conf/example.conf"] boot
              = Normal tt {| proc := fresh_process (Some StartupScenario.conf_path);
                             printed := [] |}) by reflexivity.
  split; [exact H|].
  destruct (args_parse_returns_with_existing_files StartupScenario.calm
              ShellScenario.getopt ShellScenario.isfile _ _ _ H)
    as (opts & args & _ & Hopts & Hall & _).
  exists opts, args. split; [exact Hopts|exact Hall].
Defined.

(** X21 at a command line with the path and no option. *)
Lemma script_without_option_only_logs_witness :
  ShellScenario.getopt ["conf/example.conf"] = inr ([], ["conf/example.conf"])
  /\ calls (proc (world_of
                    (script Scenario.py (StartupScenario.lenient 2)
                       StartupScenario.calm StartupScenario.str_exc_info
                       ShellScenario.getopt ShellScenario.isfile
                       ["CertStreamMonitor.py"; "conf/example.conf"] boot)))
     = [logging_error (" Main error "
                       ++ StartupScenario.str_exc_info (NameError "ConfFile"))].
Proof.
  split; [reflexivity|].
  refine (proj1 (script_without_option_only_logs Scenario.py
                   (StartupScenario.lenient 2) StartupScenario.calm
                   StartupScenario.str_exc_info ShellScenario.getopt
                   ShellScenario.isfile
                   ["CertStreamMonitor.py"; "conf/example.conf"]
                   ["conf/example.conf"] _ eq_refl)).
  discriminate.
Defined.

